(** * Analysis-bot: the single-asset analysis pipeline of [main.py]

    A shallow embedding of the request handler, the CoinGecko / Fear & Greed
    clients, the report builder and the chart helper, followed by the
    properties of the specification that can be stated about them.

    Conventions of the embedding.
    - A Python [str] is a [string]; case conversion and whitespace follow
      Python on the ASCII range.
    - A parsed JSON document (what [resp.json()] and [request.get_json]
      return) is a [json] value; a [dict] is the list of its items.
    - A Python [float] is the rational it denotes.  Where the program itself
      performs float arithmetic ([human_format]) every operation is followed
      by the rounding of IEEE 754 binary64, written out as [Float64.RN].
    - Exceptions are values of [exn]; code that can raise returns a [result];
      code that talks to the network runs in the state monad [M], whose state
      holds the [lru_cache] of [get_coin_list] and the log of requests sent.
    - [pandas_ta] and [sparklines] are third-party libraries whose code is not
      part of the repository: their functions are modelled from the
      specification, in exact arithmetic. *)

From Stdlib Require Import NArith ZArith QArith Qround Qabs Qpower Qreduction.
From Stdlib Require Import Lqa Lia List Bool String Ascii DecimalString.
Import ListNotations.

Set Warnings "-register-all".

Local Open Scope Q_scope.

(* ================================================================== *)
(** * Part I: the embedding *)
(* ================================================================== *)

(** ** binary64 rounding *)

Module Float64.

(** Nearest integer, ties to even. *)
Definition rhe (q : Q) : Z :=
  let f := Qfloor q in
  match Qcompare (q - inject_Z f) (1 # 2) with
  | Lt => f
  | Gt => (f + 1)%Z
  | Eq => if Z.even f then f else (f + 1)%Z
  end.

Definition pow2 (k : Z) : Q := 2 ^ k.

(** The binade of a positive rational:
    [pow2 (expo q) <= q < pow2 (expo q + 1)]. *)
Definition expo (q : Q) : Z :=
  let e := (Z.log2 (Qnum q) - Z.log2 (Zpos (Qden q)))%Z in
  if Qle_bool (pow2 e) q then e else (e - 1)%Z.

(** Nearest value with a 53-bit mantissa, ties to even.  The exponent range
    is left unbounded: the program only ever rounds zero or values of
    magnitude at least 1 and at most the largest binary64 value, where
    neither subnormal numbers nor overflow come into play. *)
Definition RNpos (q : Q) : Q :=
  let k := (expo q - 52)%Z in
  inject_Z (rhe (q / pow2 k)) * pow2 k.

Definition RN (q : Q) : Q :=
  match Qcompare q 0 with
  | Eq => 0
  | Gt => Qred (RNpos q)
  | Lt => Qred (- RNpos (- q))
  end.

(** The rationals that are binary64 values. *)
Definition is_float (x : Q) : Prop := RN x == x.

(** The largest finite binary64 value is just below [2^1024]. *)
Definition overflows (x : Q) : bool := Qle_bool (pow2 1024) (Qabs x).

End Float64.

(** ** Python strings *)

Module Str.

Local Open Scope string_scope.

Definition nl : string := String (ascii_of_nat 10) "".

Definition is_upper (c : ascii) : bool :=
  let n := nat_of_ascii c in (65 <=? n)%nat && (n <=? 90)%nat.

Definition is_lower (c : ascii) : bool :=
  let n := nat_of_ascii c in (97 <=? n)%nat && (n <=? 122)%nat.

Definition lower_char (c : ascii) : ascii :=
  if is_upper c then ascii_of_nat (nat_of_ascii c + 32) else c.

Definition upper_char (c : ascii) : ascii :=
  if is_lower c then ascii_of_nat (nat_of_ascii c - 32) else c.

Fixpoint map_chars (f : ascii -> ascii) (s : string) : string :=
  match s with
  | EmptyString => EmptyString
  | String c s' => String (f c) (map_chars f s')
  end.

(** [s.lower()] and [s.upper()] *)
Definition lower (s : string) : string := map_chars lower_char s.
Definition upper (s : string) : string := map_chars upper_char s.

(** [c.isspace()] on the ASCII range: tab, LF, VT, FF, CR, FS, GS, RS, US
    and the space. *)
Definition is_space (c : ascii) : bool :=
  let n := nat_of_ascii c in
  ((9 <=? n)%nat && (n <=? 13)%nat) || ((28 <=? n)%nat && (n <=? 32)%nat).

Fixpoint lstrip_chars (l : list ascii) : list ascii :=
  match l with
  | c :: l' => if is_space c then lstrip_chars l' else l
  | [] => []
  end.

(** [s.strip()] *)
Definition strip (s : string) : string :=
  string_of_list_ascii
    (rev (lstrip_chars (rev (lstrip_chars (list_ascii_of_string s))))).

(** [s.split()]: the maximal runs of non-whitespace characters.  [cur] is
    the run being read, most recent character first. *)
Fixpoint split_from (cur : list ascii) (l : list ascii) : list string :=
  match l with
  | [] =>
      match cur with
      | [] => []
      | _ => [string_of_list_ascii (rev cur)]
      end
  | c :: l' =>
      if is_space c then
        match cur with
        | [] => split_from [] l'
        | _ => string_of_list_ascii (rev cur) :: split_from [] l'
        end
      else split_from (c :: cur) l'
  end.

Definition split (s : string) : list string :=
  split_from [] (list_ascii_of_string s).

(** [s.replace(old, new)] for one-character [old] and [new]. *)
Definition replace_char (old new : ascii) (s : string) : string :=
  map_chars (fun c => if Ascii.eqb c old then new else c) s.

(** [s[:n]] *)
Definition take (n : nat) (s : string) : string := substring 0 n s.

(** [sep.join(parts)] *)
Definition join (sep : string) (parts : list string) : string :=
  String.concat sep parts.

(** Decimal digits of a natural number. *)
Definition of_N (n : N) : string := NilZero.string_of_uint (N.to_uint n).

(** [str(z)] for a Python [int]. *)
Definition of_Z (z : Z) : string :=
  match z with
  | Zneg p => "-" ++ of_N (Npos p)
  | _ => of_N (Z.to_N z)
  end.

(** Insert a comma before every group of three digits, counted from the
    right; [l] is the digit string reversed. *)
Fixpoint group3_rev (l : list ascii) : list ascii :=
  match l with
  | a :: b :: c :: ((_ :: _) as rest) => a :: b :: c :: ","%char :: group3_rev rest
  | _ => l
  end.

Definition group3 (digits : string) : string :=
  string_of_list_ascii (rev (group3_rev (rev (list_ascii_of_string digits)))).

(** [format(z, ',')] for a Python [int]. *)
Definition of_Z_commas (z : Z) : string :=
  match z with
  | Zneg p => "-" ++ group3 (of_N (Npos p))
  | _ => group3 (of_N (Z.to_N z))
  end.

(** Two digits, zero padded. *)
Definition two_digits (n : Z) : string :=
  of_N (Z.to_N (n / 10)) ++ of_N (Z.to_N (n mod 10)).

(** [f"{x:.2f}"] for a finite float: the exact value is rounded to two
    decimals, ties to even. *)
Definition format_2f (x : Q) : string :=
  let n := Float64.rhe (Qabs x * 100) in
  (match Qcompare x 0 with Lt => "-" | _ => "" end)
    ++ of_N (Z.to_N (n / 100)) ++ "." ++ two_digits (n mod 100).

(** [s.split("\n")]; [cur] is the line being read, most recent character
    first. *)
Fixpoint lines_from (cur : list ascii) (l : list ascii) : list string :=
  match l with
  | [] => [string_of_list_ascii (rev cur)]
  | c :: l' =>
      if Ascii.eqb c (ascii_of_nat 10)
      then string_of_list_ascii (rev cur) :: lines_from [] l'
      else lines_from (c :: cur) l'
  end.

Definition lines (s : string) : list string :=
  lines_from [] (list_ascii_of_string s).

(** [line in s.split("\n")] *)
Definition has_line (line s : string) : bool :=
  existsb (String.eqb line) (lines s).





End Str.

(** ** Python values, exceptions and results *)

Local Open Scope string_scope.

(** A parsed JSON document: [None], [bool], [int], [float], [str], [list]
    and [dict].  The items of a [dict] are kept in order; its keys are
    distinct.  A [JFloat] holds the rational that a finite float denotes;
    the infinities and NaN, which the providers' JSON does not contain, are
    left out. *)
Inductive json : Type :=
| JNull
| JBool (b : bool)
| JInt (z : Z)
| JFloat (x : Q)
| JStr (s : string)
| JArr (items : list json)
| JObj (fields : list (string * json)).

Inductive exn : Type :=
| RequestException            (** [requests.get] raised: no connection, timeout *)
| HTTPError (status : Z)      (** raised by [raise_for_status] *)
| JSONDecodeError             (** the body is not JSON *)
| KeyError (key : json)
| IndexError
| TypeError
| AttributeError
| ValueError
| OverflowError
| ZeroDivisionError.

Inductive result (A : Type) : Type :=
| OK (a : A)
| Raise (e : exn).

Arguments OK {A} a.
Arguments Raise {A} e.

Definition rbind {A B} (r : result A) (k : A -> result B) : result B :=
  match r with
  | OK a => k a
  | Raise e => Raise e
  end.

Declare Scope result_scope.
Delimit Scope result_scope with result.
Notation "x <- r ;; k" := (rbind r (fun x => k))
  (at level 61, r at next level, right associativity) : result_scope.

(** What the interpreter and the libraries print, where the program leaves
    the rendering to them and no property below depends on it. *)
Class Runtime : Type := {
  (** [str(exc)] *)
  str_of_exn : exn -> string;
  (** [str(x)] for a float *)
  str_of_float : Q -> string;
  (** [format(x, ',')] for a float *)
  format_float_commas : Q -> string;
  (** [str(v)] for a list or a dict *)
  str_of_container : json -> string;
  (** [float(s)] for a string; [None] when it raises [ValueError] *)
  float_of_str : string -> option Q;
  (** the square root of a non-negative float *)
  sqrt : Q -> Q;
  sqrt_0 : forall x, x == 0 -> sqrt x == 0
}.

Module Py.

Fixpoint lookup (k : string) (fields : list (string * json)) : option json :=
  match fields with
  | [] => None
  | (k', v) :: rest => if String.eqb k k' then Some v else lookup k rest
  end.

(** [bool(v)] *)
Definition truthy (v : json) : bool :=
  match v with
  | JNull => false
  | JBool b => b
  | JInt z => negb (z =? 0)%Z
  | JFloat x => negb (Qeq_bool x 0)
  | JStr s => negb (String.eqb s "")
  | JArr items => match items with [] => false | _ => true end
  | JObj fields => match fields with [] => false | _ => true end
  end.

(** [v[k]] for a string key *)
Definition getitem (v : json) (k : string) : result json :=
  match v with
  | JObj fields =>
      match lookup k fields with
      | Some x => OK x
      | None => Raise (KeyError (JStr k))
      end
  | _ => Raise TypeError
  end.

(** [v[0]] *)
Definition getitem0 (v : json) : result json :=
  match v with
  | JArr items =>
      match items with
      | x :: _ => OK x
      | [] => Raise IndexError
      end
  | JStr s =>
      match s with
      | String c _ => OK (JStr (String c ""))
      | EmptyString => Raise IndexError
      end
  | JObj _ => Raise (KeyError (JInt 0))
  | _ => Raise TypeError
  end.

(** [v.get(k, default)] *)
Definition get (v : json) (k : string) (default : json) : result json :=
  match v with
  | JObj fields =>
      match lookup k fields with
      | Some x => OK x
      | None => OK default
      end
  | _ => Raise AttributeError
  end.

(** [v.upper()], [v.lower()], [v.strip()] *)
Definition str_method (f : string -> string) (v : json) : result string :=
  match v with
  | JStr s => OK (f s)
  | _ => Raise AttributeError
  end.

(** [v[:n]] *)
Definition slice_to (n : nat) (v : json) : result json :=
  match v with
  | JStr s => OK (JStr (Str.take n s))
  | JArr items => OK (JArr (firstn n items))
  | _ => Raise TypeError
  end.

(** [float(v)] *)
Definition float `{Runtime} (v : json) : result Q :=
  match v with
  | JInt z =>
      let x := Float64.RN (inject_Z z) in
      if Float64.overflows x then Raise OverflowError else OK x
  | JFloat x => OK x
  | JBool b => OK (if b then 1 else 0)
  | JStr s =>
      match float_of_str s with
      | Some x => OK x
      | None => Raise ValueError
      end
  | _ => Raise TypeError
  end.

(** [str(v)], as an f-string field [{v}] renders it *)
Definition str `{Runtime} (v : json) : string :=
  match v with
  | JNull => "None"
  | JBool b => if b then "True" else "False"
  | JInt z => Str.of_Z z
  | JFloat x => str_of_float x
  | JStr s => s
  | _ => str_of_container v
  end.

(** [f"{v:,}"] *)
Definition format_commas `{Runtime} (v : json) : result string :=
  match v with
  | JInt z => OK (Str.of_Z_commas z)
  | JBool b => OK (if b then "1" else "0")
  | JFloat x => OK (format_float_commas x)
  | JStr _ => Raise ValueError
  | _ => Raise TypeError
  end.

(** [f"{x:.2f}"] for a float that may be NaN *)
Definition format_2f (x : option Q) : string :=
  match x with
  | Some q => Str.format_2f q
  | None => "nan"
  end.

End Py.

(** ** Utility helpers *)

Local Open Scope result_scope.

Definition suffixes : list string := [""; "K"; "M"; "B"; "T"].

(** The [while] loop of [human_format].  [None] means that [fuel]
    iterations did not reach the exit; [human_format_fuel] is always
    enough. *)
Fixpoint human_format_loop (fuel : nat) (num : Q) (magnitude : nat)
  : option (Q * nat) :=
  if Qle_bool 1000 (Qabs num) then
    match fuel with
    | O => None
    | S fuel' =>
        human_format_loop fuel' (Float64.RN (num / 1000)) (S magnitude)
    end
  else Some (num, magnitude).

Definition human_format_fuel (num : Q) : nat :=
  Z.to_nat (Float64.expo (Qabs num)).

(** The scaled number and the magnitude the loop of [human_format] ends
    with, for a float [num]. *)
Definition human_format_scale (num : Q) : option (Q * nat) :=
  human_format_loop (human_format_fuel num) num 0.

(** Format large numbers into human-readable strings. *)
Definition human_format `{Runtime} (num : json) : result string :=
  num <- Py.float num ;;
  match human_format_scale num with
  | Some (num, magnitude) =>
      match nth_error suffixes magnitude with
      | Some suffix => OK (Str.format_2f num ++ suffix)
      | None => Raise IndexError
      end
  | None => Raise OverflowError   (* unreachable: the loop always exits *)
  end.

(** [1000 ^ j], and its mantissa and exponent as a binary64 value (for
    [j <= 7]): the thresholds the loop of [human_format] compares with. *)
Definition thousand_pow (j : nat) : Q := inject_Z (1000 ^ Z.of_nat j).
Definition thousand_mant (j : nat) : Z :=
  (125 ^ Z.of_nat j * 2 ^ (53 - 7 * Z.of_nat j))%Z.
Definition thousand_exp (j : nat) : Z := (10 * Z.of_nat j - 53)%Z.

(** ** The network and the process state *)

Inductive request : Type :=
| CoinsList                                   (** [GET /coins/list] *)
| CoinOverview (coin_id : string)             (** [GET /coins/{coin_id}] *)
| MarketChart (coin_id : string) (days : Z)   (** [GET /coins/{coin_id}/market_chart] *)
| FearGreed (timeout : Z).                    (** [GET FNG_API] *)

(** What [requests.get] comes back with: it raises (no connection, or the
    timeout elapsed), or it returns a response with a status code and a
    body, which may or may not be JSON. *)
Inductive http_outcome : Type :=
| NoResponse
| Response (status_code : Z) (body : option json).

Definition world : Type := request -> http_outcome.

Record state : Type := {
  coin_list_cache : option json;   (** the [lru_cache] of [get_coin_list] *)
  sent : list request              (** every request sent so far, oldest first *)
}.

Definition M (A : Type) : Type := state -> result A * state.

Definition ret {A} (a : A) : M A := fun st => (OK a, st).

Definition bind {A B} (m : M A) (k : A -> M B) : M B :=
  fun st =>
    match m st with
    | (OK a, st') => k a st'
    | (Raise e, st') => (Raise e, st')
    end.

Definition lift {A} (r : result A) : M A := fun st => (r, st).

(** [try: m except Exception: handler] *)
Definition try_except {A} (m : M A) (handler : M A) : M A :=
  fun st =>
    match m st with
    | (OK a, st') => (OK a, st')
    | (Raise _, st') => handler st'
    end.

Declare Scope M_scope.
Delimit Scope M_scope with M.
Notation "x <- m ;; k" := (bind m (fun x => k))
  (at level 61, m at next level, right associativity) : M_scope.
Notation "' pat <- m ;; k" := (bind m (fun x => match x with pat => k end))
  (at level 61, pat pattern, m at next level, right associativity) : M_scope.

Module Requests.

(** [requests.get(url, ...)] *)
Definition get (w : world) (r : request) : M (Z * option json) :=
  fun st =>
    let st' := {| coin_list_cache := coin_list_cache st; sent := sent st ++ [r] |} in
    match w r with
    | NoResponse => (Raise RequestException, st')
    | Response status_code body => (OK (status_code, body), st')
    end.

(** [resp.raise_for_status()]: an [HTTPError] for a 4xx or 5xx status. *)
Definition raise_for_status (resp : Z * option json) : result unit :=
  let status_code := fst resp in
  if ((400 <=? status_code) && (status_code <? 600))%Z
  then Raise (HTTPError status_code) else OK tt.

(** [resp.json()] *)
Definition json (resp : Z * option json) : result json :=
  match snd resp with
  | Some data => OK data
  | None => Raise JSONDecodeError
  end.

End Requests.

(** ** Symbol resolver *)

Definition get_coin_list_uncached (w : world) : M json :=
  (resp <- Requests.get w CoinsList ;;
   _ <- lift (Requests.raise_for_status resp) ;;
   lift (Requests.json resp))%M.

(** [@lru_cache(maxsize=1)]: the first value returned is kept for the
    lifetime of the process; a call that raises caches nothing. *)
Definition get_coin_list (w : world) : M json :=
  fun st =>
    match coin_list_cache st with
    | Some coins => (OK coins, st)
    | None =>
        match get_coin_list_uncached w st with
        | (OK coins, st') =>
            (OK coins, {| coin_list_cache := Some coins; sent := sent st' |})
        | (Raise e, st') => (Raise e, st')
        end
    end.

(** What a [for] loop over [v] visits. *)
Definition iterate (v : json) : result (list json) :=
  match v with
  | JArr items => OK items
  | JObj fields => OK (map (fun kv => JStr (fst kv)) fields)
  | JStr s => OK (map (fun c => JStr (String c "")) (list_ascii_of_string s))
  | _ => Raise TypeError
  end.

(** The [for] loop of [symbol_to_id]; [JNull] is the final [return None]. *)
Fixpoint symbol_to_id_loop (symbol : string) (coins : list json) : result json :=
  match coins with
  | [] => OK JNull
  | coin :: rest =>
      sym <- Py.getitem coin "symbol" ;;
      sym <- Py.str_method Str.lower sym ;;
      if String.eqb sym symbol then Py.getitem coin "id"
      else symbol_to_id_loop symbol rest
  end.

Definition symbol_to_id (w : world) (symbol : string) : M json :=
  let symbol := Str.lower symbol in
  (coins <- get_coin_list w ;;
   coins <- lift (iterate coins) ;;
   lift (symbol_to_id_loop symbol coins))%M.

(** The symbol and the identifier of an entry of the provider's list. *)
Definition coin_symbol (coin : json) : option string :=
  match coin with
  | JObj fields =>
      match Py.lookup "symbol" fields with
      | Some (JStr s) => Some s
      | _ => None
      end
  | _ => None
  end.

Definition coin_id (coin : json) : option json :=
  match coin with
  | JObj fields => Py.lookup "id" fields
  | _ => None
  end.

Definition well_formed_coin (coin : json) : Prop :=
  coin_symbol coin <> None /\ coin_id coin <> None.

(** Case-insensitive exact match as the specification words it, character
    by character: two characters match when they are equal or when one is
    an upper-case letter and the other its lower-case form.
    [symbol_to_id] compares the lowered strings instead; the two relations
    are shown to be the same. *)
Definition same_letter (c d : ascii) : bool :=
  let m := nat_of_ascii c in
  let n := nat_of_ascii d in
  (m =? n)%nat
  || (Str.is_upper c && (n =? m + 32)%nat)
  || (Str.is_upper d && (m =? n + 32)%nat).

Fixpoint equal_ignoring_case (a b : string) : bool :=
  match a, b with
  | EmptyString, EmptyString => true
  | String c a', String d b' => same_letter c d && equal_ignoring_case a' b'
  | _, _ => false
  end.

Definition matches (symbol : string) (coin : json) : Prop :=
  exists s, coin_symbol coin = Some s /\ equal_ignoring_case s symbol = true.

(** ** Market data client *)

Module Overview.
Record t : Type := mk {
  name : json;
  symbol : string;
  current_price : json;
  market_cap : json;
  volume_24h : json;
  circulating_supply : json;
  total_supply : json;
  description : json
}.
End Overview.

(** [data.get("description", {}).get("en", "")[:400]] *)
Definition description_of_json (data : json) : result json :=
  description <- Py.get data "description" (JObj []) ;;
  description <- Py.get description "en" (JStr "") ;;
  Py.slice_to 400 description.

(** [md[key]["usd"]], when both subscripts succeed. *)
Definition usd_quote (md : json) (key : string) : option json :=
  match md with
  | JObj fields =>
      match Py.lookup key fields with
      | Some (JObj quotes) => Py.lookup "usd" quotes
      | _ => None
      end
  | _ => None
  end.

(** [fields.get(key)] *)
Definition optional (fields : list (string * json)) (key : string) : json :=
  match Py.lookup key fields with
  | Some v => v
  | None => JNull
  end.

(** The payload lacks one of the fields [fetch_market_overview] cannot do
    without: the symbol, the market data, or one of the three quotes. *)
Definition required_missing (data : json) : Prop :=
  match data with
  | JObj fields =>
      Py.lookup "symbol" fields = None
      \/ match Py.lookup "market_data" fields with
         | None => True
         | Some md =>
             usd_quote md "current_price" = None
             \/ usd_quote md "market_cap" = None
             \/ usd_quote md "total_volume" = None
         end
  | _ => True
  end.

(** The body of [fetch_market_overview] after [data = resp.json()]. *)
Definition overview_of_json (data : json) : result Overview.t :=
  md <- Py.getitem data "market_data" ;;
  name <- Py.get data "name" JNull ;;
  symbol <- Py.get data "symbol" JNull ;;
  symbol <- Py.str_method Str.upper symbol ;;
  current_price <- Py.getitem md "current_price" ;;
  current_price <- Py.getitem current_price "usd" ;;
  market_cap <- Py.getitem md "market_cap" ;;
  market_cap <- Py.getitem market_cap "usd" ;;
  volume_24h <- Py.getitem md "total_volume" ;;
  volume_24h <- Py.getitem volume_24h "usd" ;;
  circulating_supply <- Py.get md "circulating_supply" JNull ;;
  total_supply <- Py.get md "total_supply" JNull ;;
  description <- description_of_json data ;;
  OK (Overview.mk name symbol current_price market_cap volume_24h
        circulating_supply total_supply description).

Definition fetch_market_overview `{Runtime} (w : world) (coin_id : json)
  : M Overview.t :=
  (resp <- Requests.get w (CoinOverview (Py.str coin_id)) ;;
   _ <- lift (Requests.raise_for_status resp) ;;
   data <- lift (Requests.json resp) ;;
   lift (overview_of_json data))%M.

(** Modelled from the spec: the [pandas] data frame built by [fetch_ohlc]
    is not code of the repository.  A PriceSeries is the ordered sequence of
    daily closing prices; a price that the provider left [null] is NaN
    ([None]); a payload that is not a list of [[timestamp, price]] rows is
    rejected. *)
Definition column : Type := list (option Q).

Definition price_row (row : json) : result (option Q) :=
  match row with
  | JArr [ts; close] =>
      match ts with
      | JInt _ | JFloat _ | JNull =>
          match close with
          | JInt z => OK (Some (inject_Z z))
          | JFloat x => OK (Some x)
          | JNull => OK None
          | _ => Raise ValueError
          end
      | _ => Raise ValueError
      end
  | _ => Raise ValueError
  end.

Fixpoint price_rows (rows : list json) : result column :=
  match rows with
  | [] => OK []
  | row :: rest =>
      close <- price_row row ;;
      closes <- price_rows rest ;;
      OK (close :: closes)
  end.

(** Modelled from the spec: [pd.DataFrame(prices, columns=["ts", "close"])]
    is missing.  The closing prices, in the order of the rows. *)
Definition data_frame (prices : json) : result column :=
  match prices with
  | JArr rows => price_rows rows
  | _ => Raise ValueError
  end.

Definition fetch_ohlc `{Runtime} (w : world) (coin_id : json) (days : Z)
  : M column :=
  (resp <- Requests.get w (MarketChart (Py.str coin_id) days) ;;
   _ <- lift (Requests.raise_for_status resp) ;;
   data <- lift (Requests.json resp) ;;
   prices <- lift (Py.getitem data "prices") ;;
   lift (data_frame prices))%M.

(** ** Indicator engine *)

(** Modelled from the spec: [pandas_ta] is not code of the repository.  The
    indicators follow the standard formulas with the default parameters the
    specification lists, over exact rationals; a value is undefined (NaN,
    [None]) until its window is filled, and NaN propagates through
    arithmetic.  Results are kept in lowest terms. *)
Module Ta.

Definition lift2 (f : Q -> Q -> Q) (a b : option Q) : option Q :=
  match a, b with
  | Some x, Some y => Some (Qred (f x y))
  | _, _ => None
  end.

Fixpoint sum (xs : column) : option Q :=
  match xs with
  | [] => Some 0
  | x :: rest => lift2 Qplus x (sum rest)
  end.

Definition mean (xs : column) : option Q :=
  match xs with
  | [] => None
  | _ => lift2 Qdiv (sum xs) (Some (inject_Z (Z.of_nat (List.length xs))))
  end.

(** The [length] values that end at row [i], once there are that many. *)
Definition window (length : nat) (xs : column) (i : nat) : option column :=
  if ((1 <=? length) && (length <=? i + 1))%nat
  then Some (firstn length (skipn (i + 1 - length) xs))
  else None.

Definition rolling (f : column -> option Q) (length : nat) (xs : column) : column :=
  map (fun i => match window length xs i with
                | Some win => f win
                | None => None
                end)
      (seq 0 (List.length xs)).

(** Modelled from the spec: [pandas_ta.sma] is missing.  Simple moving
    average: the mean of the trailing window. *)
Definition sma (xs : column) (length : nat) : column := rolling mean length xs.

Fixpoint leading_nans (xs : column) : nat :=
  match xs with
  | None :: rest => S (leading_nans rest)
  | _ => O
  end.

(** [y = alpha * x + (1 - alpha) * y_prev], row after row. *)
Fixpoint ewm (alpha : Q) (prev : option Q) (xs : column) : column :=
  match xs with
  | [] => []
  | x :: rest =>
      let y := lift2 (fun x p => alpha * x + (1 - alpha) * p) x prev in
      y :: ewm alpha y rest
  end.

(** An exponential average seeded with the simple average of the first
    [length] defined rows, which is its value at the last of them. *)
Definition seeded_ewm (alpha : Q) (xs : column) (length : nat) : column :=
  let lead := leading_nans xs in
  let ys := skipn lead xs in
  if ((length =? 0) || (List.length ys <? length))%nat
  then repeat None (List.length xs)
  else
    let seed := mean (firstn length ys) in
    (repeat None (lead + length - 1) ++ seed :: ewm alpha seed (skipn length ys))%list.

(** Modelled from the spec: [pandas_ta.ema] is missing.  Exponential moving
    average, smoothing [2 / (length + 1)]. *)
Definition ema (xs : column) (length : nat) : column :=
  seeded_ewm (2 / inject_Z (Z.of_nat length + 1)) xs length.

(** Wilder's moving average, smoothing [1 / length]. *)
Definition rma (xs : column) (length : nat) : column :=
  seeded_ewm (1 / inject_Z (Z.of_nat length)) xs length.

(** Row-to-row change; the first row has none. *)
Fixpoint diff_from (prev : option Q) (xs : column) : column :=
  match xs with
  | [] => []
  | x :: rest => lift2 Qminus x prev :: diff_from x rest
  end.

Definition diff (xs : column) : column := diff_from None xs.

Definition gain (d : option Q) : option Q :=
  option_map (fun x => if Qle_bool 0 x then x else 0) d.

Definition loss (d : option Q) : option Q :=
  option_map (fun x => if Qle_bool 0 x then 0 else - x) d.

(** [100 * up / (up + down)]; with no movement either way this is [0 / 0],
    which float arithmetic evaluates to NaN without raising.  Both averages
    are non-negative, so the denominator vanishes only with the numerator. *)
Definition rsi_ratio (up down : option Q) : option Q :=
  match up, down with
  | Some u, Some d => if Qeq_bool (u + d) 0 then None else Some (100 * u / (u + d))
  | _, _ => None
  end.

(** Modelled from the spec: [pandas_ta.rsi] is missing.  Relative strength
    index: recent gains against recent gains and losses, both smoothed by
    Wilder's average. *)
Definition rsi (xs : column) (length : nat) : column :=
  let d := diff xs in
  let up := rma (map gain d) length in
  let down := rma (map loss d) length in
  map (fun p => rsi_ratio (fst p) (snd p)) (combine up down).

(** Modelled from the spec: [pandas_ta.macd] is missing.  MACD line and
    signal line, parameters 12 / 26 / 9. *)
Definition macd (xs : column) : column * column :=
  let line := map (fun p => lift2 Qminus (fst p) (snd p))
                  (combine (ema xs 12) (ema xs 26)) in
  (line, ema line 9).

(** Population standard deviation of a window. *)
Definition stdev `{Runtime} (win : column) : option Q :=
  match mean win with
  | Some m =>
      option_map sqrt
        (mean (map (option_map (fun x => (x - m) * (x - m))) win))
  | None => None
  end.

(** Modelled from the spec: [pandas_ta.bbands] is missing.  Bollinger
    bands, window 20, two standard deviations: lower, middle, upper. *)
Definition bbands `{Runtime} (xs : column) : column * column * column :=
  let mid := sma xs 20 in
  let dev := rolling stdev 20 xs in
  (map (fun p => lift2 (fun m d => m - 2 * d) (fst p) (snd p)) (combine mid dev),
   mid,
   map (fun p => lift2 (fun m d => m + 2 * d) (fst p) (snd p)) (combine mid dev)).

End Ta.

(** The IndicatorFrame: the price column and the derived columns, under
    the names the report reads them by. *)
Module Frame.
Record t : Type := mk {
  close : column;
  SMA20 : column;
  SMA50 : column;
  SMA200 : column;
  EMA20 : column;
  EMA50 : column;
  EMA200 : column;
  RSI : column;
  MACD_12_26_9 : column;
  MACDs_12_26_9 : column;
  BBL_20_2_0 : column;
  BBM_20_2_0 : column;
  BBU_20_2_0 : column
}.
End Frame.

Definition compute_technicals `{Runtime} (df : column) : Frame.t :=
  let macd := Ta.macd df in
  let bb := Ta.bbands df in
  Frame.mk df
    (Ta.sma df 20) (Ta.sma df 50) (Ta.sma df 200)
    (Ta.ema df 20) (Ta.ema df 50) (Ta.ema df 200)
    (Ta.rsi df 14)
    (fst macd) (snd macd)
    (fst (fst bb)) (snd (fst bb)) (snd bb).

(** One row of the frame. *)
Module Row.
Record t : Type := mk {
  close : option Q;
  SMA20 : option Q;
  SMA50 : option Q;
  SMA200 : option Q;
  EMA20 : option Q;
  EMA50 : option Q;
  EMA200 : option Q;
  RSI : option Q;
  MACD_12_26_9 : option Q;
  MACDs_12_26_9 : option Q;
  BBL_20_2_0 : option Q;
  BBM_20_2_0 : option Q;
  BBU_20_2_0 : option Q
}.
End Row.

(** The last value of a column; NaN when the column is empty. *)
Definition last_value (c : column) : option Q := last c None.

(** [df_ta.iloc[-1]] *)
Definition iloc_last (f : Frame.t) : result Row.t :=
  match Frame.close f with
  | [] => Raise IndexError
  | _ =>
      OK (Row.mk (last_value (Frame.close f))
            (last_value (Frame.SMA20 f)) (last_value (Frame.SMA50 f))
            (last_value (Frame.SMA200 f))
            (last_value (Frame.EMA20 f)) (last_value (Frame.EMA50 f))
            (last_value (Frame.EMA200 f))
            (last_value (Frame.RSI f))
            (last_value (Frame.MACD_12_26_9 f)) (last_value (Frame.MACDs_12_26_9 f))
            (last_value (Frame.BBL_20_2_0 f)) (last_value (Frame.BBM_20_2_0 f))
            (last_value (Frame.BBU_20_2_0 f)))
  end.

(** ** Trend rendering *)

(** Modelled from the spec: [sparklines] is not code of the repository.  It
    returns the lines of the chart, here a single one, made of one
    block-height glyph per number, scaled to the minimum and maximum of the
    numbers it is given.  A glyph is its index in [blocks]. *)
Module Sparklines.

Definition blocks : list string :=
  [" "; "▁"; "▂"; "▃"; "▄"; "▅"; "▆"; "▇"; "█"].

Definition minimum (numbers : list Q) : Q :=
  fold_right (fun x m => if Qle_bool x m then x else m) (hd 0 numbers) numbers.

Definition maximum (numbers : list Q) : Q :=
  fold_right (fun x m => if Qle_bool m x then x else m) (hd 0 numbers) numbers.

(** The glyph of one number, given the minimum and the spread of all. *)
Definition glyph (min_ dv x : Q) : nat :=
  if Qeq_bool dv 0 then 4%nat
  else match Float64.rhe (7 * (x - min_) / dv + 1) with
       | Zpos p => Pos.to_nat p
       | _ => 1%nat
       end.

(** Modelled from the spec: the scaling of [sparklines] is missing.  Every
    number gets its glyph, scaled to the minimum and maximum of all. *)
Definition scale_values (numbers : list Q) : list nat :=
  let min_ := minimum numbers in
  let dv := maximum numbers - min_ in
  map (glyph min_ dv) numbers.

(** Modelled from the spec: [sparklines.sparklines] is missing.  The lines
    of the chart: a single line, one glyph per number. *)
Definition sparklines (numbers : list Q) : list (list nat) :=
  match numbers with
  | [] => [[]]
  | _ => [scale_values numbers]
  end.

(** The text of a line of glyphs. *)
Definition render (line : list nat) : string :=
  String.concat "" (map (fun g => nth g blocks " ") line).

End Sparklines.

(** [l[skip::step]] for a positive [step]: the element at [skip] and every
    [step]-th one after it. *)
Fixpoint stride {A} (skip step : nat) (l : list A) : list A :=
  match l with
  | [] => []
  | x :: rest =>
      match skip with
      | O => x :: stride (step - 1) step rest
      | S skip' => stride skip' step rest
      end
  end.

(** [series[::step]] *)
Definition slice_step {A} (series : list A) (step : Z) : result (list A) :=
  match step with
  | Z0 => Raise ValueError
  | Zpos p => OK (stride 0 (Pos.to_nat p) series)
  | Zneg p => OK (stride 0 (Pos.to_nat p) (rev series))
  end.

(** [lines[0]] *)
Definition first_line (lines : list (list nat)) : result (list nat) :=
  match lines with
  | line :: _ => OK line
  | [] => Raise IndexError
  end.

Definition default_width : Z := 60.

Definition build_ascii_chart (series : list Q) (width : Z) : result (list nat) :=
  if (Z.of_nat (List.length series) <? width)%Z then
    first_line (Sparklines.sparklines series)
  else if (width =? 0)%Z then Raise ZeroDivisionError
  else
    let step := (Z.of_nat (List.length series) / width)%Z in
    sampled <- slice_step series step ;;
    first_line (Sparklines.sparklines sampled).

(** ** Report builder *)

(** [df["close"].values] handed to [sparklines]: a NaN among the numbers
    makes the library fail. *)
Fixpoint values (c : column) : result (list Q) :=
  match c with
  | [] => OK []
  | Some x :: rest => xs <- values rest ;; OK (x :: xs)
  | None :: rest => Raise ValueError
  end.

(** [s.tail(n)] *)
Definition tail (n : nat) (c : column) : column :=
  skipn (List.length c - n) c.

(** [s.min()] and [s.max()]: NaN values are skipped; NaN if nothing is left. *)
Definition column_fold (pick : Q -> Q -> Q) (c : column) : option Q :=
  fold_left (fun acc x =>
               match acc, x with
               | Some a, Some b => Some (pick a b)
               | None, _ => x
               | _, None => acc
               end) c None.

Definition column_min : column -> option Q :=
  column_fold (fun a b => if Qle_bool a b then a else b).

Definition column_max : column -> option Q :=
  column_fold (fun a b => if Qle_bool a b then b else a).

Definition not_found_message (symbol : string) : string :=
  "❌ Asset symbol '" ++ symbol ++ "' not found on CoinGecko.".

(** The pair that stands for an unavailable reading. *)
Definition sentinel : json * json := (JStr "N/A", JStr "Unavailable").

(** The sentiment block of [analyze_asset]: the reading of the Fear & Greed
    index, or the sentinel pair when anything in the [try] raises. *)
Definition fear_greed_index (w : world) : M (json * json) :=
  try_except
    (resp <- Requests.get w (FearGreed 10) ;;
     data <- lift (Requests.json resp) ;;
     data <- lift (Py.getitem data "data") ;;
     fng <- lift (Py.getitem0 data) ;;
     fear_greed <- lift (Py.getitem fng "value") ;;
     fng_text <- lift (Py.getitem fng "value_classification") ;;
     ret (fear_greed, fng_text))%M
    (ret sentinel).

(** For the statements about the sentiment block: the reading of a decoded
    payload, and the state once a request is sent. *)
Definition reading_of (data : json) : result (json * json) :=
  data <- Py.getitem data "data" ;;
  fng <- Py.getitem0 data ;;
  fear_greed <- Py.getitem fng "value" ;;
  fng_text <- Py.getitem fng "value_classification" ;;
  OK (fear_greed, fng_text).

Definition after_request (st : state) (r : request) : state :=
  {| coin_list_cache := coin_list_cache st; sent := (sent st ++ [r])%list |}.

(** The lines of the report, from [lines = []] to the last [append]. *)
Definition report_lines `{Runtime} (overview : Overview.t) (latest : Row.t)
    (support resistance : option Q) (close : column)
    (fear_greed fng_text : json) : result (list string) :=
  price <- Py.format_commas (Overview.current_price overview) ;;
  market_cap <- human_format (Overview.market_cap overview) ;;
  volume_24h <- human_format (Overview.volume_24h overview) ;;
  circulating_supply <- human_format (Overview.circulating_supply overview) ;;
  total_supply <-
    (if Py.truthy (Overview.total_supply overview)
     then human_format (Overview.total_supply overview)
     else OK "∞") ;;
  utility <-
    (if Py.truthy (Overview.description overview)
     then
       description <- Py.str_method (Str.replace_char (ascii_of_nat 10) " "%char)
                        (Overview.description overview) ;;
       OK ["Utility: " ++ description ++ "…"]
     else OK []) ;;
  chart_ascii <-
    (series <- values close ;; build_ascii_chart series default_width) ;;
  OK (List.app
      [ "⸻";
        "🪙 Overview — " ++ Py.str (Overview.name overview)
          ++ " (" ++ Overview.symbol overview ++ ")";
        "Price: $" ++ price ++ " | Market Cap: $" ++ market_cap
          ++ " | 24h Vol: $" ++ volume_24h;
        "Supply: " ++ circulating_supply ++ " / " ++ total_supply ]
      (List.app utility
         [ Str.nl ++ "📈 Technical Analysis";
           "SMA(20/50/200): " ++ Py.format_2f (Row.SMA20 latest)
             ++ ", " ++ Py.format_2f (Row.SMA50 latest)
             ++ ", " ++ Py.format_2f (Row.SMA200 latest);
           "EMA(20/50/200): " ++ Py.format_2f (Row.EMA20 latest)
             ++ ", " ++ Py.format_2f (Row.EMA50 latest)
             ++ ", " ++ Py.format_2f (Row.EMA200 latest);
           "RSI(14): " ++ Py.format_2f (Row.RSI latest);
           "MACD: " ++ Py.format_2f (Row.MACD_12_26_9 latest)
             ++ " | Signal: " ++ Py.format_2f (Row.MACDs_12_26_9 latest);
           "Bollinger Bands (20): Lower " ++ Py.format_2f (Row.BBL_20_2_0 latest)
             ++ " | Middle " ++ Py.format_2f (Row.BBM_20_2_0 latest)
             ++ " | Upper " ++ Py.format_2f (Row.BBU_20_2_0 latest);
           "Support (30d): " ++ Py.format_2f support
             ++ " | Resistance (30d): " ++ Py.format_2f resistance;
           "Price Chart: " ++ Sparklines.render chart_ascii;
           Str.nl ++ "📰 Sentiment Analysis";
           "Fear & Greed Index: " ++ Py.str fear_greed
             ++ " (" ++ Py.str fng_text ++ ")";
           "Social Sentiment: 🔧 Not implemented (Twitter/Reddit API required)";
           "Whale Activity: 🔧 Not implemented (Whale Alert API required)";
           Str.nl ++ "🔗 On-Chain Metrics";
           "Active Addresses: 🔧 Not implemented (Glassnode)";
           "Network Fees/Revenue: 🔧 Not implemented";
           "Token Velocity: 🔧 Not implemented";
           Str.nl ++ "📊 Tokenomics & Fundamentals";
           "Allocation Breakdown: 🔧 Not available via free API";
           "Vesting Schedule: 🔧 Not available";
           "Emission / Inflation: 🔧 Not available";
           "Governance: 🔧 Not available";
           "⸻" ])).

Definition analyze_asset `{Runtime} (w : world) (symbol : string) : M string :=
  (coin_id <- symbol_to_id w symbol ;;
   if negb (Py.truthy coin_id) then ret (not_found_message symbol)
   else
     overview <- fetch_market_overview w coin_id ;;
     df <- fetch_ohlc w coin_id 365 ;;
     let df_ta := compute_technicals df in
     latest <- lift (iloc_last df_ta) ;;
     let recent_window := tail 30 df in
     let support := column_min recent_window in
     let resistance := column_max recent_window in
     ' (fear_greed, fng_text) <- fear_greed_index w ;;
     lines <- lift (report_lines overview latest support resistance df
                      fear_greed fng_text) ;;
     ret (Str.join Str.nl lines))%M.

(** ** Request handler *)

(** What the client receives: [jsonify(body), status], or the error page the
    framework produces on its own (400 for a body that is not JSON, 500 for
    an exception that escapes the handler). *)
Inductive http_response : Type :=
| Jsonify (body : json) (status : Z)
| Abort (status : Z).

Definition handle_analyze `{Runtime} (w : world) (request_body : option json)
  : state -> http_response * state :=
  fun st =>
    match request_body with
    | None => (Abort 400, st)
    | Some data =>
        match (command <- Py.get data "command" (JStr "") ;;
               Py.str_method Str.strip command) with
        | Raise _ => (Abort 500, st)
        | OK command =>
            if negb (Py.truthy (JStr command)) then
              (Jsonify (JObj [("error", JStr "No command provided.")]) 400, st)
            else
              match rev (Str.split command) with
              | [] => (Abort 500, st)
              | token :: _ =>
                  let symbol := Str.upper token in
                  match analyze_asset w symbol st with
                  | (OK report, st') =>
                      (Jsonify (JObj [("report", JStr report)]) 200, st')
                  | (Raise exc, st') =>
                      (Jsonify (JObj [("error", JStr (str_of_exn exc))]) 500, st')
                  end
              end
        end
    end.

(** An instance of [Runtime] for running the embedding on examples.  The
    square root is taken to fifteen decimals; floats and containers are
    rendered by placeholders. *)
Definition sample_sqrt (x : Q) : Q :=
  inject_Z (Z.sqrt (Qnum x * Zpos (Qden x) * 10 ^ 30))
  / (inject_Z (Zpos (Qden x)) * inject_Z (10 ^ 15)).

#[global, refine] Instance sample_runtime : Runtime := {|
  str_of_exn := fun _ => "error";
  str_of_float := Str.format_2f;
  format_float_commas := Str.format_2f;
  str_of_container := fun _ => "[...]";
  float_of_str := fun _ => None;
  sqrt := sample_sqrt
|}.
Proof.
  intros [n d] E. unfold Qeq in E. simpl in E.
  assert (n = 0)%Z as -> by lia. reflexivity.
Defined.

(** ** Sample data: the end-to-end scenario of the specification *)

Definition initial_state : state := {| coin_list_cache := None; sent := [] |}.

Definition sample_coins : json :=
  JArr [ JObj [("id", JStr "ethereum"); ("symbol", JStr "eth"); ("name", JStr "Ethereum")];
         JObj [("id", JStr "bitcoin"); ("symbol", JStr "btc"); ("name", JStr "Bitcoin")];
         JObj [("id", JStr "batcat"); ("symbol", JStr "BTC"); ("name", JStr "BatCat")] ].

Definition sample_market_data : json :=
  JObj [ ("current_price", JObj [("usd", JInt 50000)]);
         ("market_cap", JObj [("usd", JInt 1000000000000)]);
         ("total_volume", JObj [("usd", JInt 20000000000)]);
         ("circulating_supply", JInt 19500000);
         ("total_supply", JInt 21000000) ].

Definition sample_overview : json :=
  JObj [ ("name", JStr "Bitcoin"); ("symbol", JStr "btc");
         ("market_data", sample_market_data);
         ("description", JObj [("en", JStr "A peer-to-peer electronic cash system.")]) ].

(** A flat history: [days] rows at the price [close]. *)
Definition flat_history (close : Z) (days : nat) : json :=
  JObj [("prices",
         JArr (map (fun i => JArr [JInt (86400000 * Z.of_nat i); JInt close])
                   (seq 0 days)))].

Definition sample_reading : json :=
  JObj [("data", JArr [JObj [("value", JStr "50");
                             ("value_classification", JStr "Neutral")]])].

(** The providers: the market-data provider knows [bitcoin] only; the
    sentiment provider answers with [fng]. *)
Definition sample_world (fng : http_outcome) : world :=
  fun r =>
    match r with
    | CoinsList => Response 200 (Some sample_coins)
    | CoinOverview id =>
        if String.eqb id "bitcoin" then Response 200 (Some sample_overview)
        else Response 404 None
    | MarketChart id _ =>
        if String.eqb id "bitcoin" then Response 200 (Some (flat_history 50000 250))
        else Response 404 None
    | FearGreed _ => fng
    end.

(** The overview payload without its name and its supplies. *)
Definition nameless_overview : json :=
  JObj [ ("symbol", JStr "btc");
         ("market_data",
          JObj [ ("current_price", JObj [("usd", JInt 50000)]);
                 ("market_cap", JObj [("usd", JInt 1000000000000)]);
                 ("total_volume", JObj [("usd", JInt 20000000000)]) ]) ].

Definition nameless_world : world :=
  fun r =>
    match r with
    | CoinOverview _ => Response 200 (Some nameless_overview)
    | _ => sample_world NoResponse r
    end.


(** [{"command": text}] *)
Definition command_body (text : string) : option json :=
  Some (JObj [("command", JStr text)]).

(* ================================================================== *)
(** * Part II: properties *)
(* ================================================================== *)

(** ** binary64 rounding *)

Module Float64Facts.
Import Float64.

Lemma pow2_pos k : 0 < pow2 k.
Proof. apply Qpower_0_lt. reflexivity. Qed.

Lemma pow2_add a b : pow2 (a + b) == pow2 a * pow2 b.
Proof. apply Qpower_plus. discriminate. Qed.

Lemma pow2_le a b : (a <= b)%Z -> pow2 a <= pow2 b.
Proof. intros. apply Qpower_le_compat_l; [assumption | discriminate]. Qed.

Lemma pow2_lt a b : (a < b)%Z -> pow2 a < pow2 b.
Proof. intros. apply Qpower_lt_compat_l; [assumption | reflexivity]. Qed.

Lemma pow2_lt_inv a b : pow2 a < pow2 b -> (a < b)%Z.
Proof. intros. apply (Qpower_lt_compat_l_inv 2); [assumption | reflexivity]. Qed.

Lemma pow2_Z n : (0 <= n)%Z -> pow2 n == inject_Z (2 ^ n).
Proof. intros. unfold pow2. rewrite Zpower_Qpower by assumption. reflexivity. Qed.

Lemma pow2_succ a : pow2 (a + 1) == 2 * pow2 a.
Proof. rewrite pow2_add. unfold pow2 at 2. simpl. ring. Qed.

Lemma Z_log2_pow2_bounds n : (0 < n)%Z ->
  pow2 (Z.log2 n) <= inject_Z n /\ inject_Z n < pow2 (Z.log2 n + 1).
Proof.
  intros Hn. pose proof (Z.log2_spec n Hn) as [H1 H2].
  pose proof (Z.log2_nonneg n) as H0.
  rewrite !pow2_Z by lia. rewrite <- Zle_Qle, <- Zlt_Qlt.
  replace (Z.log2 n + 1)%Z with (Z.succ (Z.log2 n)) by lia. lia.
Qed.

Lemma expo_spec q : 0 < q -> pow2 (expo q) <= q /\ q < pow2 (expo q + 1).
Proof.
  intros Hq. unfold expo.
  destruct q as [n d]. simpl Qnum. simpl Qden.
  assert (Hn : (0 < n)%Z).
  { unfold Qlt in Hq. simpl in Hq. lia. }
  set (a := Z.log2 n). set (b := Z.log2 (Z.pos d)).
  destruct (Z_log2_pow2_bounds n Hn) as [Ha1 Ha2]. fold a in Ha1, Ha2.
  destruct (Z_log2_pow2_bounds (Z.pos d) eq_refl) as [Hb1 Hb2]. fold b in Hb1, Hb2.
  assert (Hqd : (n # d) * inject_Z (Z.pos d) == inject_Z n).
  { unfold Qeq, Qmult, inject_Z. simpl. rewrite Pos.mul_1_r. ring. }
  assert (Hd : 0 < inject_Z (Z.pos d)) by reflexivity.
  pose proof (pow2_pos b) as Hpb.
  assert (Hup : forall e, pow2 (a + 1) <= pow2 e * pow2 b -> n # d < pow2 e).
  { intros e He. apply (Qmult_lt_r _ _ (inject_Z (Z.pos d))); [exact Hd|].
    rewrite Hqd. eapply Qlt_le_trans; [exact Ha2|].
    eapply Qle_trans; [exact He|].
    apply Qmult_le_l; [apply pow2_pos | exact Hb1]. }
  assert (Hlo : forall e, pow2 e * pow2 (b + 1) <= pow2 a -> pow2 e <= n # d).
  { intros e He. apply (Qmult_le_r _ _ (inject_Z (Z.pos d))); [exact Hd|].
    rewrite Hqd. eapply Qle_trans; [|exact Ha1].
    eapply Qle_trans; [|exact He].
    apply Qmult_le_l; [apply pow2_pos | apply Qlt_le_weak; exact Hb2]. }
  destruct (Qle_bool (pow2 (a - b)) (n # d)) eqn:E.
  - apply Qle_bool_iff in E. split; [exact E|].
    apply Hup. rewrite <- pow2_add. apply pow2_le. lia.
  - split.
    + apply Hlo. rewrite <- pow2_add. apply pow2_le. lia.
    + replace (a - b - 1 + 1)%Z with (a - b)%Z by lia.
      apply Qnot_le_lt. intros H. apply Qle_bool_iff in H. congruence.
Qed.

Lemma expo_unique q e : pow2 e <= q -> q < pow2 (e + 1) -> expo q = e.
Proof.
  intros H1 H2.
  assert (Hq : 0 < q) by (eapply Qlt_le_trans; [apply (pow2_pos e) | exact H1]).
  destruct (expo_spec q Hq) as [H3 H4].
  assert (expo q < e + 1)%Z.
  { apply pow2_lt_inv. eapply Qle_lt_trans; eassumption. }
  assert (e < expo q + 1)%Z.
  { apply pow2_lt_inv. eapply Qle_lt_trans; eassumption. }
  lia.
Qed.

Lemma expo_mono q1 q2 : 0 < q1 -> q1 <= q2 -> (expo q1 <= expo q2)%Z.
Proof.
  intros H0 H.
  assert (H0' : 0 < q2) by (eapply Qlt_le_trans; eassumption).
  destruct (expo_spec q1 H0) as [H1 _]. destruct (expo_spec q2 H0') as [_ H2].
  assert (expo q1 < expo q2 + 1)%Z; [|lia].
  apply pow2_lt_inv. eapply Qle_lt_trans; [exact H1|].
  eapply Qle_lt_trans; eassumption.
Qed.

Lemma expo_eq q1 q2 : 0 < q1 -> q1 == q2 -> expo q1 = expo q2.
Proof.
  intros Hx E. destruct (expo_spec q1 Hx) as [H1 H2]. symmetry.
  apply expo_unique; rewrite <- E; assumption.
Qed.

(** ** Rounding to the nearest integer *)

#[global] Instance rhe_comp : Proper (Qeq ==> eq) rhe.
Proof.
  intros x y E. unfold rhe. rewrite (Qfloor_comp _ _ E).
  assert (E' : x - inject_Z (Qfloor y) == y - inject_Z (Qfloor y)) by (rewrite E; reflexivity).
  rewrite (Qcompare_comp _ _ E' _ _ (Qeq_refl (1 # 2))). reflexivity.
Qed.

Lemma rhe_Z z : rhe (inject_Z z) = z.
Proof.
  unfold rhe. rewrite Qfloor_Z.
  assert (E : inject_Z z - inject_Z z == 0) by ring.
  rewrite (Qcompare_comp _ _ E _ _ (Qeq_refl (1 # 2))). reflexivity.
Qed.

Lemma rhe_bounds q : (Qfloor q <= rhe q <= Qfloor q + 1)%Z.
Proof.
  unfold rhe. destruct (Qcompare _ _); [destruct (Z.even _)| |]; lia.
Qed.

Ltac qcmp H :=
  first [ apply (proj2 (Qeq_alt _ _)) in H
        | apply (proj2 (Qlt_alt _ _)) in H
        | apply (proj2 (Qgt_alt _ _)) in H ].

Lemma rhe_mono q1 q2 : q1 <= q2 -> (rhe q1 <= rhe q2)%Z.
Proof.
  intros H. pose proof (Qfloor_resp_le _ _ H) as Hf.
  pose proof (rhe_bounds q1) as B1. pose proof (rhe_bounds q2) as B2.
  destruct (Z.eq_dec (Qfloor q1) (Qfloor q2)) as [E|NE]; [|lia].
  unfold rhe in *. rewrite E in *.
  set (f := Qfloor q2) in *.
  destruct (Qcompare (q1 - inject_Z f) (1 # 2)) eqn:C1;
  destruct (Qcompare (q2 - inject_Z f) (1 # 2)) eqn:C2;
  try (destruct (Z.even f)); try lia;
  qcmp C1; qcmp C2; exfalso; lra.
Qed.

(** ** Rounding to the nearest binary64 value *)

Lemma RNpos_eq q1 q2 : 0 < q1 -> q1 == q2 -> RNpos q1 == RNpos q2.
Proof.
  intros H E. unfold RNpos. rewrite (expo_eq _ _ H E).
  assert (E' : q1 / pow2 (expo q2 - 52) == q2 / pow2 (expo q2 - 52)) by (rewrite E; reflexivity).
  rewrite (rhe_comp _ _ E'). reflexivity.
Qed.

Lemma div_pow2_mul q k : q / pow2 k * pow2 k == q.
Proof.
  pose proof (pow2_pos k) as Hp. generalize dependent (pow2 k). intros p Hp.
  field. apply Qnot_eq_sym, Qlt_not_eq, Hp.
Qed.

(** A value on the grid of step [pow2 k] bounds the rounding of anything
    it bounds, as long as the grid is at least as coarse as the rounding's. *)
Lemma RNpos_le_grid q m : 0 < q ->
  q <= inject_Z m * pow2 (expo q - 52) -> RNpos q <= inject_Z m * pow2 (expo q - 52).
Proof.
  intros Hq H. unfold RNpos. set (k := (expo q - 52)%Z) in *.
  apply Qmult_le_compat_r; [|apply Qlt_le_weak, pow2_pos].
  rewrite <- Zle_Qle. rewrite <- (rhe_Z m). apply rhe_mono.
  apply (Qmult_le_r _ _ (pow2 k)); [apply pow2_pos|].
  rewrite div_pow2_mul. exact H.
Qed.

Lemma RNpos_ge_grid q m : 0 < q ->
  inject_Z m * pow2 (expo q - 52) <= q -> inject_Z m * pow2 (expo q - 52) <= RNpos q.
Proof.
  intros Hq H. unfold RNpos. set (k := (expo q - 52)%Z) in *.
  apply Qmult_le_compat_r; [|apply Qlt_le_weak, pow2_pos].
  rewrite <- Zle_Qle. rewrite <- (rhe_Z m) at 1. apply rhe_mono.
  apply (Qmult_le_r _ _ (pow2 k)); [apply pow2_pos|].
  rewrite div_pow2_mul. exact H.
Qed.

Lemma pow2_52_shift e : inject_Z (2 ^ 52) * pow2 (e - 52) == pow2 e.
Proof.
  rewrite <- pow2_Z by lia. rewrite <- pow2_add. replace (52 + (e - 52))%Z with e by lia.
  reflexivity.
Qed.

Lemma pow2_53_shift e : inject_Z (2 ^ 53) * pow2 (e - 52) == pow2 (e + 1).
Proof.
  rewrite <- pow2_Z by lia. rewrite <- pow2_add. replace (53 + (e - 52))%Z with (e + 1)%Z by lia.
  reflexivity.
Qed.

Lemma RNpos_bounds q : 0 < q -> pow2 (expo q) <= RNpos q /\ RNpos q <= pow2 (expo q + 1).
Proof.
  intros Hq. destruct (expo_spec q Hq) as [H1 H2]. split.
  - rewrite <- pow2_52_shift. apply RNpos_ge_grid; [exact Hq|].
    rewrite pow2_52_shift. exact H1.
  - rewrite <- pow2_53_shift. apply RNpos_le_grid; [exact Hq|].
    rewrite pow2_53_shift. apply Qlt_le_weak. exact H2.
Qed.

Lemma RNpos_pos q : 0 < q -> 0 < RNpos q.
Proof.
  intros Hq. eapply Qlt_le_trans; [apply (pow2_pos (expo q))|]. apply RNpos_bounds, Hq.
Qed.

Lemma RNpos_mono q1 q2 : 0 < q1 -> q1 <= q2 -> RNpos q1 <= RNpos q2.
Proof.
  intros H0 H.
  assert (H0' : 0 < q2) by (eapply Qlt_le_trans; eassumption).
  pose proof (expo_mono _ _ H0 H) as He.
  destruct (Z.eq_dec (expo q1) (expo q2)) as [E|NE].
  - unfold RNpos. rewrite E.
    apply Qmult_le_compat_r; [|apply Qlt_le_weak, pow2_pos].
    rewrite <- Zle_Qle. apply rhe_mono.
    apply Qmult_le_compat_r; [exact H|].
    apply Qlt_le_weak, Qinv_lt_0_compat, pow2_pos.
  - destruct (RNpos_bounds q1 H0) as [_ B1]. destruct (RNpos_bounds q2 H0') as [B2 _].
    eapply Qle_trans; [exact B1|]. eapply Qle_trans; [|exact B2].
    apply pow2_le. lia.
Qed.

(** The mantissa of a rounded value. *)
Lemma RNpos_mantissa q : 0 < q ->
  (2 ^ 52 <= rhe (q / pow2 (expo q - 52)) <= 2 ^ 53)%Z.
Proof.
  intros Hq. destruct (RNpos_bounds q Hq) as [H1 H2].
  rewrite <- pow2_52_shift in H1. rewrite <- pow2_53_shift in H2.
  unfold RNpos in *.
  apply Qmult_le_r in H1; [|apply pow2_pos]. apply Qmult_le_r in H2; [|apply pow2_pos].
  rewrite <- Zle_Qle in H1, H2. lia.
Qed.

Lemma Qmul_div_cancel c p : 0 < p -> c * p / p == c.
Proof. intros Hp. field. apply Qnot_eq_sym, Qlt_not_eq, Hp. Qed.

Lemma Qmul2_div_cancel c p : 0 < p -> 2 * c * p / (2 * p) == c.
Proof. intros Hp. field. apply Qnot_eq_sym, Qlt_not_eq, Hp. Qed.

Lemma RNpos_grid m k : (2 ^ 52 <= m <= 2 ^ 53)%Z ->
  RNpos (inject_Z m * pow2 k) == inject_Z m * pow2 k.
Proof.
  intros Hm.
  assert (Hmq : inject_Z (2 ^ 52) <= inject_Z m <= inject_Z (2 ^ 53)).
  { rewrite <- !Zle_Qle. exact Hm. }
  pose proof (pow2_pos k) as Hk.
  destruct (Z.eq_dec m (2 ^ 53)) as [E|NE].
  - subst m.
    assert (Ee : expo (inject_Z (2 ^ 53) * pow2 k) = (k + 53)%Z).
    { apply expo_unique.
      - rewrite <- pow2_Z by lia. rewrite <- pow2_add. apply pow2_le. lia.
      - rewrite <- pow2_Z by lia. rewrite <- pow2_add. apply pow2_lt. lia. }
    unfold RNpos. rewrite Ee. replace (k + 53 - 52)%Z with (k + 1)%Z by lia.
    assert (E2 : inject_Z (2 ^ 53) * pow2 k / pow2 (k + 1) == inject_Z (2 ^ 52)).
    { rewrite pow2_succ. change (inject_Z (2 ^ 53)) with (2 * inject_Z (2 ^ 52)).
      apply Qmul2_div_cancel, Hk. }
    rewrite (rhe_comp _ _ E2), rhe_Z. rewrite pow2_succ.
    change (inject_Z (2 ^ 53)) with (2 * inject_Z (2 ^ 52)).
    generalize (inject_Z (2 ^ 52)). intros c. ring.
  - assert (Ee : expo (inject_Z m * pow2 k) = (k + 52)%Z).
    { apply expo_unique.
      - rewrite <- (pow2_52_shift (k + 52)). replace (k + 52 - 52)%Z with k by lia.
        apply Qmult_le_compat_r; [apply Hmq | apply Qlt_le_weak, Hk].
      - rewrite <- (pow2_53_shift (k + 52)). replace (k + 52 - 52)%Z with k by lia.
        apply Qmult_lt_compat_r; [exact Hk|]. rewrite <- Zlt_Qlt. lia. }
    unfold RNpos. rewrite Ee. replace (k + 52 - 52)%Z with k by lia.
    assert (E2 : inject_Z m * pow2 k / pow2 k == inject_Z m).
    { apply Qmul_div_cancel, Hk. }
    rewrite (rhe_comp _ _ E2), rhe_Z. reflexivity.
Qed.

Lemma RNpos_idem q : 0 < q -> RNpos (RNpos q) == RNpos q.
Proof.
  intros Hq. unfold RNpos at 2 3. apply RNpos_grid. apply RNpos_mantissa, Hq.
Qed.

(** Between two neighbours of a binade there is no other value. *)
Lemma RNpos_fix_lt_succ a m k : 0 < a -> RNpos a == a ->
  (2 ^ 52 <= m < 2 ^ 53)%Z ->
  a < inject_Z (m + 1) * pow2 k -> a <= inject_Z m * pow2 k.
Proof.
  intros Ha Hfix Hm Hlt.
  destruct (Qlt_le_dec (inject_Z m * pow2 k) a) as [Hgt|Hle]; [exfalso | exact Hle].
  pose proof (pow2_pos k) as Hk.
  assert (Ee : expo a = (k + 52)%Z).
  { apply expo_unique.
    - rewrite <- (pow2_52_shift (k + 52)). replace (k + 52 - 52)%Z with k by lia.
      apply Qlt_le_weak. eapply Qle_lt_trans; [|exact Hgt].
      apply Qmult_le_compat_r; [|apply Qlt_le_weak, Hk]. rewrite <- Zle_Qle. lia.
    - rewrite <- (pow2_53_shift (k + 52)). replace (k + 52 - 52)%Z with k by lia.
      eapply Qlt_le_trans; [exact Hlt|].
      apply Qmult_le_compat_r; [|apply Qlt_le_weak, Hk]. rewrite <- Zle_Qle. lia. }
  unfold RNpos in Hfix. rewrite Ee in Hfix. replace (k + 52 - 52)%Z with k in Hfix by lia.
  set (n := rhe (a / pow2 k)) in Hfix.
  rewrite <- Hfix in Hgt, Hlt.
  apply Qmult_lt_r in Hgt; [|exact Hk]. apply Qmult_lt_r in Hlt; [|exact Hk].
  rewrite <- Zlt_Qlt in Hgt, Hlt. lia.
Qed.

(** ** Signed rounding *)

Lemma RN_gt q : 0 < q -> RN q == RNpos q.
Proof.
  intros H. unfold RN. rewrite (proj1 (Qgt_alt q 0) H). apply Qred_correct.
Qed.

Lemma RN_lt q : q < 0 -> RN q == - RNpos (- q).
Proof.
  intros H. unfold RN. rewrite (proj1 (Qlt_alt q 0) H). apply Qred_correct.
Qed.

Lemma RN_zero q : q == 0 -> RN q = 0.
Proof.
  intros H. unfold RN. rewrite (proj1 (Qeq_alt q 0) H). reflexivity.
Qed.

Lemma RN_eq q1 q2 : q1 == q2 -> RN q1 = RN q2.
Proof.
  intros E. unfold RN. rewrite (Qcompare_comp _ _ E _ _ (Qeq_refl 0)).
  destruct (Qcompare q2 0) eqn:C; [reflexivity | |]; qcmp C; apply Qred_complete.
  - apply Qopp_comp. apply RNpos_eq; [lra | rewrite E; reflexivity].
  - apply RNpos_eq; [lra | exact E].
Qed.

Lemma RN_abs q : ~ q == 0 -> Qabs (RN q) == RNpos (Qabs q).
Proof.
  intros Hq. destruct (Q_dec q 0) as [[Hlt|Hgt]|He]; [| |contradiction].
  - rewrite (RN_lt _ Hlt). assert (H : 0 < - q) by lra.
    pose proof (RNpos_pos _ H). rewrite Qabs_neg by lra.
    rewrite Qopp_involutive. apply RNpos_eq; [exact H|].
    rewrite Qabs_neg by lra. reflexivity.
  - rewrite (RN_gt _ Hgt). pose proof (RNpos_pos _ Hgt). rewrite Qabs_pos by lra.
    apply RNpos_eq; [exact Hgt|]. rewrite Qabs_pos by lra. reflexivity.
Qed.

Lemma is_float_abs x : is_float x -> ~ x == 0 -> RNpos (Qabs x) == Qabs x.
Proof.
  intros Hf Hx. rewrite <- (RN_abs _ Hx). unfold is_float in Hf. rewrite Hf. reflexivity.
Qed.

Lemma RN_idem q : is_float (RN q).
Proof.
  unfold is_float. destruct (Q_dec q 0) as [[Hlt|Hgt]|He].
  - assert (H : 0 < - q) by lra. pose proof (RNpos_pos _ H) as Hp.
    rewrite (RN_lt q Hlt) at 2. rewrite (RN_eq _ _ (RN_lt q Hlt)).
    rewrite RN_lt by lra. apply Qopp_comp.
    rewrite (RNpos_eq (- - RNpos (- q)) (RNpos (- q))); [apply RNpos_idem, H | lra | ring].
  - pose proof (RNpos_pos _ Hgt) as Hp.
    rewrite (RN_gt q Hgt) at 2. rewrite (RN_eq _ _ (RN_gt q Hgt)).
    rewrite RN_gt by exact Hp. apply RNpos_idem, Hgt.
  - rewrite (RN_zero _ He). reflexivity.
Qed.


(** Integers below [2^53] in magnitude are binary64 values. *)
Lemma RNpos_small_int z : (0 < z < 2 ^ 53)%Z -> RNpos (inject_Z z) == inject_Z z.
Proof.
  intros Hz.
  pose proof (Z.log2_spec z ltac:(lia)) as [L1 L2].
  pose proof (Z.log2_nonneg z) as L0.
  set (e := Z.log2 z) in *.
  assert (He : (e <= 52)%Z).
  { destruct (Z_le_gt_dec e 52) as [L|G]; [exact L | exfalso].
    assert (2 ^ 53 <= 2 ^ e)%Z by (apply Z.pow_le_mono_r; lia). lia. }
  assert (Ep : (2 ^ e * 2 ^ (52 - e) = 2 ^ 52)%Z).
  { rewrite <- Z.pow_add_r by lia. f_equal. lia. }
  assert (Ep' : (2 ^ Z.succ e * 2 ^ (52 - e) = 2 ^ 53)%Z).
  { rewrite <- Z.pow_add_r by lia. f_equal. lia. }
  assert (Hp : (0 < 2 ^ (52 - e))%Z) by (apply Z.pow_pos_nonneg; lia).
  assert (Eq : inject_Z z == inject_Z (z * 2 ^ (52 - e)) * pow2 (e - 52)).
  { rewrite inject_Z_mult, <- (pow2_Z (52 - e)) by lia.
    rewrite <- Qmult_assoc, <- pow2_add.
    replace (52 - e + (e - 52))%Z with 0%Z by lia.
    change (pow2 0) with 1. ring. }
  assert (Hq : 0 < inject_Z z).
  { change 0 with (inject_Z 0). rewrite <- Zlt_Qlt. lia. }
  rewrite (RNpos_eq _ _ Hq Eq).
  rewrite RNpos_grid; [symmetry; exact Eq|]. nia.
Qed.

Lemma RN_small_int z : (Z.abs z < 2 ^ 53)%Z -> RN (inject_Z z) == inject_Z z.
Proof.
  intros Hz. destruct (Z.lt_trichotomy z 0) as [Hneg|[->|Hpos]].
  - assert (Hq : inject_Z z < 0) by (rewrite Zlt_Qlt in Hneg; exact Hneg).
    rewrite (RN_lt _ Hq).
    assert (E : - inject_Z z == inject_Z (- z)) by (rewrite inject_Z_opp; reflexivity).
    assert (Hq' : 0 < - inject_Z z) by lra.
    rewrite (RNpos_eq _ _ Hq' E), RNpos_small_int by lia.
    rewrite inject_Z_opp. ring.
  - reflexivity.
  - assert (Hq : 0 < inject_Z z) by (rewrite Zlt_Qlt in Hpos; exact Hpos).
    rewrite (RN_gt _ Hq). apply RNpos_small_int. lia.
Qed.

End Float64Facts.

(** ** [human_format] *)

Module HumanFormatFacts.
Import Float64 Float64Facts.

Ltac qclosed :=
  match goal with
  | |- _ == _ => vm_compute; reflexivity
  | |- _ <= _ => apply Qle_bool_iff; vm_compute; reflexivity
  | |- _ < _ => apply Qlt_alt; vm_compute; reflexivity
  end.

Ltac cases4 H := destruct H as [H|[H|[H|H]]]; rewrite H in *.

Lemma div1000_lower a t :
  0 < t -> RNpos t == t -> 1000 * t <= a -> t <= RNpos (a / 1000).
Proof.
  intros Ht Hfix H. rewrite <- Hfix. apply RNpos_mono; [exact Ht|].
  apply Qle_shift_div_l; [reflexivity|]. lra.
Qed.

Lemma div1000_upper a m k v : 0 < a -> RNpos a == a ->
  (2 ^ 52 <= m < 2 ^ 53)%Z -> a < inject_Z (m + 1) * pow2 k ->
  inject_Z m * pow2 k / 1000 <= v -> RNpos v == v ->
  RNpos (a / 1000) <= v.
Proof.
  intros Ha Hfix Hm Hlt Hv Hvfix.
  pose proof (RNpos_fix_lt_succ a m k Ha Hfix Hm Hlt) as Hle.
  rewrite <- Hvfix. apply RNpos_mono.
  - apply Qlt_shift_div_l; [reflexivity | lra].
  - eapply Qle_trans; [|exact Hv].
    apply Qmult_le_compat_r; [exact Hle | discriminate].
Qed.

(** One division by [1000.0] takes a float of the range
    [[1000^j, 1000^(j+1))] into the range [[1000^(j-1), 1000^j)]: the
    rounding never reaches the upper threshold. *)
Lemma step_range j a : (1 <= j <= 4)%nat -> 0 < a -> RNpos a == a ->
  thousand_pow j <= a -> a < thousand_pow (j + 1) ->
  thousand_pow (j - 1) <= RNpos (a / 1000) /\ RNpos (a / 1000) < thousand_pow j.
Proof.
  intros Hj Ha Hfix Hlo Hhi.
  assert (Hcases : (j = 1 \/ j = 2 \/ j = 3 \/ j = 4)%nat) by lia.
  clear Hj. split.
  - apply div1000_lower.
    + cases4 Hcases; reflexivity.
    + cases4 Hcases; qclosed.
    + eapply Qle_trans; [|exact Hlo].
      cases4 Hcases; qclosed.
  - apply Qle_lt_trans with (inject_Z (thousand_mant j - 1) * pow2 (thousand_exp j)).
    + apply (div1000_upper a (thousand_mant (j + 1) - 1) (thousand_exp (j + 1)));
        [exact Ha | exact Hfix | | | |].
      * cases4 Hcases; vm_compute; split; congruence.
      * eapply Qlt_le_trans; [exact Hhi|].
        cases4 Hcases; qclosed.
      * cases4 Hcases; qclosed.
      * cases4 Hcases; qclosed.
    + cases4 Hcases; qclosed.
Qed.

Lemma Qle_bool_false a b : Qle_bool a b = false <-> b < a.
Proof.
  split; intros H.
  - apply Qnot_le_lt. intros H'. apply Qle_bool_iff in H'. congruence.
  - destruct (Qle_bool a b) eqn:E; [|reflexivity].
    apply Qle_bool_iff in E. exfalso. lra.
Qed.

Lemma Qabs_div1000 x : Qabs (x / 1000) == Qabs x / 1000.
Proof.
  unfold Qdiv. rewrite Qabs_Qmult. reflexivity.
Qed.

Lemma abs_RN_div1000 x : ~ x == 0 -> Qabs (RN (x / 1000)) == RNpos (Qabs x / 1000).
Proof.
  intros Hx.
  assert (Hq : ~ x / 1000 == 0).
  { intros E. apply Hx. setoid_replace x with (x / 1000 * 1000) by field.
    rewrite E. reflexivity. }
  rewrite (RN_abs _ Hq). apply RNpos_eq; [|apply Qabs_div1000].
  pose proof (Qabs_nonneg (x / 1000)) as H.
  destruct (Qeq_dec (Qabs (x / 1000)) 0) as [E|NE]; [|lra].
  exfalso. apply Hq.
  destruct (Qabs_Qle_condition (x / 1000) 0) as [H1 _].
  assert (H2 : Qabs (x / 1000) <= 0) by lra. specialize (H1 H2). lra.
Qed.

Lemma thousand_pow_ge_1000 k : (k <= 3)%nat -> 1000 <= thousand_pow (S k).
Proof.
  intros Hk. assert (Hc : (k = 0 \/ k = 1 \/ k = 2 \/ k = 3)%nat) by lia.
  cases4 Hc; qclosed.
Qed.

(** The loop divides exactly [k] times when the float starts in the range
    [[1000^k, 1000^(k+1))], for the five magnitudes that have a suffix. *)
Lemma human_format_loop_range k : forall fuel x magnitude,
  is_float x -> (k <= 4)%nat -> (k <= fuel)%nat ->
  thousand_pow k <= Qabs x -> Qabs x < thousand_pow (k + 1) ->
  exists v, human_format_loop fuel x magnitude = Some (v, (magnitude + k)%nat)
            /\ is_float v
            /\ (k = 0%nat -> v = x)
            /\ (1 <= Qabs x -> 1 <= Qabs v) /\ Qabs v < 1000.
Proof.
  induction k as [|k IH]; intros fuel x magnitude Hf Hk Hfuel Hlo Hhi.
  - exists x. change (thousand_pow (0 + 1)) with 1000 in Hhi.
    destruct fuel; simpl; rewrite (proj2 (Qle_bool_false _ _) Hhi);
      rewrite Nat.add_0_r; repeat split; auto.
  - pose proof (thousand_pow_ge_1000 k ltac:(lia)) as H1000.
    assert (Hge : 1000 <= Qabs x) by lra.
    destruct fuel as [|fuel]; [lia|].
    simpl. rewrite (proj2 (Qle_bool_iff _ _) Hge).
    assert (Hx : ~ x == 0).
    { intros E. rewrite E in Hge. vm_compute in Hge. apply Hge. reflexivity. }
    pose proof (is_float_abs x Hf Hx) as Hfix.
    destruct (step_range (S k) (Qabs x) ltac:(lia) ltac:(lra) Hfix Hlo) as [S1 S2].
    { replace (S k + 1)%nat with (S k + 1)%nat by reflexivity. exact Hhi. }
    replace (S k - 1)%nat with k in S1 by lia.
    rewrite <- (abs_RN_div1000 x Hx) in S1, S2.
    destruct (IH fuel (RN (x / 1000)) (S magnitude)) as (v & E & Hv & _ & Hv1 & Hv2).
    + apply RN_idem.
    + lia.
    + lia.
    + exact S1.
    + replace (k + 1)%nat with (S k) by lia. exact S2.
    + exists v. replace (magnitude + S k)%nat with (S magnitude + k)%nat by lia.
      repeat split; auto; try discriminate.
      intros _. apply Hv1.
      eapply Qle_trans; [|exact S1].
      assert (Hc : (k = 0 \/ k = 1 \/ k = 2 \/ k = 3)%nat) by lia.
      cases4 Hc; qclosed.
Qed.







Lemma human_format_fuel_enough k x : (k <= 4)%nat ->
  thousand_pow k <= Qabs x -> (k <= human_format_fuel x)%nat.
Proof.
  intros Hk H. unfold human_format_fuel.
  assert (Hc : (k = 0 \/ k = 1 \/ k = 2 \/ k = 3 \/ k = 4)%nat) by lia.
  destruct Hc as [->|Hc]; [lia|].
  assert (H0 : 0 < thousand_pow k) by (cases4 Hc; reflexivity).
  pose proof (expo_mono _ _ H0 H) as Hm.
  assert (He : (Z.of_nat k <= expo (thousand_pow k))%Z).
  { cases4 Hc; vm_compute; congruence. }
  lia.
Qed.

Lemma human_format_loop_small fuel x magnitude :
  Qabs x < 1000 -> human_format_loop fuel x magnitude = Some (x, magnitude).
Proof.
  intros H. destruct fuel; simpl; rewrite (proj2 (Qle_bool_false _ _) H); reflexivity.
Qed.


Lemma human_format_of_scale `{Runtime} n x v k :
  Py.float n = OK x -> human_format_scale x = Some (v, k) -> (k <= 4)%nat ->
  human_format n = OK (Str.format_2f v ++ nth k suffixes "").
Proof.
  intros Hn E Hk. unfold human_format. rewrite Hn. simpl. rewrite E.
  assert (Hc : (k = 0 \/ k = 1 \/ k = 2 \/ k = 3 \/ k = 4)%nat) by lia.
  destruct Hc as [->|Hc]; [reflexivity | cases4 Hc; reflexivity].
Qed.

(** What the loop returns for a float below [1000^5] in magnitude. *)
Lemma human_format_scale_range x :
  is_float x -> Qabs x < thousand_pow 5 ->
  exists v k,
    human_format_scale x = Some (v, k)
    /\ (k <= 4)%nat /\ Qabs v < 1000
    /\ (1 <= Qabs x ->
        1 <= Qabs v /\ thousand_pow k <= Qabs x /\ Qabs x < thousand_pow (k + 1))
    /\ (Qabs x < 1 -> k = 0%nat /\ v = x).
Proof.
  intros Hf Hmax.
  destruct (Qlt_le_dec (Qabs x) 1000) as [Hsmall|H1].
  { exists x, 0%nat.
    split; [apply human_format_loop_small; exact Hsmall|].
    split; [lia|]. split; [exact Hsmall|]. split.
    - intros H1. repeat split; auto.
    - intros _. split; reflexivity. }
  assert (Hk : exists k, (1 <= k <= 4)%nat /\
             thousand_pow k <= Qabs x /\ Qabs x < thousand_pow (k + 1)).
  { destruct (Qlt_le_dec (Qabs x) (thousand_pow 2)) as [L2|G2].
    { exists 1%nat. repeat split; auto. }
    destruct (Qlt_le_dec (Qabs x) (thousand_pow 3)) as [L3|G3].
    { exists 2%nat. repeat split; auto. }
    destruct (Qlt_le_dec (Qabs x) (thousand_pow 4)) as [L4|G4].
    { exists 3%nat. repeat split; auto. }
    exists 4%nat. repeat split; auto. }
  destruct Hk as (k & Hk & Hlo & Hhi).
  destruct (human_format_loop_range k (human_format_fuel x) x 0 Hf ltac:(lia)
              (human_format_fuel_enough k x ltac:(lia) Hlo) Hlo Hhi)
    as (v & E & _ & _ & Hv1 & Hv2).
  exists v, k.
  split; [exact E|]. split; [lia|]. split; [exact Hv2|]. split.
  - intros Hx. split; [apply Hv1, Hx|]. split; assumption.
  - intros Hlt. exfalso. lra.
Qed.

(** The float of an integer below [2^53] in magnitude is the integer. *)
Lemma float_of_small_int `{Runtime} z : (Z.abs z < 2 ^ 53)%Z ->
  exists x, Py.float (JInt z) = OK x /\ x == inject_Z z /\ is_float x.
Proof.
  intros Hz. exists (RN (inject_Z z)).
  pose proof (RN_small_int z Hz) as E.
  split; [|split; [exact E | apply RN_idem]].
  unfold Py.float, overflows.
  destruct (Qle_bool (pow2 1024) (Qabs (RN (inject_Z z)))) eqn:Eo; [|reflexivity].
  exfalso. apply Qle_bool_iff in Eo. rewrite E in Eo.
  assert (Ea : Qabs (inject_Z z) == inject_Z (Z.abs z)) by reflexivity.
  rewrite Ea, pow2_Z in Eo by lia. rewrite <- Zle_Qle in Eo.
  assert (2 ^ 53 < 2 ^ 1024)%Z by reflexivity. lia.
Qed.

End HumanFormatFacts.

Import Float64 Float64Facts HumanFormatFacts.

(** C1, as stated, fails below one: [human_format(0.5)] is ["0.50"], the
    loop leaves the number [1/2] untouched with the empty suffix, and [1/2]
    is not in [[1, 1000)]. *)
Lemma human_format_half :
  human_format (JFloat (1 # 2)) = OK "0.50"
  /\ human_format_scale (1 # 2) = Some (1 # 2, 0%nat)
  /\ nth_error suffixes 0 = Some ""
  /\ ~ (1 <= Qabs (1 # 2)).
Proof.
  repeat split. intros H. vm_compute in H. apply H. reflexivity.
Qed.

(** C1, amended: for every numeric input whose float value [x] is below
    [1000^5] in magnitude, [human_format] returns the number the loop ends
    with, printed with two decimals, followed by the suffix of index [k];
    when [1 <= |x|], [k] is [floor(log1000 |x|)], that is
    [1000^k <= |x| < 1000^(k+1)], and the number is in [[1, 1000)] in
    magnitude before it is printed; when [|x| < 1], the suffix is empty and
    the number is [x] itself. *)
Theorem human_format_magnitude `{Runtime} (n : json) (x : Q) :
  Py.float n = OK x -> is_float x -> Qabs x < thousand_pow 5 ->
  exists v k,
    human_format_scale x = Some (v, k)
    /\ human_format n = OK (Str.format_2f v ++ nth k suffixes "")
    /\ (k <= 4)%nat /\ Qabs v < 1000
    /\ (1 <= Qabs x ->
        1 <= Qabs v /\ thousand_pow k <= Qabs x /\ Qabs x < thousand_pow (k + 1))
    /\ (Qabs x < 1 -> k = 0%nat /\ v = x).
Proof.
  intros Hn Hf Hmax.
  destruct (human_format_scale_range x Hf Hmax) as (v & k & E & Hk & Hv & H1 & H0).
  exists v, k. split; [exact E|].
  split; [exact (human_format_of_scale n x v k Hn E Hk)|].
  repeat split; auto; apply H1 || apply H0; assumption.
Qed.

(** [human_format(12345678)] is ["12.35M"], by the theorem. *)
Lemma human_format_magnitude_witness :
  Py.float (JInt 12345678) = OK 12345678
  /\ is_float 12345678
  /\ Qabs 12345678 < thousand_pow 5
  /\ human_format (JInt 12345678) = OK "12.35M".
Proof.
  assert (Hn : Py.float (JInt 12345678) = OK 12345678) by reflexivity.
  assert (Hf : is_float 12345678) by reflexivity.
  assert (Hmax : Qabs 12345678 < thousand_pow 5) by reflexivity.
  split; [exact Hn|]. split; [exact Hf|]. split; [exact Hmax|].
  destruct (human_format_magnitude (JInt 12345678) 12345678 Hn Hf Hmax)
    as (v & k & E & Hfmt & _).
  vm_compute in E. injection E as <- <-. exact Hfmt.
Defined.

(** The example of the specification holds whatever the runtime. *)
Example human_format_12345678 `{Runtime} : human_format (JInt 12345678) = OK "12.35M".
Proof. reflexivity. Qed.

(** Rounding to two decimals comes after the scaling, so the printed number
    can be ["1000.00"]. *)
Example human_format_999999 `{Runtime} : human_format (JInt 999999) = OK "1000.00K".
Proof. reflexivity. Qed.


(** For an integer the float is the integer itself, and the suffix is
    that of [floor(log1000 |n|)]. *)
Corollary human_format_int `{Runtime} (z : Z) : (Z.abs z < 1000 ^ 5)%Z ->
  exists v k,
    human_format (JInt z) = OK (Str.format_2f v ++ nth k suffixes "")
    /\ (k <= 4)%nat /\ Qabs v < 1000
    /\ ((1 <= Z.abs z)%Z ->
        1 <= Qabs v
        /\ (1000 ^ Z.of_nat k <= Z.abs z < 1000 ^ (Z.of_nat (k + 1)))%Z).
Proof.
  intros Hz.
  assert (H53 : (1000 ^ 5 < 2 ^ 53)%Z) by reflexivity.
  destruct (float_of_small_int z ltac:(lia)) as (x & Hn & Ex & Hf).
  assert (Ea : Qabs x == inject_Z (Z.abs z)) by (rewrite Ex; reflexivity).
  assert (Hmax : Qabs x < thousand_pow 5).
  { rewrite Ea. unfold thousand_pow. rewrite <- Zlt_Qlt. exact Hz. }
  destruct (human_format_scale_range x Hf Hmax) as (v & k & E & Hk & Hv & H1 & _).
  exists v, k. split; [exact (human_format_of_scale _ x v k Hn E Hk)|].
  split; [exact Hk|]. split; [exact Hv|].
  intros Hone.
  assert (Hx : 1 <= Qabs x).
  { rewrite Ea. change 1 with (inject_Z 1). rewrite <- Zle_Qle. exact Hone. }
  destruct (H1 Hx) as (Hv1 & Hlo & Hhi). split; [exact Hv1|].
  unfold thousand_pow in Hlo, Hhi. rewrite Ea in Hlo, Hhi.
  rewrite <- Zle_Qle in Hlo. rewrite <- Zlt_Qlt in Hhi. lia.
Qed.

Example human_format_quadrillion `{Runtime} :
  human_format (JInt (10 ^ 15)) = Raise IndexError.
Proof. reflexivity. Qed.

(** ** The monad *)

Lemma bind_OK {A B} (m : M A) (k : A -> M B) st a st' :
  m st = (OK a, st') -> bind m k st = k a st'.
Proof. intros E. unfold bind. rewrite E. reflexivity. Qed.

Lemma bind_Raise {A B} (m : M A) (k : A -> M B) st e st' :
  m st = (Raise e, st') -> bind m k st = (Raise e, st').
Proof. intros E. unfold bind. rewrite E. reflexivity. Qed.

Lemma bind_lift {A B} (r : result A) (k : A -> M B) st :
  bind (lift r) k st = match r with OK a => k a st | Raise e => (Raise e, st) end.
Proof. unfold bind, lift. destruct r; reflexivity. Qed.

(** ** Symbol resolver *)

Module ResolverFacts.

Lemma nat_of_lower_char c :
  nat_of_ascii (Str.lower_char c)
  = if Str.is_upper c then (nat_of_ascii c + 32)%nat else nat_of_ascii c.
Proof.
  unfold Str.lower_char. destruct (Str.is_upper c) eqn:E; [|reflexivity].
  apply nat_ascii_embedding. unfold Str.is_upper in E.
  apply andb_prop in E as [_ E]. apply Nat.leb_le in E. lia.
Qed.

Lemma ascii_eq_nat c d : c = d <-> nat_of_ascii c = nat_of_ascii d.
Proof.
  split; [intros ->; reflexivity|]. intros E.
  rewrite <- (ascii_nat_embedding c), <- (ascii_nat_embedding d), E. reflexivity.
Qed.

Lemma lower_char_eq_iff c d :
  Str.lower_char c = Str.lower_char d <-> same_letter c d = true.
Proof.
  rewrite ascii_eq_nat, !nat_of_lower_char. unfold same_letter, Str.is_upper.
  set (m := nat_of_ascii c). set (n := nat_of_ascii d).
  destruct (Nat.leb_spec 65 m), (Nat.leb_spec m 90),
           (Nat.leb_spec 65 n), (Nat.leb_spec n 90); simpl;
    destruct (Nat.eqb_spec m n), (Nat.eqb_spec n (m + 32)),
             (Nat.eqb_spec m (n + 32)); simpl;
    split; intros; try reflexivity; try discriminate; lia.
Qed.

(** Comparing lowered strings is case-insensitive exact match. *)
Lemma lower_eq_iff a : forall b,
  Str.lower a = Str.lower b <-> equal_ignoring_case a b = true.
Proof.
  unfold Str.lower.
  induction a as [|c a IH]; intros [|d b];
    cbn [Str.map_chars equal_ignoring_case]; try (split; congruence).
  rewrite andb_true_iff, <- lower_char_eq_iff, <- IH.
  split; [intros E; injection E; auto | intros [-> ->]; reflexivity].
Qed.

Lemma get_coin_list_sent w st r st' :
  get_coin_list w st = (r, st') ->
  sent st' = sent st \/ sent st' = (sent st ++ [CoinsList])%list.
Proof.
  unfold get_coin_list, get_coin_list_uncached, bind, lift, Requests.get.
  destruct (coin_list_cache st).
  - intros E. injection E as _ <-. left. reflexivity.
  - destruct (w CoinsList) as [|status body]; simpl.
    + intros E. injection E as _ <-. right. reflexivity.
    + destruct (Requests.raise_for_status (status, body)); simpl;
        [destruct (Requests.json (status, body))|];
        intros E; injection E as _ <-; right; reflexivity.
Qed.

Lemma symbol_to_id_sent w symbol st r st' :
  symbol_to_id w symbol st = (r, st') ->
  sent st' = sent st \/ sent st' = (sent st ++ [CoinsList])%list.
Proof.
  unfold symbol_to_id, bind.
  destruct (get_coin_list w st) as [[coins|e] st1] eqn:E1.
  - apply get_coin_list_sent in E1. unfold lift.
    destruct (iterate coins); intros E; injection E as _ <-; exact E1.
  - apply get_coin_list_sent in E1. intros E; injection E as _ <-; exact E1.
Qed.

Lemma well_formed_coin_inv coin : well_formed_coin coin ->
  exists fields s id, coin = JObj fields
    /\ Py.lookup "symbol" fields = Some (JStr s)
    /\ Py.lookup "id" fields = Some id.
Proof.
  intros [Hs Hi]. destruct coin as [| | | | |?|fields]; simpl in *; try congruence.
  destruct (Py.lookup "symbol" fields) as [[| | | |s| |]|] eqn:Es; try congruence.
  destruct (Py.lookup "id" fields) as [id|] eqn:Ei; try congruence.
  exists fields, s, id. auto.
Qed.

(** The loop returns at the first entry that matches. *)
Lemma symbol_to_id_loop_first_match symbol coins :
  Forall well_formed_coin coins ->
  exists r, symbol_to_id_loop (Str.lower symbol) coins = OK r
    /\ ((exists before coin after,
           coins = (before ++ coin :: after)%list
           /\ Forall (fun c => ~ matches symbol c) before
           /\ matches symbol coin /\ coin_id coin = Some r)
        \/ (Forall (fun c => ~ matches symbol c) coins /\ r = JNull)).
Proof.
  induction 1 as [|coin rest Hwf _ IH].
  - exists JNull. split; [reflexivity|]. right. auto.
  - destruct (well_formed_coin_inv coin Hwf) as (fields & s & id & -> & Es & Ei).
    simpl. rewrite Es. simpl.
    destruct (String.eqb (Str.lower s) (Str.lower symbol)) eqn:E.
    + rewrite Ei. exists id. split; [reflexivity|]. left.
      exists [], (JObj fields), rest. repeat split; auto.
      exists s. simpl. rewrite Es. split; [reflexivity|].
      apply lower_eq_iff, String.eqb_eq, E.
    + assert (Hno : ~ matches symbol (JObj fields)).
      { intros (s' & Hs' & Hm). simpl in Hs'. rewrite Es in Hs'. injection Hs' as <-.
        apply lower_eq_iff, String.eqb_eq in Hm. congruence. }
      destruct IH as (r & Er & [(before & c & after & -> & Hb & Hm & Hid)|[Hall ->]]).
      * exists r. split; [exact Er|]. left.
        exists (JObj fields :: before), c, after. repeat split; auto.
      * exists JNull. split; [exact Er|]. right. auto.
Qed.

End ResolverFacts.

Import ResolverFacts.

(** C5: against a provider list of well-formed entries, [symbol_to_id]
    returns the identifier of the first entry, in list order, whose symbol
    equals the requested one under case-insensitive exact match, and [None]
    when no entry matches. *)
Theorem symbol_to_id_first_match (w : world) (st st' : state)
    (symbol : string) (coins : list json) :
  get_coin_list w st = (OK (JArr coins), st') ->
  Forall well_formed_coin coins ->
  exists r, symbol_to_id w symbol st = (OK r, st')
    /\ ((exists before coin after,
           coins = (before ++ coin :: after)%list
           /\ Forall (fun c => ~ matches symbol c) before
           /\ matches symbol coin /\ coin_id coin = Some r)
        \/ (Forall (fun c => ~ matches symbol c) coins /\ r = JNull)).
Proof.
  intros Hlist Hwf.
  destruct (symbol_to_id_loop_first_match symbol coins Hwf) as (r & Er & Hr).
  exists r. split; [|exact Hr].
  unfold symbol_to_id. rewrite (bind_OK _ _ _ _ _ Hlist).
  rewrite bind_lift. simpl. unfold lift. rewrite Er. reflexivity.
Qed.

(** Against the sample list, ["BTC"] resolves to the first of the two
    entries with that symbol. *)
Lemma symbol_to_id_first_match_witness :
  get_coin_list (sample_world NoResponse) initial_state
    = (OK sample_coins, {| coin_list_cache := Some sample_coins; sent := [CoinsList] |})
  /\ symbol_to_id (sample_world NoResponse) "BTC" initial_state
     = (OK (JStr "bitcoin"), {| coin_list_cache := Some sample_coins; sent := [CoinsList] |}).
Proof.
  assert (Hlist : get_coin_list (sample_world NoResponse) initial_state
    = (OK sample_coins, {| coin_list_cache := Some sample_coins; sent := [CoinsList] |}))
    by reflexivity.
  split; [exact Hlist|].
  assert (Hwf : Forall well_formed_coin
                  [ JObj [("id", JStr "ethereum"); ("symbol", JStr "eth"); ("name", JStr "Ethereum")];
                    JObj [("id", JStr "bitcoin"); ("symbol", JStr "btc"); ("name", JStr "Bitcoin")];
                    JObj [("id", JStr "batcat"); ("symbol", JStr "BTC"); ("name", JStr "BatCat")] ]).
  { repeat constructor; simpl; discriminate. }
  destruct (symbol_to_id_first_match (sample_world NoResponse) initial_state _ "BTC" _ Hlist Hwf)
    as (r & Er & _).
  rewrite Er. vm_compute in Er. injection Er as <-. reflexivity.
Defined.

(** The examples of the specification: whatever the case of the letters,
    the symbol of bitcoin resolves to ["bitcoin"]; an unknown symbol
    resolves to [None]. *)
Example symbol_to_id_btc :
  let resolve symbol := fst (symbol_to_id (sample_world NoResponse) symbol initial_state) in
  resolve "btc" = OK (JStr "bitcoin")
  /\ resolve "BTC" = OK (JStr "bitcoin")
  /\ resolve "Btc" = OK (JStr "bitcoin")
  /\ resolve "ZZZZ" = OK JNull.
Proof. repeat split. Qed.

(** ** Request handler *)

Module HandlerFacts.

Lemma lstrip_chars_spaces l :
  Forall (fun c => Str.is_space c = true) l -> Str.lstrip_chars l = [].
Proof.
  induction 1 as [|c l Hc _ IH]; simpl; [reflexivity|]. rewrite Hc. exact IH.
Qed.

Lemma strip_spaces text :
  Forall (fun c => Str.is_space c = true) (list_ascii_of_string text) ->
  Str.strip text = "".
Proof.
  intros H. unfold Str.strip. rewrite (lstrip_chars_spaces _ H). reflexivity.
Qed.

End HandlerFacts.

Import HandlerFacts.

(** C8: a request whose command is absent, empty or made of whitespace only
    is answered with status 400 and the body
    [{"error": "No command provided."}]; the state is untouched, so no
    request was sent and the cache was not filled: no stage of the pipeline
    ran. *)
Theorem handle_analyze_no_command `{Runtime} (w : world) (st : state)
    (fields : list (string * json)) :
  (Py.lookup "command" fields = None
   \/ exists text, Py.lookup "command" fields = Some (JStr text)
        /\ Forall (fun c => Str.is_space c = true) (list_ascii_of_string text)) ->
  handle_analyze w (Some (JObj fields)) st
  = (Jsonify (JObj [("error", JStr "No command provided.")]) 400, st).
Proof.
  intros [E|(text & E & Hws)]; unfold handle_analyze; simpl; rewrite E; simpl.
  - reflexivity.
  - rewrite (strip_spaces _ Hws). reflexivity.
Qed.

Lemma handle_analyze_no_command_witness :
  (Py.lookup "command" [("command", JStr "")] = None
   \/ exists text, Py.lookup "command" [("command", JStr "")] = Some (JStr text)
        /\ Forall (fun c => Str.is_space c = true) (list_ascii_of_string text))
  /\ handle_analyze (sample_world NoResponse) (command_body "") initial_state
     = (Jsonify (JObj [("error", JStr "No command provided.")]) 400, initial_state).
Proof.
  assert (Hc : Py.lookup "command" [("command", JStr "")] = None
     \/ exists text, Py.lookup "command" [("command", JStr "")] = Some (JStr text)
          /\ Forall (fun c => Str.is_space c = true) (list_ascii_of_string text)).
  { right. exists "". split; [reflexivity | constructor]. }
  split; [exact Hc|].
  exact (handle_analyze_no_command (sample_world NoResponse) initial_state _ Hc).
Defined.

Example handle_analyze_blank_command :
  handle_analyze (sample_world NoResponse) (command_body "   ") initial_state
  = (Jsonify (JObj [("error", JStr "No command provided.")]) 400, initial_state)
  /\ handle_analyze (sample_world NoResponse) (Some (JObj [])) initial_state
     = (Jsonify (JObj [("error", JStr "No command provided.")]) 400, initial_state).
Proof. split; reflexivity. Qed.

(** C6: when the symbol of the request does not resolve, the handler
    answers with status 200 and the not-found message as the value of
    ["report"]; the only request that may have been sent is the one for the
    list of coins, so no market data was fetched. *)
Theorem handle_analyze_not_found `{Runtime} (w : world) (st st' : state)
    (fields : list (string * json)) (text token : string)
    (others : list string) (id : json) :
  Py.lookup "command" fields = Some (JStr text) ->
  rev (Str.split (Str.strip text)) = token :: others ->
  symbol_to_id w (Str.upper token) st = (OK id, st') ->
  Py.truthy id = false ->
  handle_analyze w (Some (JObj fields)) st
  = (Jsonify (JObj [("report", JStr (not_found_message (Str.upper token)))]) 200, st')
  /\ (sent st' = sent st \/ sent st' = (sent st ++ [CoinsList])%list).
Proof.
  intros Ec Etok Eid Hfalse. split; [|eapply symbol_to_id_sent; exact Eid].
  unfold handle_analyze. simpl. rewrite Ec. simpl.
  destruct (Str.strip text) as [|c rest] eqn:Es; [discriminate Etok|].
  simpl negb. cbv iota. rewrite Etok.
  unfold analyze_asset. rewrite (bind_OK _ _ _ _ _ Eid). rewrite Hfalse. reflexivity.
Qed.

Lemma handle_analyze_not_found_witness :
  Py.lookup "command" [("command", JStr "analyze doge")] = Some (JStr "analyze doge")
  /\ rev (Str.split (Str.strip "analyze doge")) = ["doge"; "analyze"]
  /\ symbol_to_id (sample_world NoResponse) (Str.upper "doge") initial_state
     = (OK JNull, {| coin_list_cache := Some sample_coins; sent := [CoinsList] |})
  /\ Py.truthy JNull = false
  /\ handle_analyze (sample_world NoResponse) (command_body "analyze doge") initial_state
     = (Jsonify (JObj [("report", JStr "❌ Asset symbol 'DOGE' not found on CoinGecko.")]) 200,
        {| coin_list_cache := Some sample_coins; sent := [CoinsList] |}).
Proof.
  repeat (split; [reflexivity|]).
  exact (proj1 (handle_analyze_not_found (sample_world NoResponse) initial_state _
                  [("command", JStr "analyze doge")] "analyze doge" "doge" ["analyze"] JNull
                  eq_refl eq_refl eq_refl eq_refl)).
Defined.

(** ** Trend rendering *)

Module ChartFacts.

Lemma first_line_sparklines numbers :
  first_line (Sparklines.sparklines numbers) = OK (Sparklines.scale_values numbers).
Proof. destruct numbers; reflexivity. Qed.

Lemma scale_values_length numbers :
  List.length (Sparklines.scale_values numbers) = List.length numbers.
Proof. unfold Sparklines.scale_values. apply length_map. Qed.

(** Stride sampling picks points of the series, untouched. *)
Lemma stride_nth_error {A} step (l : list A) : (1 <= step)%nat ->
  forall skip i, nth_error (stride skip step l) i = nth_error l (skip + i * step).
Proof.
  intros Hstep. induction l as [|x rest IH]; intros skip i.
  - cbn [stride]. generalize (skip + i * step)%nat. intros n.
    destruct i, n; reflexivity.
  - destruct skip as [|skip]; simpl.
    + destruct i as [|i]; simpl; [reflexivity|].
      rewrite IH. replace (step + i * step)%nat with (S (step - 1 + i * step)) by lia.
      reflexivity.
    + apply IH.
Qed.

Lemma stride_length {A} step (l : list A) : (1 <= step)%nat ->
  forall skip,
    List.length (stride skip step l) = ((List.length l + (step - 1) - skip) / step)%nat.
Proof.
  intros Hstep. induction l as [|x rest IH]; intros skip.
  - simpl. symmetry. apply Nat.div_small. lia.
  - destruct skip as [|skip]; simpl List.length.
    + cbn [stride]. simpl List.length. rewrite IH.
      replace (List.length rest + (step - 1) - (step - 1))%nat with (List.length rest) by lia.
      replace (S (List.length rest) + (step - 1) - 0)%nat
        with (List.length rest + 1 * step)%nat by lia.
      rewrite Nat.div_add by lia. lia.
    + cbn [stride]. rewrite IH. reflexivity.
Qed.

Lemma stride_one {A} (l : list A) : stride 0 1 l = l.
Proof. induction l as [|x rest IH]; simpl; [|rewrite IH]; reflexivity. Qed.

Lemma build_ascii_chart_short series width :
  (Z.of_nat (List.length series) < width)%Z ->
  build_ascii_chart series width = OK (Sparklines.scale_values series).
Proof.
  intros H. unfold build_ascii_chart.
  rewrite (proj2 (Z.ltb_lt _ _) H). apply first_line_sparklines.
Qed.

Lemma build_ascii_chart_long series width : (0 < width)%Z ->
  (width <= Z.of_nat (List.length series))%Z ->
  build_ascii_chart series width
  = OK (Sparklines.scale_values
          (stride 0 (Z.to_nat (Z.of_nat (List.length series) / width)) series)).
Proof.
  intros Hw H. unfold build_ascii_chart.
  rewrite (proj2 (Z.ltb_ge _ _) H).
  destruct (Z.eqb_spec width 0) as [E|_]; [lia|].
  assert (Hstep : (1 <= Z.of_nat (List.length series) / width)%Z).
  { apply Z.div_le_lower_bound; lia. }
  destruct (Z.of_nat (List.length series) / width)%Z as [|p|p] eqn:E; try lia.
  simpl. rewrite first_line_sparklines. reflexivity.
Qed.

End ChartFacts.

Import ChartFacts.

(** C9: for a positive width, a series shorter than the width is rendered
    whole, one glyph per point; otherwise one point in every
    [floor(length / width)] is rendered, starting with the first: the
    sampled points are points of the series, not averages. *)
Theorem build_ascii_chart_sampling (series : list Q) (width : Z) :
  (0 < width)%Z ->
  let length := List.length series in
  let step := Z.to_nat (Z.of_nat length / width) in
  ((Z.of_nat length < width)%Z ->
     build_ascii_chart series width = OK (Sparklines.scale_values series)
     /\ List.length (Sparklines.scale_values series) = length)
  /\ ((width <= Z.of_nat length)%Z ->
        (1 <= step)%nat
        /\ Z.of_nat step = (Z.of_nat length / width)%Z
        /\ build_ascii_chart series width
           = OK (Sparklines.scale_values (stride 0 step series))
        /\ (forall i, nth_error (stride 0 step series) i = nth_error series (i * step))
        /\ List.length (Sparklines.scale_values (stride 0 step series))
           = ((length + (step - 1)) / step)%nat).
Proof.
  intros Hw length step. split.
  - intros H. split; [apply build_ascii_chart_short, H | apply scale_values_length].
  - intros H.
    assert (Hdiv : (1 <= Z.of_nat length / width)%Z) by (apply Z.div_le_lower_bound; lia).
    assert (Hstep : (1 <= step)%nat) by (unfold step; lia).
    split; [exact Hstep|]. split; [unfold step; lia|].
    split; [apply build_ascii_chart_long; assumption|]. split.
    + intros i. apply (stride_nth_error step series Hstep 0 i).
    + rewrite scale_values_length, (stride_length step series Hstep 0).
      fold length. f_equal. lia.
Qed.

(** The examples of the specification: 30 points at width 60 give 30 glyphs,
    600 points give 60. *)
Lemma build_ascii_chart_examples (series : list Q) :
  (List.length series = 30%nat ->
     exists line, build_ascii_chart series default_width = OK line
                  /\ List.length line = 30%nat)
  /\ (List.length series = 600%nat ->
        exists line, build_ascii_chart series default_width = OK line
                     /\ List.length line = 60%nat).
Proof.
  split; intros E.
  - eexists. split.
    + apply build_ascii_chart_short. rewrite E. reflexivity.
    + rewrite scale_values_length. exact E.
  - assert (Hs : Z.to_nat (Z.of_nat (List.length series) / default_width) = 10%nat)
      by (rewrite E; reflexivity).
    exists (Sparklines.scale_values (stride 0 10 series)). split.
    + rewrite build_ascii_chart_long, Hs;
        [reflexivity | reflexivity | rewrite E; discriminate].
    + rewrite scale_values_length, (stride_length 10 series ltac:(lia) 0), E.
      reflexivity.
Qed.

(** At width zero the floor division of the stride raises. *)
Example build_ascii_chart_zero_width (series : list Q) :
  build_ascii_chart series 0 = Raise ZeroDivisionError.
Proof.
  unfold build_ascii_chart.
  destruct (Z.ltb_spec (Z.of_nat (List.length series)) 0); [lia | reflexivity].
Qed.

Lemma build_ascii_chart_sampling_witness :
  (0 < 60)%Z
  /\ build_ascii_chart (map inject_Z [3; 1; 4; 1; 5; 9; 2; 6]%Z) 60
     = OK [3; 1; 4; 1; 4; 8; 2; 5]%nat
  /\ build_ascii_chart (map inject_Z [3; 1; 4; 1; 5; 9; 2; 6]%Z) 3
     = OK [3; 6; 8; 1]%nat.
Proof.
  split; [reflexivity|].
  destruct (build_ascii_chart_sampling (map inject_Z [3; 1; 4; 1; 5; 9; 2; 6]%Z) 60 eq_refl)
    as [Hshort _].
  destruct (build_ascii_chart_sampling (map inject_Z [3; 1; 4; 1; 5; 9; 2; 6]%Z) 3 eq_refl)
    as [_ Hlong].
  split.
  - exact (proj1 (Hshort eq_refl)).
  - destruct (Hlong ltac:(discriminate)) as (_ & _ & E & _). exact E.
Defined.

(** C10, as stated, fails where the length equals the width: 60 points at
    width 60 are rendered as 60 glyphs, which does not exceed the width. *)
Lemma build_ascii_chart_at_width :
  (60 <= Z.of_nat (List.length (repeat 1 60)) < 2 * 60)%Z
  /\ build_ascii_chart (repeat 1 60) 60 = OK (repeat 4%nat 60)
  /\ ~ (60 < Z.of_nat (List.length (repeat 4%nat 60)))%Z.
Proof.
  split; [split; [discriminate | reflexivity]|].
  split; [reflexivity|]. intros H. discriminate H.
Qed.

(** C10, amended: when [width <= length < 2 * width] the stride is one and
    the whole series is rendered, one glyph per point: the line has
    [length] glyphs, at least the width, and more than the width exactly
    when the series is longer than the width. *)
Theorem build_ascii_chart_stride_one (series : list Q) (width : Z) :
  (width <= Z.of_nat (List.length series) < 2 * width)%Z ->
  (Z.of_nat (List.length series) / width = 1)%Z
  /\ build_ascii_chart series width = OK (Sparklines.scale_values series)
  /\ List.length (Sparklines.scale_values series) = List.length series
  /\ (width <= Z.of_nat (List.length (Sparklines.scale_values series)))%Z
  /\ ((width < Z.of_nat (List.length series))%Z ->
      (width < Z.of_nat (List.length (Sparklines.scale_values series)))%Z).
Proof.
  intros [Hlo Hhi].
  assert (Hw : (0 < width)%Z) by lia.
  assert (Hdiv : (Z.of_nat (List.length series) / width = 1)%Z).
  { symmetry. apply (Z.div_unique _ _ 1 (Z.of_nat (List.length series) - width)); lia. }
  split; [exact Hdiv|]. split.
  - rewrite (build_ascii_chart_long series width Hw Hlo), Hdiv.
    change (Z.to_nat 1) with 1%nat. rewrite stride_one. reflexivity.
  - rewrite scale_values_length. repeat split; auto.
Qed.

Lemma build_ascii_chart_stride_one_witness :
  (60 <= Z.of_nat (List.length (repeat 1 90)) < 2 * 60)%Z
  /\ build_ascii_chart (repeat 1 90) 60 = OK (Sparklines.scale_values (repeat 1 90))
  /\ List.length (Sparklines.scale_values (repeat 1 90)) = 90%nat.
Proof.
  assert (H : (60 <= Z.of_nat (List.length (repeat 1 90)) < 2 * 60)%Z)
    by (split; [discriminate | reflexivity]).
  split; [exact H|].
  destruct (build_ascii_chart_stride_one (repeat 1 90) 60 H) as (_ & E & L & _).
  split; [exact E | exact L].
Defined.

(** ** Market data client *)

Module OverviewFacts.

Lemma usd_quote_getitem md key v :
  usd_quote md key = Some v ->
  (q <- Py.getitem md key ;; Py.getitem q "usd")%result = OK v.
Proof.
  unfold usd_quote. destruct md as [| | | | | |fields]; try discriminate.
  simpl. destruct (Py.lookup key fields) as [[| | | | | |quotes]|]; try discriminate.
  simpl. intros ->. reflexivity.
Qed.

Lemma usd_quote_missing md key :
  usd_quote md key = None ->
  exists e, (q <- Py.getitem md key ;; Py.getitem q "usd")%result = Raise e.
Proof.
  unfold usd_quote. destruct md as [| | | | | |fields]; simpl; try (eexists; reflexivity).
  destruct (Py.lookup key fields) as [[| | | | | |quotes]|]; simpl;
    try (eexists; reflexivity).
  intros ->. eexists; reflexivity.
Qed.

(** [overview_of_json] with the two subscripts of each quote taken together. *)
Lemma overview_of_json_quotes data :
  overview_of_json data =
  (md <- Py.getitem data "market_data" ;;
   name <- Py.get data "name" JNull ;;
   symbol <- Py.get data "symbol" JNull ;;
   symbol <- Py.str_method Str.upper symbol ;;
   current_price <- (q <- Py.getitem md "current_price" ;; Py.getitem q "usd") ;;
   market_cap <- (q <- Py.getitem md "market_cap" ;; Py.getitem q "usd") ;;
   volume_24h <- (q <- Py.getitem md "total_volume" ;; Py.getitem q "usd") ;;
   circulating_supply <- Py.get md "circulating_supply" JNull ;;
   total_supply <- Py.get md "total_supply" JNull ;;
   description <- description_of_json data ;;
   OK (Overview.mk name symbol current_price market_cap volume_24h
         circulating_supply total_supply description))%result.
Proof.
  unfold overview_of_json.
  destruct (Py.getitem data "market_data"); simpl; [|reflexivity].
  destruct (Py.get data "name" JNull); simpl; [|reflexivity].
  destruct (Py.get data "symbol" JNull); simpl; [|reflexivity].
  destruct (Py.str_method Str.upper a1); simpl; [|reflexivity].
  destruct (Py.getitem a "current_price") as [q1|]; simpl; [|reflexivity].
  destruct (Py.getitem q1 "usd"); simpl; [|reflexivity].
  destruct (Py.getitem a "market_cap") as [q2|]; simpl; [|reflexivity].
  destruct (Py.getitem q2 "usd"); simpl; [|reflexivity].
  destruct (Py.getitem a "total_volume") as [q3|]; simpl; reflexivity.
Qed.

Lemma overview_of_json_missing data :
  required_missing data -> exists e, overview_of_json data = Raise e.
Proof.
  intros H. rewrite overview_of_json_quotes.
  destruct data as [| | | | | |fields]; try (eexists; reflexivity).
  simpl in H. simpl.
  destruct (Py.lookup "market_data" fields) as [md|] eqn:Emd; simpl;
    [|eexists; reflexivity].
  destruct (Py.lookup "name" fields); simpl.
  all: destruct (Py.lookup "symbol" fields) as [sym|] eqn:Es; simpl;
    [|eexists; reflexivity].
  all: destruct (Py.str_method Str.upper sym); simpl; [|eexists; reflexivity].
  all: destruct H as [H|[H|[H|H]]]; try discriminate.
  all: destruct (usd_quote md "current_price") as [cp|] eqn:E1;
    [rewrite (usd_quote_getitem _ _ _ E1)
    | destruct (usd_quote_missing _ _ E1) as [e ->]; eexists; reflexivity]; simpl.
  all: try discriminate.
  all: destruct (usd_quote md "market_cap") as [mc|] eqn:E2;
    [rewrite (usd_quote_getitem _ _ _ E2)
    | destruct (usd_quote_missing _ _ E2) as [e ->]; eexists; reflexivity]; simpl.
  all: try discriminate.
  all: destruct (usd_quote_missing _ _ H) as [e ->]; eexists; reflexivity.
Qed.

Lemma usd_quote_md md key v : usd_quote md key = Some v -> exists fields, md = JObj fields.
Proof. destruct md; try discriminate. eexists; reflexivity. Qed.

Ltac take_quote E :=
  unfold usd_quote in E;
  match type of E with
  | context [Py.lookup ?k ?md] =>
      destruct (Py.lookup k md) as [[| | | | | |?quotes]|]; try discriminate E;
      simpl; rewrite E; simpl
  end.

Lemma overview_of_json_tolerant fields md sym price cap vol description :
  Py.lookup "market_data" fields = Some (JObj md) ->
  Py.lookup "symbol" fields = Some (JStr sym) ->
  usd_quote (JObj md) "current_price" = Some price ->
  usd_quote (JObj md) "market_cap" = Some cap ->
  usd_quote (JObj md) "total_volume" = Some vol ->
  description_of_json (JObj fields) = OK description ->
  overview_of_json (JObj fields)
  = OK (Overview.mk (optional fields "name") (Str.upper sym) price cap vol
          (optional md "circulating_supply") (optional md "total_supply")
          description).
Proof.
  intros Emd Es E1 E2 E3 Ed. unfold overview_of_json, optional.
  simpl. rewrite Emd. simpl.
  destruct (Py.lookup "name" fields); simpl; rewrite Es; simpl.
  all: take_quote E1; take_quote E2; take_quote E3.
  all: destruct (Py.lookup "circulating_supply" md),
         (Py.lookup "total_supply" md); simpl; rewrite Ed; reflexivity.
Qed.

Lemma description_absent fields :
  Py.lookup "description" fields = None ->
  description_of_json (JObj fields) = OK (JStr "").
Proof. intros E. unfold description_of_json. simpl. rewrite E. reflexivity. Qed.

End OverviewFacts.

Import OverviewFacts.

(** C2, as stated, fails for the name and the circulating supply: a payload
    without them (and without total supply and description) is accepted,
    and the overview carries [None] in their place.  It also fails for a
    status such as 304, which is not 2xx and which [raise_for_status] lets
    through. *)
Lemma fetch_market_overview_without_name :
  Py.lookup "name" [ ("symbol", JStr "btc") ] = None
  /\ fst (fetch_market_overview nameless_world (JStr "bitcoin") initial_state)
     = OK (Overview.mk JNull "BTC" (JInt 50000) (JInt 1000000000000)
             (JInt 20000000000) JNull JNull (JStr ""))
  /\ Requests.raise_for_status (304%Z, Some nameless_overview) = OK tt.
Proof. repeat split. Qed.

(** C2, amended: [fetch_market_overview] fails, returning no overview, when
    the response has a 4xx or 5xx status, when its body is not JSON, and when
    the payload lacks the symbol, the market data or the usd quote of the
    current price, the market cap or the 24h volume.  A payload that has
    these is accepted, provided its description is well formed: name,
    circulating supply and total supply are [None] where absent, and an
    absent description is the empty string. *)
Theorem fetch_market_overview_required `{Runtime} (w : world) (id : json)
    (st : state) (status : Z) (body : option json) :
  w (CoinOverview (Py.str id)) = Response status body ->
  let outcome := fst (fetch_market_overview w id st) in
  ((400 <= status < 600)%Z -> outcome = Raise (HTTPError status))
  /\ (~ (400 <= status < 600)%Z ->
      (body = None -> outcome = Raise JSONDecodeError)
      /\ (forall data, body = Some data -> required_missing data ->
            exists e, outcome = Raise e)
      /\ (forall fields md sym price cap vol description,
            body = Some (JObj fields) ->
            Py.lookup "market_data" fields = Some (JObj md) ->
            Py.lookup "symbol" fields = Some (JStr sym) ->
            usd_quote (JObj md) "current_price" = Some price ->
            usd_quote (JObj md) "market_cap" = Some cap ->
            usd_quote (JObj md) "total_volume" = Some vol ->
            description_of_json (JObj fields) = OK description ->
            outcome
            = OK (Overview.mk (optional fields "name") (Str.upper sym) price cap vol
                    (optional md "circulating_supply") (optional md "total_supply")
                    description))
      /\ (forall fields, Py.lookup "description" fields = None ->
            description_of_json (JObj fields) = OK (JStr ""))).
Proof.
  intros Hw outcome.
  assert (E : outcome =
    (_ <- Requests.raise_for_status (status, body) ;;
     data <- Requests.json (status, body) ;;
     overview_of_json data)%result).
  { unfold outcome, fetch_market_overview, bind, lift, Requests.get. rewrite Hw.
    destruct (Requests.raise_for_status (status, body)); simpl; [|reflexivity].
    destruct (Requests.json (status, body)); simpl; [|reflexivity].
    destruct (overview_of_json a0); reflexivity. }
  rewrite E. unfold Requests.raise_for_status, Requests.json. simpl fst. simpl snd.
  split.
  - intros [H1 H2].
    rewrite (proj2 (Z.leb_le _ _) H1), (proj2 (Z.ltb_lt _ _) H2). reflexivity.
  - intros Hok.
    assert (Hs : ((400 <=? status) && (status <? 600))%Z = false).
    { destruct (Z.leb_spec 400 status), (Z.ltb_spec status 600); simpl; auto.
      exfalso. apply Hok. lia. }
    rewrite Hs. simpl. repeat split.
    + intros ->. reflexivity.
    + intros data -> Hmiss. simpl. apply overview_of_json_missing, Hmiss.
    + intros fields md sym price cap vol description -> Emd Es E1 E2 E3 Ed. simpl.
      apply overview_of_json_tolerant; assumption.
    + apply description_absent.
Qed.

Lemma fetch_market_overview_required_witness :
  sample_world NoResponse (CoinOverview (Py.str (JStr "dogecoin"))) = Response 404 None
  /\ fst (fetch_market_overview (sample_world NoResponse) (JStr "dogecoin") initial_state)
     = Raise (HTTPError 404).
Proof.
  split; [reflexivity|].
  apply (proj1 (fetch_market_overview_required (sample_world NoResponse) (JStr "dogecoin")
                  initial_state 404 None eq_refl)).
  split; [discriminate | reflexivity].
Defined.

(** ** Sentiment *)

Module SentimentFacts.

(** What the sentiment block evaluates to: the status code plays no part. *)
Lemma fear_greed_index_eq w st :
  fear_greed_index w st =
  (OK match w (FearGreed 10) with
      | NoResponse => sentinel
      | Response _ None => sentinel
      | Response _ (Some data) =>
          match reading_of data with
          | OK reading => reading
          | Raise _ => sentinel
          end
      end,
   after_request st (FearGreed 10)).
Proof.
  unfold fear_greed_index, try_except, bind, lift, ret, Requests.get, Requests.json,
    reading_of, after_request.
  destruct (w (FearGreed 10)) as [|status [data|]]; simpl; try reflexivity.
  destruct (Py.getitem data "data") as [d|]; simpl; [|reflexivity].
  destruct (Py.getitem0 d) as [fng|]; simpl; [|reflexivity].
  destruct (Py.getitem fng "value") as [v|]; simpl; [|reflexivity].
  destruct (Py.getitem fng "value_classification") as [t|]; simpl; reflexivity.
Qed.

(** The sentiment block never raises. *)
Lemma fear_greed_index_total w st :
  exists reading, fear_greed_index w st = (OK reading, after_request st (FearGreed 10)).
Proof. rewrite fear_greed_index_eq. eexists. reflexivity. Qed.

(** No answer, a body that is not JSON, or a payload without the reading:
    the sentinel pair. *)
Lemma fear_greed_index_unavailable w st :
  (w (FearGreed 10) = NoResponse
   \/ (exists status, w (FearGreed 10) = Response status None)
   \/ (exists status data e, w (FearGreed 10) = Response status (Some data)
         /\ reading_of data = Raise e)) ->
  fear_greed_index w st = (OK sentinel, after_request st (FearGreed 10)).
Proof.
  rewrite fear_greed_index_eq.
  intros [E|[[status E]|(status & data & e & E & Er)]]; rewrite E; try rewrite Er;
    reflexivity.
Qed.

(** A well-formed payload is read whatever the status of the response. *)
Lemma fear_greed_index_any_status w st status data reading :
  w (FearGreed 10) = Response status (Some data) ->
  reading_of data = OK reading ->
  fear_greed_index w st = (OK reading, after_request st (FearGreed 10)).
Proof.
  intros E Er. rewrite fear_greed_index_eq, E, Er. reflexivity.
Qed.

End SentimentFacts.

Import SentimentFacts.


(** When the provider does not answer in time the report is still produced,
    with the sentinel in the sentiment line. *)
Example sentiment_timeout :
  exists report st,
    handle_analyze (sample_world NoResponse) (command_body "analyze BTC") initial_state
    = (Jsonify (JObj [("report", JStr report)]) 200, st)
    /\ Str.has_line "Fear & Greed Index: N/A (Unavailable)" report = true.
Proof.
  eexists. eexists. split; [vm_compute; reflexivity|]. vm_compute. reflexivity.
Qed.

(** ** Report builder *)

Module ReportFacts.









(** Given the sentinel pair the sentiment line reads "N/A (Unavailable)". *)
Lemma report_lines_sentinel `{Runtime} overview latest support resistance close lines :
  report_lines overview latest support resistance close (fst sentinel) (snd sentinel)
  = OK lines ->
  In "Fear & Greed Index: N/A (Unavailable)" lines.
Proof.
  unfold report_lines. intros E.
  repeat match type of E with
         | rbind ?r _ = _ => destruct r; [cbn [rbind] in E | discriminate E]
         end.
  injection E as <-.
  do 4 apply in_cons. apply in_or_app. right. simpl. auto 20.
Qed.

End ReportFacts.

Import ReportFacts.




(** ** Indicator engine *)

Module TaFacts.

Local Open Scope list_scope.

Lemma lift2_red (f : Q -> Q -> Q) x y v :
  f x y == v -> Ta.lift2 f (Some x) (Some y) = Some (Qred v).
Proof. intros E. simpl. f_equal. apply Qred_complete, E. Qed.

Lemma skipn_repeat {A} (x : A) k n : skipn k (repeat x n) = repeat x (n - k).
Proof.
  revert k. induction n as [|n IH]; intros [|k]; simpl; try reflexivity. apply IH.
Qed.

Lemma firstn_repeat {A} (x : A) k n : (k <= n)%nat -> firstn k (repeat x n) = repeat x k.
Proof.
  revert k. induction n as [|n IH]; intros [|k] Hk; simpl; try reflexivity; try lia.
  f_equal. apply IH. lia.
Qed.

Lemma last_repeat {A} (x d : A) n : last (x :: repeat x n) d = x.
Proof. induction n as [|n IH]; [reflexivity|]. simpl in *. exact IH. Qed.

Lemma last_app_cons {A} (l : list A) x r d : last (l ++ x :: r) d = last (x :: r) d.
Proof.
  induction l as [|y l IH]; [reflexivity|].
  simpl app. rewrite <- IH. simpl. destruct (l ++ x :: r) eqn:E; [|reflexivity].
  destruct l; discriminate.
Qed.

Lemma last_map_seq {A} (g : nat -> A) n d : last (map g (seq 0 (S n))) d = g n.
Proof. rewrite seq_S, map_app. simpl. apply last_last. Qed.

Lemma last_all_none (l : column) : Forall (fun x => x = None) l -> last l None = None.
Proof.
  induction 1 as [|x l Hx _ IH]; [reflexivity|].
  simpl. destruct l; [exact Hx | exact IH].
Qed.

Lemma sum_const c n :
  exists s, Ta.sum (repeat (Some c) n) = Some s /\ s == inject_Z (Z.of_nat n) * c.
Proof.
  induction n as [|n (s & E & Hs)].
  - exists 0. split; [reflexivity | ring].
  - exists (Qred (c + s)). split.
    + cbn [repeat Ta.sum]. rewrite E. reflexivity.
    + rewrite Qred_correct, Hs, Nat2Z.inj_succ. unfold Z.succ. rewrite inject_Z_plus. ring.
Qed.

(** The mean of a constant window is the constant. *)
Lemma mean_const c n : (1 <= n)%nat -> Ta.mean (repeat (Some c) n) = Some (Qred c).
Proof.
  intros Hn. destruct n as [|n]; [lia|].
  destruct (sum_const c (S n)) as (s & E & Hs).
  unfold Ta.mean. cbn [repeat]. change (Some c :: repeat (Some c) n) with (repeat (Some c) (S n)).
  rewrite E, repeat_length. apply lift2_red. rewrite Hs.
  field. intros H0. change 0 with (inject_Z 0) in H0.
  rewrite inject_Z_injective in H0. lia.
Qed.

Lemma window_const (x : option Q) length n i :
  (1 <= length)%nat -> (length <= i + 1)%nat -> (i < n)%nat ->
  Ta.window length (repeat x n) i = Some (repeat x length).
Proof.
  intros H1 H2 H3. unfold Ta.window.
  rewrite (proj2 (Nat.leb_le _ _) H1), (proj2 (Nat.leb_le _ _) H2). simpl.
  rewrite skipn_repeat, firstn_repeat by lia. reflexivity.
Qed.

(** The last value of a rolling statistic is the statistic of the last
    window. *)
Lemma last_rolling_const f (x : option Q) length n :
  (1 <= length <= n)%nat ->
  last_value (Ta.rolling f length (repeat x n)) = f (repeat x length).
Proof.
  intros H. unfold last_value, Ta.rolling. rewrite repeat_length.
  destruct n as [|n]; [lia|]. rewrite last_map_seq.
  rewrite window_const by lia. reflexivity.
Qed.

Lemma sma_const c length n : (1 <= length <= n)%nat ->
  last_value (Ta.sma (repeat (Some c) n) length) = Some (Qred c).
Proof.
  intros H. unfold Ta.sma. rewrite last_rolling_const by exact H.
  apply mean_const. lia.
Qed.

(** An exponential average that starts at the constant stays there. *)
Lemma ewm_const alpha c v n : v == c ->
  Ta.ewm alpha (Some (Qred c)) (repeat (Some v) n) = repeat (Some (Qred c)) n.
Proof.
  intros Hv. induction n as [|n IH]; [reflexivity|].
  cbn [repeat Ta.ewm].
  assert (E : Ta.lift2 (fun x p => alpha * x + (1 - alpha) * p) (Some v) (Some (Qred c))
              = Some (Qred c)).
  { apply lift2_red. rewrite Qred_correct, Hv. ring. }
  rewrite E, IH. reflexivity.
Qed.

Lemma leading_nans_some v n : Ta.leading_nans (repeat (Some v) n) = 0%nat.
Proof. destruct n; reflexivity. Qed.

Lemma seeded_ewm_const alpha c length lead n :
  (1 <= length)%nat -> (length <= n)%nat ->
  Ta.seeded_ewm alpha (repeat None lead ++ repeat (Some c) n)%list length
  = (repeat None (lead + length - 1) ++ repeat (Some (Qred c)) (S (n - length)))%list.
Proof.
  intros H1 H2. unfold Ta.seeded_ewm.
  assert (El : Ta.leading_nans (repeat None lead ++ repeat (Some c) n)%list = lead).
  { induction lead as [|lead IH]; simpl; [apply leading_nans_some | rewrite IH; reflexivity]. }
  rewrite El.
  assert (Es : skipn lead (repeat None lead ++ repeat (Some c) n)%list = repeat (Some c) n).
  { rewrite skipn_app, repeat_length, Nat.sub_diag, skipn_all2 by (rewrite repeat_length; lia).
    reflexivity. }
  rewrite Es, repeat_length.
  destruct (Nat.eqb_spec length 0) as [E0|_]; [lia|].
  destruct (Nat.ltb_spec n length) as [Hlt|_]; [lia|]. simpl orb. cbv iota.
  rewrite firstn_repeat, skipn_repeat by lia.
  rewrite (mean_const c length H1).
  rewrite (ewm_const alpha c c (n - length) (Qeq_refl c)). reflexivity.
Qed.

Lemma last_value_seeded lead1 c m :
  last_value (repeat None lead1 ++ repeat (Some c) (S m))%list = Some c.
Proof.
  unfold last_value. cbn [repeat]. rewrite last_app_cons. apply last_repeat.
Qed.

Lemma ema_const c length n : (1 <= length <= n)%nat ->
  last_value (Ta.ema (repeat (Some c) n) length) = Some (Qred c).
Proof.
  intros [H1 H2]. unfold Ta.ema.
  rewrite (seeded_ewm_const _ c length 0 n H1 H2). apply last_value_seeded.
Qed.

Lemma diff_from_const c n :
  Ta.diff_from (Some c) (repeat (Some c) n) = repeat (Some 0) n.
Proof.
  induction n as [|n IH]; [reflexivity|].
  cbn [repeat Ta.diff_from]. rewrite IH. f_equal.
  change (Some 0) with (Some (Qred 0)). apply lift2_red. ring.
Qed.

Lemma diff_const c n :
  Ta.diff (repeat (Some c) (S n)) = (repeat None 1 ++ repeat (Some 0) n)%list.
Proof. unfold Ta.diff. cbn [repeat Ta.diff_from app]. rewrite diff_from_const. reflexivity. Qed.

(** With no movement, the smoothed gains and losses are undefined or zero. *)
Lemma rma_still length n :
  Forall (fun x => x = None \/ x = Some 0)
    (Ta.rma (repeat None 1 ++ repeat (Some 0) n)%list length).
Proof.
  unfold Ta.rma.
  destruct (Nat.leb_spec 1 length) as [H1|H1];
    [destruct (Nat.leb_spec length n) as [H2|H2]|].
  - rewrite (seeded_ewm_const _ 0 length 1 n H1 H2).
    apply Forall_app. split; apply Forall_forall; intros x Hx;
      apply repeat_spec in Hx; auto.
  - unfold Ta.seeded_ewm.
    assert (El : Ta.leading_nans (repeat None 1 ++ repeat (Some 0) n)%list = 1%nat).
    { simpl. rewrite leading_nans_some. reflexivity. }
    rewrite El. cbn [repeat app skipn]. rewrite repeat_length.
    destruct (Nat.ltb_spec n length) as [_|Hge]; [|lia].
    rewrite orb_true_r. apply Forall_forall. intros x Hx. apply repeat_spec in Hx. auto.
  - unfold Ta.seeded_ewm. assert (length = 0%nat) as -> by lia. simpl orb. cbv iota.
    apply Forall_forall. intros x Hx. apply repeat_spec in Hx. auto.
Qed.

Lemma map_combine_same {A B} (f : A * A -> B) (l : list A) :
  map f (combine l l) = map (fun x => f (x, x)) l.
Proof. induction l as [|x l IH]; simpl; [|rewrite IH]; reflexivity. Qed.

(** The RSI of a constant series is NaN on every row. *)
Lemma rsi_const c length n :
  Forall (fun x => x = None) (Ta.rsi (repeat (Some c) n) length).
Proof.
  unfold Ta.rsi. destruct n as [|n].
  - destruct length; constructor.
  - rewrite diff_const.
    assert (Eg : map Ta.gain (repeat None 1 ++ repeat (Some 0) n)%list
                 = (repeat None 1 ++ repeat (Some 0) n)%list).
    { rewrite map_app, !map_repeat. reflexivity. }
    assert (El : map Ta.loss (repeat None 1 ++ repeat (Some 0) n)%list
                 = (repeat None 1 ++ repeat (Some 0) n)%list).
    { rewrite map_app, !map_repeat. reflexivity. }
    rewrite Eg, El, map_combine_same.
    pose proof (rma_still length n) as Hs.
    induction Hs as [|x l [->| ->] _ IH]; simpl; constructor; auto.
Qed.

Lemma rsi_const_last c length n :
  last_value (Ta.rsi (repeat (Some c) n) length) = None.
Proof. apply last_all_none, rsi_const. Qed.

(** The deviation of a constant window is zero. *)
Lemma stdev_const `{Runtime} c n : (1 <= n)%nat ->
  exists d, Ta.stdev (repeat (Some c) n) = Some d /\ d == 0.
Proof.
  intros Hn. unfold Ta.stdev. rewrite (mean_const c n Hn), map_repeat.
  cbn [option_map]. rewrite (mean_const _ n Hn). cbn [option_map].
  eexists. split; [reflexivity|]. apply sqrt_0.
  rewrite !Qred_correct. ring.
Qed.

Lemma last_map_combine {A B C} (f : A * B -> C) (l1 : list A) (l2 : list B) d1 d2 d :
  List.length l1 = List.length l2 -> l1 <> [] ->
  last (map f (combine l1 l2)) d = f (last l1 d1, last l2 d2).
Proof.
  revert l2. induction l1 as [|x l1 IH]; intros [|y l2] Hlen Hne; simpl in *;
    try congruence.
  destruct l1 as [|x' l1], l2 as [|y' l2]; simpl in *; try discriminate; [reflexivity|].
  apply (IH (y' :: l2)); [simpl; lia | discriminate].
Qed.

Lemma rolling_length f length xs :
  List.length (Ta.rolling f length xs) = List.length xs.
Proof. unfold Ta.rolling. rewrite length_map, length_seq. reflexivity. Qed.

(** The bands of a constant series collapse onto the constant. *)
Lemma bbands_const `{Runtime} c n : (20 <= n)%nat ->
  let bb := Ta.bbands (repeat (Some c) n) in
  last_value (fst (fst bb)) = Some (Qred c)
  /\ last_value (snd (fst bb)) = Some (Qred c)
  /\ last_value (snd bb) = Some (Qred c).
Proof.
  intros Hn. unfold Ta.bbands. cbn [fst snd].
  assert (Hmid : last_value (Ta.sma (repeat (Some c) n) 20) = Some (Qred c))
    by (apply sma_const; lia).
  destruct (stdev_const c 20 ltac:(lia)) as (d & Ed & Hd).
  assert (Hdev : last_value (Ta.rolling Ta.stdev 20 (repeat (Some c) n)) = Some d).
  { rewrite last_rolling_const by lia. exact Ed. }
  assert (Hlen : List.length (Ta.sma (repeat (Some c) n) 20)
                 = List.length (Ta.rolling Ta.stdev 20 (repeat (Some c) n))).
  { unfold Ta.sma. rewrite !rolling_length. reflexivity. }
  assert (Hne : Ta.sma (repeat (Some c) n) 20 <> []).
  { intros E. apply (f_equal (@List.length _)) in E. unfold Ta.sma in E.
    rewrite rolling_length, repeat_length in E. simpl in E. lia. }
  unfold last_value in *.
  rewrite !(last_map_combine _ _ _ None None None Hlen Hne), Hmid, Hdev. cbn [fst snd].
  repeat split; try reflexivity; apply lift2_red; rewrite Qred_correct, Hd; ring.
Qed.

Lemma iloc_last_nonempty (f : Frame.t) : Frame.close f <> [] ->
  exists latest, iloc_last f = OK latest
    /\ latest = Row.mk (last_value (Frame.close f))
                 (last_value (Frame.SMA20 f)) (last_value (Frame.SMA50 f))
                 (last_value (Frame.SMA200 f))
                 (last_value (Frame.EMA20 f)) (last_value (Frame.EMA50 f))
                 (last_value (Frame.EMA200 f))
                 (last_value (Frame.RSI f))
                 (last_value (Frame.MACD_12_26_9 f)) (last_value (Frame.MACDs_12_26_9 f))
                 (last_value (Frame.BBL_20_2_0 f)) (last_value (Frame.BBM_20_2_0 f))
                 (last_value (Frame.BBU_20_2_0 f)).
Proof.
  intros Hne. unfold iloc_last. destruct (Frame.close f) eqn:E; [contradiction|].
  eexists. split; reflexivity.
Qed.

End TaFacts.

Import TaFacts.

(** C4, as stated, fails for a series shorter than a window: after ten days
    at 100 the twenty-day average of the last row is still undefined. *)
Lemma compute_technicals_ten_days :
  exists latest,
    iloc_last (compute_technicals (repeat (Some 100) 10)) = OK latest
    /\ Row.SMA20 latest = None
    /\ Row.SMA20 latest <> Some 100.
Proof. eexists. split; [reflexivity|]. split; [reflexivity | discriminate]. Qed.

(** C4, amended: for every constant price series of at least 200 days, the
    last row of [compute_technicals] has the three simple and the three
    exponential averages equal to the constant, an undefined RSI (NaN: the
    quotient [0 / 0] raises nothing), and the three Bollinger bands equal to
    the constant. *)
Theorem compute_technicals_constant `{Runtime} (c : Q) (n : nat) :
  (200 <= n)%nat ->
  exists latest,
    iloc_last (compute_technicals (repeat (Some c) n)) = OK latest
    /\ Qred c == c
    /\ Row.SMA20 latest = Some (Qred c)
    /\ Row.SMA50 latest = Some (Qred c)
    /\ Row.SMA200 latest = Some (Qred c)
    /\ Row.EMA20 latest = Some (Qred c)
    /\ Row.EMA50 latest = Some (Qred c)
    /\ Row.EMA200 latest = Some (Qred c)
    /\ Row.RSI latest = None
    /\ Row.BBL_20_2_0 latest = Some (Qred c)
    /\ Row.BBM_20_2_0 latest = Some (Qred c)
    /\ Row.BBU_20_2_0 latest = Some (Qred c).
Proof.
  intros Hn.
  destruct (iloc_last_nonempty (compute_technicals (repeat (Some c) n))) as (latest & E & R).
  { cbn [compute_technicals Frame.close]. destruct n; [lia | discriminate]. }
  exists latest. split; [exact E|]. subst latest.
  cbn [Row.SMA20 Row.SMA50 Row.SMA200 Row.EMA20 Row.EMA50 Row.EMA200 Row.RSI
       Row.BBL_20_2_0 Row.BBM_20_2_0 Row.BBU_20_2_0 compute_technicals
       Frame.SMA20 Frame.SMA50 Frame.SMA200 Frame.EMA20 Frame.EMA50 Frame.EMA200
       Frame.RSI Frame.BBL_20_2_0 Frame.BBM_20_2_0 Frame.BBU_20_2_0].
  destruct (bbands_const c n ltac:(lia)) as (B1 & B2 & B3).
  split; [apply Qred_correct|].
  repeat split;
    try (apply sma_const; lia); try (apply ema_const; lia);
    try apply rsi_const_last; assumption.
Qed.

Lemma compute_technicals_constant_witness :
  (200 <= 250)%nat
  /\ exists latest,
       iloc_last (compute_technicals (repeat (Some 100) 250)) = OK latest
       /\ Row.SMA200 latest = Some 100
       /\ Row.EMA200 latest = Some 100
       /\ Row.RSI latest = None
       /\ Row.BBL_20_2_0 latest = Some 100
       /\ Row.BBU_20_2_0 latest = Some 100.
Proof.
  assert (Hn : (200 <= 250)%nat) by (repeat constructor).
  split; [exact Hn|].
  destruct (compute_technicals_constant 100 250 Hn)
    as (latest & E & _ & _ & _ & S200 & _ & _ & E200 & R & BL & _ & BU).
  exists latest. repeat split; assumption.
Defined.

(** The end-to-end scenario of the specification: the command ["BTC"], a
    price of 50000, a market cap of [10^12], a volume of [2 * 10^10] and 250
    flat days at 50000. *)
Example end_to_end_scenario :
  exists report st,
    handle_analyze (sample_world (Response 200 (Some sample_reading)))
      (command_body "BTC") initial_state
    = (Jsonify (JObj [("report", JStr report)]) 200, st)
    /\ sent st = [CoinsList; CoinOverview "bitcoin"; MarketChart "bitcoin" 365;
                  FearGreed 10]
    /\ Str.has_line "Price: $50,000 | Market Cap: $1.00T | 24h Vol: $20.00B" report = true
    /\ Str.has_line "Supply: 19.50M / 21.00M" report = true
    /\ Str.has_line "SMA(20/50/200): 50000.00, 50000.00, 50000.00" report = true
    /\ Str.has_line "EMA(20/50/200): 50000.00, 50000.00, 50000.00" report = true
    /\ Str.has_line "RSI(14): nan" report = true
    /\ Str.has_line "Fear & Greed Index: 50 (Neutral)" report = true.
Proof.
  eexists. eexists. split; [vm_compute; reflexivity|].
  repeat split; vm_compute; reflexivity.
Qed.

(* ================================================================== *)
(** * Part III: further properties of the code *)
(* ================================================================== *)

(** ** Splitting a command into tokens *)

Module ParseFacts.

Local Open Scope list_scope.

(** A whitespace character ends the token being read. *)
Lemma split_from_space l : forall cur c rest, Str.is_space c = true ->
  Str.split_from cur (l ++ c :: rest) = Str.split_from cur l ++ Str.split_from [] rest.
Proof.
  induction l as [|x l IH]; intros cur c rest Hc.
  - simpl. rewrite Hc. destruct cur; reflexivity.
  - simpl. destruct (Str.is_space x).
    + destruct cur; rewrite IH by exact Hc; reflexivity.
    + apply IH, Hc.
Qed.

Lemma split_from_spaces l :
  Forall (fun c => Str.is_space c = true) l -> Str.split_from [] l = [].
Proof. induction 1 as [|c l Hc _ IH]; simpl; [|rewrite Hc]; auto. Qed.

Lemma split_from_trailing sp : Forall (fun c => Str.is_space c = true) sp ->
  forall cur l, Str.split_from cur (l ++ sp) = Str.split_from cur l.
Proof.
  intros Hsp cur l. destruct Hsp as [|c sp Hc Hsp].
  - rewrite app_nil_r. reflexivity.
  - rewrite split_from_space by exact Hc.
    rewrite (split_from_spaces sp Hsp), app_nil_r. reflexivity.
Qed.

Lemma lstrip_chars_decomp l :
  exists sp, Forall (fun c => Str.is_space c = true) sp /\ l = sp ++ Str.lstrip_chars l.
Proof.
  induction l as [|c l (sp & Hsp & E)].
  - exists []. split; [constructor | reflexivity].
  - simpl. destruct (Str.is_space c) eqn:Hc.
    + exists (c :: sp). split; [constructor; assumption|]. simpl. f_equal. exact E.
    + exists []. split; [constructor | reflexivity].
Qed.

Lemma split_from_lstrip l : Str.split_from [] (Str.lstrip_chars l) = Str.split_from [] l.
Proof.
  induction l as [|c l IH]; simpl; [reflexivity|].
  destruct (Str.is_space c) eqn:Hc; [exact IH|]. simpl. rewrite Hc. reflexivity.
Qed.

(** Stripping a command does not change its tokens. *)
Lemma split_strip s : Str.split (Str.strip s) = Str.split s.
Proof.
  unfold Str.split, Str.strip. rewrite list_ascii_of_string_of_list_ascii.
  set (l1 := Str.lstrip_chars (list_ascii_of_string s)).
  destruct (lstrip_chars_decomp (rev l1)) as (sp & Hsp & E).
  apply (f_equal (@rev _)) in E. rewrite rev_involutive, rev_app_distr in E.
  rewrite <- (split_from_lstrip (list_ascii_of_string s)). fold l1.
  rewrite E at 2. symmetry. apply split_from_trailing. apply Forall_rev, Hsp.
Qed.





Lemma split_empty_strip s : Str.split s <> [] -> Str.strip s <> "".
Proof.
  intros Hs E. apply Hs. rewrite <- split_strip, E. reflexivity.
Qed.

Lemma nat_of_upper_char c :
  nat_of_ascii (Str.upper_char c)
  = if Str.is_lower c then (nat_of_ascii c - 32)%nat else nat_of_ascii c.
Proof.
  unfold Str.upper_char. destruct (Str.is_lower c) eqn:E; [|reflexivity].
  apply nat_ascii_embedding. pose proof (nat_ascii_bounded c). lia.
Qed.

Lemma same_letter_upper c d : same_letter c d = true -> Str.upper_char c = Str.upper_char d.
Proof.
  intros H. apply ascii_eq_nat. rewrite !nat_of_upper_char.
  unfold same_letter, Str.is_upper, Str.is_lower in *. cbv zeta in *.
  revert H. generalize (nat_of_ascii c) (nat_of_ascii d). intros m n H.
  repeat match goal with
         | |- context [(?a <=? ?b)%nat] => destruct (Nat.leb_spec a b)
         | H : context [(?a <=? ?b)%nat] |- _ => destruct (Nat.leb_spec a b)
         | H : context [(?a =? ?b)%nat] |- _ => destruct (Nat.eqb_spec a b)
         end; simpl in *; try discriminate; try lia.
Qed.

Lemma equal_ignoring_case_upper a : forall b,
  equal_ignoring_case a b = true -> Str.upper a = Str.upper b.
Proof.
  induction a as [|c a IH]; intros [|d b]; simpl; try discriminate; [reflexivity|].
  intros H. apply andb_prop in H as [Hc Hr].
  unfold Str.upper in *. simpl. rewrite (same_letter_upper c d Hc), (IH b Hr). reflexivity.
Qed.

(** The upper-case form of a character is not a lower-case letter. *)
Lemma upper_char_not_lower c : Str.is_lower (Str.upper_char c) = false.
Proof.
  unfold Str.is_lower at 1. cbv zeta. rewrite nat_of_upper_char.
  destruct (Str.is_lower c) eqn:E; [|exact E].
  unfold Str.is_lower in E. cbv zeta in E.
  revert E. generalize (nat_of_ascii c). intros n E.
  apply andb_prop in E as [E1 E2].
  apply Nat.leb_le in E1. apply Nat.leb_le in E2.
  destruct (Nat.leb_spec 97 (n - 32)); [lia | reflexivity].
Qed.

End ParseFacts.

Import ParseFacts.

(** ** The cache of the coin list *)

Module CacheFacts.

Lemma get_coin_list_hit w st coins :
  coin_list_cache st = Some coins -> get_coin_list w st = (OK coins, st).
Proof. intros E. unfold get_coin_list. rewrite E. reflexivity. Qed.

(** What a call that finds the cache empty does. *)
Lemma get_coin_list_miss w st :
  coin_list_cache st = None ->
  get_coin_list w st =
  match w CoinsList with
  | NoResponse => (Raise RequestException, after_request st CoinsList)
  | Response status body =>
      if ((400 <=? status) && (status <? 600))%Z
      then (Raise (HTTPError status), after_request st CoinsList)
      else match body with
           | None => (Raise JSONDecodeError, after_request st CoinsList)
           | Some coins =>
               (OK coins, {| coin_list_cache := Some coins;
                             sent := (sent st ++ [CoinsList])%list |})
           end
  end.
Proof.
  intros E.
  unfold get_coin_list, get_coin_list_uncached, bind, lift, Requests.get,
    Requests.raise_for_status, Requests.json, after_request.
  rewrite E. destruct (w CoinsList) as [|status body]; [reflexivity|].
  simpl. destruct ((400 <=? status) && (status <? 600))%Z; [reflexivity|].
  destruct body; reflexivity.
Qed.

Lemma get_coin_list_filled w st coins st' :
  get_coin_list w st = (OK coins, st') -> coin_list_cache st' = Some coins.
Proof.
  destruct (coin_list_cache st) as [c|] eqn:E.
  - rewrite (get_coin_list_hit w st c E). intros Eq. injection Eq as <- <-. exact E.
  - rewrite (get_coin_list_miss w st E).
    destruct (w CoinsList) as [|status body]; [discriminate|].
    destruct ((400 <=? status) && (status <? 600))%Z; [discriminate|].
    destruct body; [|discriminate]. intros Eq. injection Eq as <- <-. reflexivity.
Qed.

(** [symbol_to_id] changes the state through [get_coin_list] only. *)
Lemma symbol_to_id_state w symbol st :
  snd (symbol_to_id w symbol st) = snd (get_coin_list w st).
Proof.
  unfold symbol_to_id, bind, lift.
  destruct (get_coin_list w st) as [[coins|e] st1]; [|reflexivity].
  destruct (iterate coins); reflexivity.
Qed.

Lemma symbol_to_id_of_list w symbol st coins st' :
  get_coin_list w st = (OK coins, st') ->
  symbol_to_id w symbol st
  = ((items <- iterate coins ;; symbol_to_id_loop (Str.lower symbol) items)%result, st').
Proof.
  intros E. unfold symbol_to_id. rewrite (bind_OK _ _ _ _ _ E), bind_lift.
  destruct (iterate coins); reflexivity.
Qed.

(** Entries that carry a string symbol which does not match are passed
    over, whether or not they carry an identifier. *)
Lemma symbol_to_id_loop_skip symbol before rest :
  Forall (fun c => coin_symbol c <> None /\ ~ matches symbol c) before ->
  symbol_to_id_loop (Str.lower symbol) (before ++ rest)%list
  = symbol_to_id_loop (Str.lower symbol) rest.
Proof.
  induction 1 as [|c before [Hs Hno] _ IH]; [reflexivity|].
  destruct c as [| | | | | |fields]; simpl in Hs; try congruence.
  destruct (Py.lookup "symbol" fields) as [[| | | |s| |]|] eqn:Es; try congruence.
  simpl. rewrite Es. simpl.
  destruct (String.eqb (Str.lower s) (Str.lower symbol)) eqn:E; [|exact IH].
  exfalso. apply Hno. exists s. simpl. rewrite Es. split; [reflexivity|].
  apply lower_eq_iff, String.eqb_eq, E.
Qed.

End CacheFacts.

Import CacheFacts.

(** X1: once [get_coin_list] has returned a list, the list is cached for
    good: every later call returns the same list without sending a request,
    whatever the provider would answer by then, and a later [symbol_to_id]
    leaves the state as it is. *)
Theorem get_coin_list_cached (w : world) (st st' : state) (coins : json) :
  get_coin_list w st = (OK coins, st') ->
  coin_list_cache st' = Some coins
  /\ forall w' : world,
       get_coin_list w' st' = (OK coins, st')
       /\ forall symbol, snd (symbol_to_id w' symbol st') = st'.
Proof.
  intros E. pose proof (get_coin_list_filled w st coins st' E) as Hc.
  split; [exact Hc|]. intros w'.
  pose proof (get_coin_list_hit w' st' coins Hc) as Hhit.
  split; [exact Hhit|]. intros symbol.
  rewrite symbol_to_id_state, Hhit. reflexivity.
Qed.

Lemma get_coin_list_cached_witness :
  get_coin_list (sample_world NoResponse) initial_state
  = (OK sample_coins, {| coin_list_cache := Some sample_coins; sent := [CoinsList] |})
  /\ get_coin_list (fun _ => NoResponse)
       {| coin_list_cache := Some sample_coins; sent := [CoinsList] |}
     = (OK sample_coins, {| coin_list_cache := Some sample_coins; sent := [CoinsList] |}).
Proof.
  assert (E : get_coin_list (sample_world NoResponse) initial_state
              = (OK sample_coins,
                 {| coin_list_cache := Some sample_coins; sent := [CoinsList] |}))
    by reflexivity.
  split; [exact E|].
  exact (proj1 (proj2 (get_coin_list_cached _ _ _ _ E) (fun _ => NoResponse))).
Defined.

(** X2: a call of [get_coin_list] that raises caches nothing.  It found the
    cache empty and sent the one request for the list; the exception is that
    of the transport, of the status (4xx or 5xx) or of the decoding; and the
    next call asks the provider again. *)
Theorem get_coin_list_failure (w : world) (st st' : state) (e : exn) :
  get_coin_list w st = (Raise e, st') ->
  coin_list_cache st = None
  /\ st' = after_request st CoinsList
  /\ coin_list_cache st' = None
  /\ ((w CoinsList = NoResponse /\ e = RequestException)
      \/ (exists status body, w CoinsList = Response status body
            /\ (400 <= status < 600)%Z /\ e = HTTPError status)
      \/ (exists status, w CoinsList = Response status None
            /\ ~ (400 <= status < 600)%Z /\ e = JSONDecodeError))
  /\ forall (w' : world) coins,
       w' CoinsList = Response 200 (Some coins) ->
       fst (get_coin_list w' st') = OK coins.
Proof.
  intros E.
  destruct (coin_list_cache st) as [c|] eqn:Ec.
  { rewrite (get_coin_list_hit w st c Ec) in E. discriminate E. }
  split; [reflexivity|].
  rewrite (get_coin_list_miss w st Ec) in E.
  assert (Est : st' = after_request st CoinsList).
  { destruct (w CoinsList) as [|status body]; [congruence|].
    destruct ((400 <=? status) && (status <? 600))%Z; [congruence|].
    destruct body; [discriminate | congruence]. }
  split; [exact Est|].
  assert (Hc : coin_list_cache st' = None) by (rewrite Est; exact Ec).
  split; [exact Hc|]. split.
  - destruct (w CoinsList) as [|status body].
    + left. split; [reflexivity | congruence].
    + right. destruct ((400 <=? status) && (status <? 600))%Z eqn:Es.
      * left. exists status, body. apply andb_prop in Es as [E1 E2].
        apply Z.leb_le in E1. apply Z.ltb_lt in E2.
        split; [reflexivity|]. split; [lia | congruence].
      * right. destruct body; [discriminate|]. exists status.
        split; [reflexivity|]. split; [|congruence].
        intros [H1 H2]. apply Z.leb_le in H1. apply Z.ltb_lt in H2.
        rewrite H1, H2 in Es. discriminate.
  - intros w' coins Hw'. rewrite (get_coin_list_miss w' st' Hc), Hw'. reflexivity.
Qed.

Lemma get_coin_list_failure_witness :
  get_coin_list (fun _ => Response 429 None) initial_state
  = (Raise (HTTPError 429), after_request initial_state CoinsList)
  /\ fst (get_coin_list (sample_world NoResponse) (after_request initial_state CoinsList))
     = OK sample_coins.
Proof.
  assert (E : get_coin_list (fun _ => Response 429 None) initial_state
              = (Raise (HTTPError 429), after_request initial_state CoinsList))
    by reflexivity.
  split; [exact E|].
  destruct (get_coin_list_failure _ _ _ _ E) as (_ & _ & _ & _ & Hnext).
  exact (Hnext (sample_world NoResponse) sample_coins eq_refl).
Defined.

(** ** Symbol resolver, continued *)

(** X3: [symbol_to_id] does not see the letter case of its argument: two
    symbols that are equal up to case resolve alike, result and state. *)
Theorem symbol_to_id_ignores_case (w : world) (st : state) (a b : string) :
  equal_ignoring_case a b = true ->
  symbol_to_id w a st = symbol_to_id w b st.
Proof.
  intros H. apply lower_eq_iff in H. unfold symbol_to_id. rewrite H. reflexivity.
Qed.

Lemma symbol_to_id_ignores_case_witness :
  equal_ignoring_case "bTc" "BTC" = true
  /\ symbol_to_id (sample_world NoResponse) "bTc" initial_state
     = symbol_to_id (sample_world NoResponse) "BTC" initial_state.
Proof.
  split; [reflexivity|].
  exact (symbol_to_id_ignores_case (sample_world NoResponse) initial_state "bTc" "BTC"
           eq_refl).
Defined.

(** X4: the loop of [symbol_to_id] returns at the first entry whose symbol
    matches, with whatever [coin["id"]] evaluates to (a [KeyError] if the
    entry has no identifier).  The entries after it are never read: they
    need not be well formed; of the entries before it only the symbol is
    read. *)
Theorem symbol_to_id_stops_at_match (w : world) (st st' : state) (symbol : string)
    (before after : list json) (coin : json) :
  get_coin_list w st = (OK (JArr (before ++ coin :: after)%list), st') ->
  Forall (fun c => coin_symbol c <> None /\ ~ matches symbol c) before ->
  matches symbol coin ->
  symbol_to_id w symbol st = (Py.getitem coin "id", st').
Proof.
  intros E Hb (s & Hs & Hm).
  rewrite (symbol_to_id_of_list _ _ _ _ _ E). cbn [iterate rbind].
  rewrite (symbol_to_id_loop_skip symbol before _ Hb).
  destruct coin as [| | | | | |fields]; simpl in Hs; try discriminate.
  destruct (Py.lookup "symbol" fields) as [[| | | |s'| |]|] eqn:Es; try discriminate.
  injection Hs as ->. simpl. rewrite Es. simpl.
  apply lower_eq_iff in Hm. rewrite Hm, String.eqb_refl. reflexivity.
Qed.

Lemma symbol_to_id_stops_at_match_witness :
  symbol_to_id
    (fun _ => Response 200
                (Some (JArr [ JObj [("symbol", JStr "eth")];
                              JObj [("id", JStr "bitcoin"); ("symbol", JStr "btc")];
                              JNull; JInt 7 ])))
    "BTC" initial_state
  = (OK (JStr "bitcoin"),
     {| coin_list_cache :=
          Some (JArr [ JObj [("symbol", JStr "eth")];
                       JObj [("id", JStr "bitcoin"); ("symbol", JStr "btc")];
                       JNull; JInt 7 ]);
        sent := [CoinsList] |}).
Proof.
  match goal with
  | |- symbol_to_id ?w _ _ = (_, ?s) =>
      assert (E : get_coin_list w initial_state
                  = (OK (JArr ([JObj [("symbol", JStr "eth")]]
                               ++ JObj [("id", JStr "bitcoin"); ("symbol", JStr "btc")]
                               :: [JNull; JInt 7])%list), s)) by reflexivity
  end.
  refine (symbol_to_id_stops_at_match _ _ _ "BTC" _ _ _ E _ _).
  - constructor; [|constructor]. split; [discriminate|].
    intros (s & Hs & Hm). injection Hs as <-. discriminate Hm.
  - exists "btc". split; reflexivity.
Defined.

(** X5: an entry that has no string symbol and comes before any match stops
    the resolution with an exception: [KeyError] when the entry is an
    object without the key, [AttributeError] when the symbol is not a
    string, [TypeError] when the entry is not an object. *)
Theorem symbol_to_id_malformed_entry (w : world) (st st' : state) (symbol : string)
    (before after : list json) (bad : json) :
  get_coin_list w st = (OK (JArr (before ++ bad :: after)%list), st') ->
  Forall (fun c => coin_symbol c <> None /\ ~ matches symbol c) before ->
  coin_symbol bad = None ->
  symbol_to_id w symbol st
  = (Raise match bad with
           | JObj fields =>
               match Py.lookup "symbol" fields with
               | None => KeyError (JStr "symbol")
               | Some _ => AttributeError
               end
           | _ => TypeError
           end, st').
Proof.
  intros E Hb Hbad.
  rewrite (symbol_to_id_of_list _ _ _ _ _ E). cbn [iterate rbind].
  rewrite (symbol_to_id_loop_skip symbol before _ Hb).
  destruct bad as [| | | | | |fields]; try reflexivity.
  simpl in Hbad. simpl.
  destruct (Py.lookup "symbol" fields) as [[| | | |s| |]|]; try reflexivity.
  discriminate Hbad.
Qed.

Lemma symbol_to_id_malformed_entry_witness :
  fst (symbol_to_id
         (fun _ => Response 200
                     (Some (JArr [ JObj [("id", JStr "ethereum"); ("symbol", JStr "eth")];
                                   JObj [("id", JStr "nameless")];
                                   JObj [("id", JStr "bitcoin"); ("symbol", JStr "btc")] ])))
         "btc" initial_state)
  = Raise (KeyError (JStr "symbol")).
Proof.
  match goal with
  | |- fst (symbol_to_id ?w _ _) = _ =>
      assert (E : get_coin_list w initial_state
                  = (OK (JArr ([JObj [("id", JStr "ethereum"); ("symbol", JStr "eth")]]
                               ++ JObj [("id", JStr "nameless")]
                               :: [JObj [("id", JStr "bitcoin"); ("symbol", JStr "btc")]])%list),
                     snd (get_coin_list w initial_state))) by reflexivity
  end.
  refine (f_equal fst (symbol_to_id_malformed_entry _ _ _ "btc" _ _ _ E _ eq_refl)).
  constructor; [|constructor]. split; [discriminate|].
  intros (s & Hs & Hm). injection Hs as <-. discriminate Hm.
Defined.

(** X6: when the provider's answer decodes to something that is not a
    list, the [for] loop runs over the keys of an object or the characters
    of a string, and the subscript [coin["symbol"]] raises [TypeError] at
    the first of them; an empty object or string gives no iteration and the
    result [None]; anything else is not iterable. *)
Theorem symbol_to_id_not_a_list (w : world) (st st' : state) (symbol : string)
    (coins : json) :
  get_coin_list w st = (OK coins, st') ->
  (forall items, coins <> JArr items) ->
  symbol_to_id w symbol st
  = (match coins with
     | JObj [] | JStr EmptyString => OK JNull
     | _ => Raise TypeError
     end, st').
Proof.
  intros E Hno. rewrite (symbol_to_id_of_list _ _ _ _ _ E).
  destruct coins as [| | | |s|items|fields]; try reflexivity.
  - destruct s; reflexivity.
  - exfalso. exact (Hno items eq_refl).
  - destruct fields as [|[k v] fields]; reflexivity.
Qed.

Lemma symbol_to_id_not_a_list_witness :
  fst (symbol_to_id
         (fun _ => Response 200 (Some (JObj [("error", JStr "rate limited")])))
         "btc" initial_state)
  = Raise TypeError.
Proof.
  match goal with
  | |- fst (symbol_to_id ?w _ _) = _ =>
      assert (E : get_coin_list w initial_state
                  = (OK (JObj [("error", JStr "rate limited")]),
                     snd (get_coin_list w initial_state))) by reflexivity
  end.
  refine (f_equal fst (symbol_to_id_not_a_list _ _ _ "btc" _ E _)).
  intros items. discriminate.
Defined.

(** ** Request handler, continued *)

Module DispatchFacts.

(** What the handler does with a command that has a last token. *)
Lemma handle_analyze_token `{Runtime} w st fields text token others :
  Py.lookup "command" fields = Some (JStr text) ->
  rev (Str.split text) = token :: others ->
  handle_analyze w (Some (JObj fields)) st
  = match analyze_asset w (Str.upper token) st with
    | (OK report, st') => (Jsonify (JObj [("report", JStr report)]) 200, st')
    | (Raise exc, st') => (Jsonify (JObj [("error", JStr (str_of_exn exc))]) 500, st')
    end.
Proof.
  intros Ec Etok.
  assert (Hne : Str.strip text <> "").
  { apply split_empty_strip. intros E. rewrite E in Etok. discriminate Etok. }
  unfold handle_analyze. simpl. rewrite Ec. simpl.
  destruct (Str.strip text) as [|c rest] eqn:Es; [contradiction Hne; reflexivity|].
  simpl negb. cbv iota. rewrite <- Es, split_strip, Etok. reflexivity.
Qed.

End DispatchFacts.

Import DispatchFacts.

(** X7: the handler reads the last whitespace-separated token of the
    command and nothing else of it, and not the letter case of that token:
    two commands whose last tokens are equal up to case get the same
    response and leave the same state. *)
Theorem handle_analyze_last_token `{Runtime} (w : world) (st : state)
    (fields fields' : list (string * json)) (text text' token token' : string)
    (others others' : list string) :
  Py.lookup "command" fields = Some (JStr text) ->
  Py.lookup "command" fields' = Some (JStr text') ->
  rev (Str.split text) = token :: others ->
  rev (Str.split text') = token' :: others' ->
  equal_ignoring_case token token' = true ->
  handle_analyze w (Some (JObj fields)) st = handle_analyze w (Some (JObj fields')) st.
Proof.
  intros Ec Ec' Et Et' Hcase.
  rewrite (handle_analyze_token w st fields text token others Ec Et).
  rewrite (handle_analyze_token w st fields' text' token' others' Ec' Et').
  rewrite (equal_ignoring_case_upper token token' Hcase). reflexivity.
Qed.

Lemma handle_analyze_last_token_witness :
  rev (Str.split "analyze BTC") = ["BTC"; "analyze"]
  /\ rev (Str.split "  what about	btc ") = ["btc"; "about"; "what"]
  /\ equal_ignoring_case "BTC" "btc" = true
  /\ handle_analyze (sample_world NoResponse) (command_body "analyze BTC") initial_state
     = handle_analyze (sample_world NoResponse) (command_body "  what about	btc ")
         initial_state.
Proof.
  split; [reflexivity|]. split; [reflexivity|]. split; [reflexivity|].
  exact (handle_analyze_last_token (sample_world NoResponse) initial_state
           [("command", JStr "analyze BTC")] [("command", JStr "  what about	btc ")]
           "analyze BTC" "  what about	btc " "BTC" "btc" ["analyze"] ["about"; "what"]
           eq_refl eq_refl eq_refl eq_refl eq_refl).
Defined.



(** X9: a body that is not an object, or whose command is not a string,
    makes [data.get] or [.strip()] raise before the [try]: the exception
    escapes the handler, the client gets the error page of status 500
    instead of a JSON body, and nothing was fetched. *)
Theorem handle_analyze_malformed_body `{Runtime} (w : world) (st : state) (data : json) :
  (forall fields, data <> JObj fields)
  \/ (exists fields v, data = JObj fields /\ Py.lookup "command" fields = Some v
        /\ forall text, v <> JStr text) ->
  handle_analyze w (Some data) st = (Abort 500, st).
Proof.
  intros [Hno|(fields & v & -> & Ec & Hv)]; unfold handle_analyze.
  - destruct data as [| | | | | |fields]; try reflexivity.
    exfalso. exact (Hno fields eq_refl).
  - simpl. rewrite Ec. simpl.
    destruct v as [| | | |text| |]; try reflexivity.
    exfalso. exact (Hv text eq_refl).
Qed.

Lemma handle_analyze_malformed_body_witness :
  handle_analyze (sample_world NoResponse) (Some (JObj [("command", JInt 7)])) initial_state
  = (Abort 500, initial_state).
Proof.
  apply (handle_analyze_malformed_body (sample_world NoResponse) initial_state).
  right. exists [("command", JInt 7)], (JInt 7).
  split; [reflexivity|]. split; [reflexivity|]. intros text. discriminate.
Defined.

(** ** Market data client, continued *)

Module ClientFacts.

Lemma take_length n : forall s, (String.length (Str.take n s) <= n)%nat.
Proof.
  unfold Str.take. induction n as [|n IH]; intros [|c s]; simpl; try lia.
  specialize (IH s). lia.
Qed.

Lemma upper_no_lower s c :
  In c (list_ascii_of_string (Str.upper s)) -> Str.is_lower c = false.
Proof.
  unfold Str.upper. induction s as [|d s IH]; simpl; [contradiction|].
  intros [<-|Hin]; [apply upper_char_not_lower | apply IH, Hin].
Qed.

Lemma slice_to_bound n v d :
  Py.slice_to n v = OK d ->
  match d with
  | JStr s => (String.length s <= n)%nat
  | JArr items => (List.length items <= n)%nat
  | _ => False
  end.
Proof.
  destruct v; try discriminate; intros E; injection E as <-.
  - apply take_length.
  - apply firstn_le_length.
Qed.

Lemma description_of_json_bound data d :
  description_of_json data = OK d ->
  match d with
  | JStr s => (String.length s <= 400)%nat
  | JArr items => (List.length items <= 400)%nat
  | _ => False
  end.
Proof.
  unfold description_of_json. intros E.
  destruct (Py.get data "description" (JObj [])) as [v|]; [|discriminate E].
  cbn [rbind] in E.
  destruct (Py.get v "en" (JStr "")) as [en|]; [|discriminate E].
  cbn [rbind] in E.
  exact (slice_to_bound 400 en d E).
Qed.

(** The two steps every client function starts with after the request. *)
Lemma checked_json status body :
  (_ <- Requests.raise_for_status (status, body) ;; Requests.json (status, body))%result
  = if ((400 <=? status) && (status <? 600))%Z then Raise (HTTPError status)
    else match body with
         | Some data => OK data
         | None => Raise JSONDecodeError
         end.
Proof.
  unfold Requests.raise_for_status, Requests.json. simpl.
  destruct ((400 <=? status) && (status <? 600))%Z; [reflexivity|].
  destruct body; reflexivity.
Qed.

Lemma fetch_ohlc_eq `{Runtime} w id days st :
  fetch_ohlc w id days st
  = (match w (MarketChart (Py.str id) days) with
     | NoResponse => Raise RequestException
     | Response status body =>
         (data <- (_ <- Requests.raise_for_status (status, body) ;;
                   Requests.json (status, body)) ;;
          prices <- Py.getitem data "prices" ;;
          data_frame prices)%result
     end, after_request st (MarketChart (Py.str id) days)).
Proof.
  unfold fetch_ohlc, bind, lift, Requests.get, after_request.
  destruct (w (MarketChart (Py.str id) days)) as [|status body]; [reflexivity|].
  destruct (Requests.raise_for_status (status, body)); [|reflexivity].
  cbn [rbind]. destruct (Requests.json (status, body)) as [data|]; [|reflexivity].
  cbn [rbind]. destruct (Py.getitem data "prices"); reflexivity.
Qed.

Lemma fetch_market_overview_eq `{Runtime} w id st :
  fetch_market_overview w id st
  = (match w (CoinOverview (Py.str id)) with
     | NoResponse => Raise RequestException
     | Response status body =>
         (data <- (_ <- Requests.raise_for_status (status, body) ;;
                   Requests.json (status, body)) ;;
          overview_of_json data)%result
     end, after_request st (CoinOverview (Py.str id))).
Proof.
  unfold fetch_market_overview, bind, lift, Requests.get, after_request.
  destruct (w (CoinOverview (Py.str id))) as [|status body]; [reflexivity|].
  destruct (Requests.raise_for_status (status, body)); [|reflexivity].
  cbn [rbind]. destruct (Requests.json (status, body)) as [data|]; reflexivity.
Qed.

End ClientFacts.

Import ClientFacts.

(** X10: every overview that [fetch_market_overview] builds is normalised:
    its symbol, upper-cased, contains no lower-case letter, and its
    description, cut by [[:400]], has at most 400 characters (or items, if
    the provider sent a list). *)
Theorem overview_of_json_normalised (data : json) (ov : Overview.t) :
  overview_of_json data = OK ov ->
  (forall c, In c (list_ascii_of_string (Overview.symbol ov)) -> Str.is_lower c = false)
  /\ match Overview.description ov with
     | JStr s => (String.length s <= 400)%nat
     | JArr items => (List.length items <= 400)%nat
     | _ => False
     end.
Proof.
  unfold overview_of_json. intros E.
  destruct (Py.getitem data "market_data") as [md|]; [|discriminate E].
  cbn [rbind] in E.
  destruct (Py.get data "name" JNull) as [name|]; [|discriminate E].
  cbn [rbind] in E.
  destruct (Py.get data "symbol" JNull) as [sym|]; [|discriminate E].
  cbn [rbind] in E.
  destruct (Py.str_method Str.upper sym) as [symbol|] eqn:Es; [|discriminate E].
  cbn [rbind] in E.
  destruct (description_of_json data) as [d|] eqn:Ed.
  - pose proof (description_of_json_bound data d Ed) as Hd.
    repeat match type of E with
           | rbind ?r _ = _ => destruct r; [cbn [rbind] in E | discriminate E]
           end.
    injection E as <-. cbn [Overview.symbol Overview.description].
    split; [|exact Hd].
    destruct sym; try discriminate Es. injection Es as <-.
    intros c. apply upper_no_lower.
  - exfalso.
    repeat match type of E with
           | rbind ?r _ = _ => destruct r; [cbn [rbind] in E | discriminate E]
           end.
    discriminate E.
Qed.

Lemma overview_of_json_normalised_witness :
  exists ov, overview_of_json sample_overview = OK ov
    /\ Overview.symbol ov = "BTC"
    /\ forall c, In c (list_ascii_of_string (Overview.symbol ov)) -> Str.is_lower c = false.
Proof.
  eexists. split; [reflexivity|]. split; [reflexivity|].
  exact (proj1 (overview_of_json_normalised sample_overview _ eq_refl)).
Defined.

(** X11: which exception a defective payload raises, in the order the body
    of [fetch_market_overview] evaluates: the subscript [data["market_data"]]
    comes first ([TypeError] for a payload that is not an object,
    [KeyError] for a missing key); then [data.get("symbol").upper()]
    ([AttributeError] when the symbol is absent or not a string, whatever
    the market data holds); then the quotes ([TypeError] when the market
    data is not an object, [KeyError] when it has no current price). *)
Theorem overview_of_json_first_error (data : json) :
  ((forall fields, data <> JObj fields) -> overview_of_json data = Raise TypeError)
  /\ (forall fields, data = JObj fields ->
      (Py.lookup "market_data" fields = None ->
         overview_of_json data = Raise (KeyError (JStr "market_data")))
      /\ (forall md, Py.lookup "market_data" fields = Some md ->
          ((Py.lookup "symbol" fields = None
            \/ exists v, Py.lookup "symbol" fields = Some v /\ forall s, v <> JStr s) ->
             overview_of_json data = Raise AttributeError)
          /\ (forall sym, Py.lookup "symbol" fields = Some (JStr sym) ->
              ((forall quotes, md <> JObj quotes) ->
                 overview_of_json data = Raise TypeError)
              /\ (forall quotes, md = JObj quotes ->
                  Py.lookup "current_price" quotes = None ->
                  overview_of_json data = Raise (KeyError (JStr "current_price")))))).
Proof.
  split.
  { intros Hno. destruct data as [| | | | | |fields]; try reflexivity.
    exfalso. exact (Hno fields eq_refl). }
  intros fields ->. unfold overview_of_json. split.
  { intros Emd. simpl. rewrite Emd. reflexivity. }
  intros md Emd. simpl. rewrite Emd. cbn [rbind].
  destruct (Py.lookup "name" fields); cbn [rbind].
  all: split.
  1, 3: intros [Es|(v & Es & Hv)]; rewrite Es; cbn [rbind]; try reflexivity;
        destruct v; try reflexivity; exfalso; eapply Hv; reflexivity.
  all: intros sym Es; rewrite Es; cbn [rbind Py.str_method]; split.
  1, 3: intros Hno; destruct md as [| | | | | |quotes]; try reflexivity;
        exfalso; exact (Hno quotes eq_refl).
  all: intros quotes -> Ecp; simpl; rewrite Ecp; reflexivity.
Qed.

Lemma overview_of_json_first_error_witness :
  overview_of_json (JObj [("symbol", JStr "btc")]) = Raise (KeyError (JStr "market_data"))
  /\ overview_of_json (JObj [("market_data", JNull)]) = Raise AttributeError
  /\ overview_of_json (JObj [("symbol", JStr "btc"); ("market_data", JNull)])
     = Raise TypeError.
Proof.
  split; [|split].
  - exact (proj1 (proj2 (overview_of_json_first_error _)
                    [("symbol", JStr "btc")] eq_refl) eq_refl).
  - exact (proj1 (proj2 (proj2 (overview_of_json_first_error _)
                           [("market_data", JNull)] eq_refl) JNull eq_refl)
             (or_introl eq_refl)).
  - refine (proj1 (proj2 (proj2 (proj2 (overview_of_json_first_error _)
                                   [("symbol", JStr "btc"); ("market_data", JNull)]
                                   eq_refl) JNull eq_refl) "btc" eq_refl) _).
    intros quotes. discriminate.
Defined.

(** X12: [fetch_ohlc] sends exactly one request, the market chart of the
    coin for the number of days asked, and leaves the cache alone, whatever
    comes back.  It raises [RequestException] when there is no response,
    [HTTPError] for a 4xx or 5xx status even if the body carries prices,
    [JSONDecodeError] for a body that is not JSON, and [KeyError] for an
    object without ["prices"]. *)
Theorem fetch_ohlc_failures `{Runtime} (w : world) (id : json) (days : Z) (st : state) :
  let r := MarketChart (Py.str id) days in
  let outcome := fst (fetch_ohlc w id days st) in
  snd (fetch_ohlc w id days st) = after_request st r
  /\ (w r = NoResponse -> outcome = Raise RequestException)
  /\ (forall status body, w r = Response status body ->
      ((400 <= status < 600)%Z -> outcome = Raise (HTTPError status))
      /\ (~ (400 <= status < 600)%Z ->
          (body = None -> outcome = Raise JSONDecodeError)
          /\ (forall fields, body = Some (JObj fields) ->
              Py.lookup "prices" fields = None ->
              outcome = Raise (KeyError (JStr "prices"))))).
Proof.
  intros r outcome. unfold outcome. rewrite fetch_ohlc_eq. fold r. cbn [fst snd].
  split; [reflexivity|]. split; [intros ->; reflexivity|].
  intros status body ->. rewrite checked_json. split.
  - intros [H1 H2]. apply Z.leb_le in H1. apply Z.ltb_lt in H2. rewrite H1, H2. reflexivity.
  - intros Hok.
    assert (Hs : ((400 <=? status) && (status <? 600))%Z = false).
    { destruct (Z.leb_spec 400 status), (Z.ltb_spec status 600); simpl; auto.
      exfalso. apply Hok. lia. }
    rewrite Hs. split.
    + intros ->. reflexivity.
    + intros fields -> Ep. simpl. rewrite Ep. reflexivity.
Qed.

Lemma fetch_ohlc_failures_witness :
  snd (fetch_ohlc (sample_world NoResponse) (JStr "dogecoin") 365 initial_state)
  = after_request initial_state (MarketChart "dogecoin" 365)
  /\ fst (fetch_ohlc (sample_world NoResponse) (JStr "dogecoin") 365 initial_state)
     = Raise (HTTPError 404).
Proof.
  destruct (fetch_ohlc_failures (sample_world NoResponse) (JStr "dogecoin") 365 initial_state)
    as (Hst & _ & Hresp).
  split; [exact Hst|].
  apply (proj1 (Hresp 404%Z None eq_refl)). split; [discriminate | reflexivity].
Defined.

(** ** The pipeline of [analyze_asset] *)

Module PipelineFacts.

Local Open Scope list_scope.

(** [analyze_asset], step by step. *)
Lemma analyze_asset_eq `{Runtime} w symbol st :
  analyze_asset w symbol st =
  match symbol_to_id w symbol st with
  | (Raise e, st1) => (Raise e, st1)
  | (OK id, st1) =>
      if negb (Py.truthy id) then (OK (not_found_message symbol), st1)
      else
        match fetch_market_overview w id st1 with
        | (Raise e, st2) => (Raise e, st2)
        | (OK overview, st2) =>
            match fetch_ohlc w id 365 st2 with
            | (Raise e, st3) => (Raise e, st3)
            | (OK df, st3) =>
                match iloc_last (compute_technicals df) with
                | Raise e => (Raise e, st3)
                | OK latest =>
                    match fear_greed_index w st3 with
                    | (Raise e, st4) => (Raise e, st4)
                    | (OK reading, st4) =>
                        match report_lines overview latest (column_min (tail 30 df))
                                (column_max (tail 30 df)) df (fst reading) (snd reading)
                        with
                        | Raise e => (Raise e, st4)
                        | OK lines => (OK (Str.join Str.nl lines), st4)
                        end
                    end
                end
            end
        end
  end.
Proof.
  unfold analyze_asset, bind.
  destruct (symbol_to_id w symbol st) as [[id|e] st1]; [|reflexivity].
  destruct (negb (Py.truthy id)); [reflexivity|].
  destruct (fetch_market_overview w id st1) as [[overview|e] st2]; [|reflexivity].
  destruct (fetch_ohlc w id 365 st2) as [[df|e] st3]; [|reflexivity].
  unfold lift at 1.
  destruct (iloc_last (compute_technicals df)) as [latest|e]; [|reflexivity].
  destruct (fear_greed_index w st3) as [[[fear_greed fng_text]|e] st4]; [|reflexivity].
  unfold lift, ret. cbn [fst snd].
  destruct (report_lines overview latest (column_min (tail 30 df))
              (column_max (tail 30 df)) df fear_greed fng_text); reflexivity.
Qed.


(** The resolver and the two clients look at the provider's answer to
    their own request only. *)
Lemma get_coin_list_ext w1 w2 st :
  w1 CoinsList = w2 CoinsList -> get_coin_list w1 st = get_coin_list w2 st.
Proof.
  intros Hw. destruct (coin_list_cache st) as [c|] eqn:Ec.
  - rewrite !(get_coin_list_hit _ st c Ec). reflexivity.
  - rewrite !(get_coin_list_miss _ st Ec), Hw. reflexivity.
Qed.

Lemma symbol_to_id_ext w1 w2 symbol st :
  w1 CoinsList = w2 CoinsList -> symbol_to_id w1 symbol st = symbol_to_id w2 symbol st.
Proof.
  intros Hw. unfold symbol_to_id, bind. rewrite (get_coin_list_ext w1 w2 st Hw). reflexivity.
Qed.

(** The reading changes one line of the report, not whether there is one. *)
Lemma report_lines_reading `{Runtime} overview latest support resistance close
    fear_greed fng_text fear_greed' fng_text' :
  match report_lines overview latest support resistance close fear_greed fng_text,
        report_lines overview latest support resistance close fear_greed' fng_text'
  with
  | OK lines, OK lines' => List.length lines = List.length lines'
  | Raise e, Raise e' => e = e'
  | _, _ => False
  end.
Proof.
  unfold report_lines.
  repeat match goal with
         | |- context [rbind ?r _] => destruct r; cbn [rbind]; [|reflexivity]
         end.
  rewrite !length_app. reflexivity.
Qed.

End PipelineFacts.

Import PipelineFacts.



(** X14: the sentiment provider cannot make an analysis fail or succeed.
    Against two worlds that differ in the answers of the sentiment provider
    only, [analyze_asset] sends the same requests and leaves the same
    state, and it raises in the one exactly when it raises in the other,
    with the same exception. *)
Theorem analyze_asset_sentiment_independent `{Runtime} (w1 w2 : world)
    (symbol : string) (st : state) :
  (forall r, (forall timeout, r <> FearGreed timeout) -> w1 r = w2 r) ->
  snd (analyze_asset w1 symbol st) = snd (analyze_asset w2 symbol st)
  /\ forall e, fst (analyze_asset w1 symbol st) = Raise e
               <-> fst (analyze_asset w2 symbol st) = Raise e.
Proof.
  intros Hw. rewrite !analyze_asset_eq.
  rewrite (symbol_to_id_ext w1 w2 symbol st) by (apply Hw; discriminate).
  destruct (symbol_to_id w2 symbol st) as [[id|e1] st1]; [|split; reflexivity].
  destruct (negb (Py.truthy id)); [split; reflexivity|].
  rewrite !fetch_market_overview_eq.
  rewrite (Hw (CoinOverview (Py.str id))) by discriminate.
  match goal with
  | |- context [match ?r2 with _ => _ end] => destruct r2 as [overview|e2]
  end; [|split; reflexivity].
  rewrite !fetch_ohlc_eq.
  rewrite (Hw (MarketChart (Py.str id) 365)) by discriminate.
  match goal with
  | |- context [match ?r3 with _ => _ end] => destruct r3 as [df|e3]
  end; [|split; reflexivity].
  destruct (iloc_last (compute_technicals df)) as [latest|e4]; [|split; reflexivity].
  rewrite !fear_greed_index_eq.
  match goal with
  | |- context [report_lines ?a ?b ?c ?d ?e (fst ?p1) (snd ?p1)] =>
      match goal with
      | |- context [report_lines a b c d e (fst ?p2) (snd ?p2)] =>
          lazymatch p2 with
          | p1 => fail
          | _ => pose proof (report_lines_reading a b c d e (fst p1) (snd p1)
                               (fst p2) (snd p2)) as Hr
          end
      end
  end.
  match type of Hr with
  | match ?x with _ => _ end => destruct x
  end;
  match type of Hr with
  | match ?y with _ => _ end => destruct y
  end; cbn [fst snd]; try contradiction.
  - split; [reflexivity|]. intros e. split; discriminate.
  - subst. split; reflexivity.
Qed.

Lemma analyze_asset_sentiment_independent_witness :
  snd (analyze_asset (sample_world NoResponse) "BTC" initial_state)
  = snd (analyze_asset (sample_world (Response 200 (Some sample_reading))) "BTC"
           initial_state).
Proof.
  refine (proj1 (analyze_asset_sentiment_independent (sample_world NoResponse)
                   (sample_world (Response 200 (Some sample_reading))) "BTC"
                   initial_state _)).
  intros r Hr. destruct r as [| | |timeout]; try reflexivity.
  exfalso. exact (Hr timeout eq_refl).
Defined.

(** X15: the sentiment block never raises: it sends its one request, with
    a timeout of 10 seconds, and gives the reading of the payload when the
    body decodes and holds one, and the pair [("N/A", "Unavailable")] in
    every other case. *)
Theorem fear_greed_index_never_raises (w : world) (st : state) :
  exists reading,
    fear_greed_index w st = (OK reading, after_request st (FearGreed 10))
    /\ ((exists status data, w (FearGreed 10) = Response status (Some data)
                             /\ reading_of data = OK reading)
        \/ (reading = sentinel
            /\ forall status data r, w (FearGreed 10) = Response status (Some data) ->
                                     reading_of data <> OK r)).
Proof.
  rewrite fear_greed_index_eq.
  destruct (w (FearGreed 10)) as [|status [data|]].
  - exists sentinel. split; [reflexivity|]. right. split; [reflexivity | discriminate].
  - destruct (reading_of data) as [reading|e] eqn:Er.
    + exists reading. split; [reflexivity|]. left. exists status, data. auto.
    + exists sentinel. split; [reflexivity|]. right. split; [reflexivity|].
      intros status' data' r E. injection E as _ <-. rewrite Er. discriminate.
  - exists sentinel. split; [reflexivity|]. right. split; [reflexivity | discriminate].
Qed.

(** ** Support, resistance and the lines of the report *)

Module WindowFacts.

Local Open Scope list_scope.

Section Fold.

Variable pick : Q -> Q -> Q.
Variable R : Q -> Q -> Prop.
Hypothesis pick_choice : forall a b, pick a b = a \/ pick a b = b.
Hypothesis pick_l : forall a b, R (pick a b) a.
Hypothesis pick_r : forall a b, R (pick a b) b.
Hypothesis R_refl : forall a, R a a.
Hypothesis R_trans : forall a b c, R a b -> R b c -> R a c.

(** The fold of [s.min()] and [s.max()], from any starting value: the
    result is one of the values met and is in relation with each of them;
    it is NaN only if every value is. *)
Lemma column_fold_from (c : column) : forall acc,
  match fold_left (fun acc x =>
                     match acc, x with
                     | Some a, Some b => Some (pick a b)
                     | None, _ => x
                     | _, None => acc
                     end) c acc
  with
  | Some m =>
      (acc = Some m \/ In (Some m) c)
      /\ (forall a, acc = Some a -> R m a)
      /\ (forall x, In (Some x) c -> R m x)
  | None => acc = None /\ forall v, In v c -> v = None
  end.
Proof.
  induction c as [|x c IH]; intros acc; cbn [fold_left].
  - destruct acc as [m|].
    + split; [left; reflexivity|]. split.
      * intros a E. injection E as <-. apply R_refl.
      * intros x [].
    + split; [reflexivity|]. intros v [].
  - match goal with
    | |- context [fold_left ?f c ?a] => specialize (IH a); destruct (fold_left f c a) as [m|]
    end.
    + destruct IH as (Hin & Hacc & Hall).
      destruct acc as [a|], x as [b|].
      * specialize (Hacc _ eq_refl). split; [|split].
        -- destruct Hin as [E|Hin]; [|right; right; exact Hin].
           injection E as <-. destruct (pick_choice a b) as [->| ->]; [left | right; left];
             reflexivity.
        -- intros a' E. injection E as <-. eapply R_trans; [exact Hacc | apply pick_l].
        -- intros x [E|Hx]; [|apply Hall, Hx]. injection E as <-.
           eapply R_trans; [exact Hacc | apply pick_r].
      * split; [|split].
        -- destruct Hin as [E|Hin]; [left; exact E | right; right; exact Hin].
        -- exact Hacc.
        -- intros x [E|Hx]; [discriminate E | apply Hall, Hx].
      * split; [|split].
        -- destruct Hin as [E|Hin]; [right; left; exact E | right; right; exact Hin].
        -- discriminate.
        -- intros x [E|Hx]; [|apply Hall, Hx]. injection E as <-. apply Hacc. reflexivity.
      * split; [|split].
        -- destruct Hin as [E|Hin]; [discriminate E | right; right; exact Hin].
        -- discriminate.
        -- intros x [E|Hx]; [discriminate E | apply Hall, Hx].
    + destruct IH as (Hacc & Hall). destruct acc as [a|], x as [b|]; try discriminate Hacc.
      split; [reflexivity|]. intros v [<-|Hv]; [reflexivity | apply Hall, Hv].
Qed.

End Fold.

Lemma column_min_spec c :
  match column_min c with
  | Some m => In (Some m) c /\ forall x, In (Some x) c -> m <= x
  | None => forall v, In v c -> v = None
  end.
Proof.
  assert (H1 : forall a b : Q, (if Qle_bool a b then a else b) = a
                               \/ (if Qle_bool a b then a else b) = b)
    by (intros a b; destruct (Qle_bool a b); auto).
  assert (H2 : forall a b : Q, (if Qle_bool a b then a else b) <= a)
    by (intros a b; destruct (Qle_bool a b) eqn:E;
        [apply Qle_refl | apply Qlt_le_weak, Qle_bool_false, E]).
  assert (H3 : forall a b : Q, (if Qle_bool a b then a else b) <= b)
    by (intros a b; destruct (Qle_bool a b) eqn:E;
        [apply Qle_bool_iff, E | apply Qle_refl]).
  pose proof (column_fold_from (fun a b => if Qle_bool a b then a else b) Qle
                H1 H2 H3 Qle_refl Qle_trans c None) as Hf.
  unfold column_min, column_fold.
  match type of Hf with
  | match ?r with _ => _ end => destruct r as [m|]
  end.
  - destruct Hf as ([E|Hin] & _ & Hall); [discriminate E|]. auto.
  - apply Hf.
Qed.

Lemma column_max_spec c :
  match column_max c with
  | Some m => In (Some m) c /\ forall x, In (Some x) c -> x <= m
  | None => forall v, In v c -> v = None
  end.
Proof.
  assert (H1 : forall a b : Q, (if Qle_bool a b then b else a) = a
                               \/ (if Qle_bool a b then b else a) = b)
    by (intros a b; destruct (Qle_bool a b); auto).
  assert (H2 : forall a b : Q, a <= (if Qle_bool a b then b else a))
    by (intros a b; destruct (Qle_bool a b) eqn:E;
        [apply Qle_bool_iff, E | apply Qle_refl]).
  assert (H3 : forall a b : Q, b <= (if Qle_bool a b then b else a))
    by (intros a b; destruct (Qle_bool a b) eqn:E;
        [apply Qle_refl | apply Qlt_le_weak, Qle_bool_false, E]).
  assert (H4 : forall a b c' : Q, b <= a -> c' <= b -> c' <= a)
    by (intros a b c' Hab Hbc; eapply Qle_trans; eassumption).
  pose proof (column_fold_from (fun a b => if Qle_bool a b then b else a)
                (fun m x => x <= m) H1 H2 H3 Qle_refl H4 c None) as Hf.
  unfold column_max, column_fold.
  match type of Hf with
  | match ?r with _ => _ end => destruct r as [m|]
  end.
  - destruct Hf as ([E|Hin] & _ & Hall); [discriminate E|]. auto.
  - apply Hf.
Qed.


End WindowFacts.

Import WindowFacts.

(** X16: support and resistance are the lowest and the highest defined
    close among the last 30 rows of the history (all of them, when there
    are fewer): both are values of that window, every defined close of the
    window lies between them, so support never exceeds resistance; and they
    are NaN, both, only when the window holds no defined close. *)
Theorem support_resistance_bounds (df : column) :
  let recent_window := tail 30 df in
  List.length recent_window = Nat.min 30 (List.length df)
  /\ (exists older, df = (older ++ recent_window)%list)
  /\ match column_min recent_window, column_max recent_window with
     | Some support, Some resistance =>
         In (Some support) recent_window /\ In (Some resistance) recent_window
         /\ support <= resistance
         /\ forall x, In (Some x) recent_window -> support <= x <= resistance
     | None, None => forall v, In v recent_window -> v = None
     | _, _ => False
     end.
Proof.
  intros recent_window. split; [|split].
  - unfold recent_window, tail. rewrite length_skipn. lia.
  - exists (firstn (List.length df - 30) df). symmetry. apply firstn_skipn.
  - pose proof (column_min_spec recent_window) as Hmin.
    pose proof (column_max_spec recent_window) as Hmax.
    destruct (column_min recent_window) as [support|],
             (column_max recent_window) as [resistance|].
    + destruct Hmin as [Hin1 Hlo], Hmax as [Hin2 Hhi].
      repeat split; auto.
    + destruct Hmin as [Hin _]. specialize (Hmax _ Hin). discriminate Hmax.
    + destruct Hmax as [Hin _]. specialize (Hmin _ Hin). discriminate Hmin.
    + exact Hmin.
Qed.





(** X19: the report cannot be built without the current price, the market
    cap, the 24h volume and the circulating supply: when the overview holds
    [None] for one of them (as it does for a circulating supply that the
    provider left out, which [fetch_market_overview] accepts), the analysis
    that fetched it raises.  The total supply is the one figure with a
    fallback. *)
Theorem analyze_asset_needs_figures `{Runtime} (w : world) (symbol : string)
    (st st1 st2 : state) (id : json) (overview : Overview.t) :
  symbol_to_id w symbol st = (OK id, st1) ->
  Py.truthy id = true ->
  fetch_market_overview w id st1 = (OK overview, st2) ->
  (Overview.current_price overview = JNull
   \/ Overview.market_cap overview = JNull
   \/ Overview.volume_24h overview = JNull
   \/ Overview.circulating_supply overview = JNull) ->
  exists e, fst (analyze_asset w symbol st) = Raise e.
Proof.
  intros E1 Hid E2 Hnull.
  assert (Hr : forall latest support resistance close fear_greed fng_text,
             exists e, report_lines overview latest support resistance close
                         fear_greed fng_text = Raise e).
  { intros. unfold report_lines.
    destruct (Py.format_commas (Overview.current_price overview)) as [price|e] eqn:Ep;
      [|exists e; reflexivity].
    cbn [rbind].
    destruct (human_format (Overview.market_cap overview)) as [cap|e] eqn:Ec;
      [|exists e; reflexivity].
    cbn [rbind].
    destruct (human_format (Overview.volume_24h overview)) as [vol|e] eqn:Ev;
      [|exists e; reflexivity].
    cbn [rbind].
    destruct (human_format (Overview.circulating_supply overview)) as [circ|e] eqn:Es;
      [|exists e; reflexivity].
    exfalso. destruct Hnull as [N|[N|[N|N]]]; rewrite N in *; discriminate. }
  rewrite analyze_asset_eq, E1, Hid. cbn [negb]. rewrite E2.
  destruct (fetch_ohlc w id 365 st2) as [[df|e] st3]; [|exists e; reflexivity].
  destruct (iloc_last (compute_technicals df)) as [latest|e]; [|exists e; reflexivity].
  destruct (fear_greed_index w st3) as [[reading|e] st4]; [|exists e; reflexivity].
  destruct (Hr latest (column_min (tail 30 df)) (column_max (tail 30 df)) df
              (fst reading) (snd reading)) as [e Ee].
  rewrite Ee. exists e. reflexivity.
Qed.

Lemma analyze_asset_needs_figures_witness :
  fst (fetch_market_overview nameless_world (JStr "bitcoin")
         {| coin_list_cache := Some sample_coins; sent := [CoinsList] |})
  = OK (Overview.mk JNull "BTC" (JInt 50000) (JInt 1000000000000)
          (JInt 20000000000) JNull JNull (JStr ""))
  /\ exists e, fst (analyze_asset nameless_world "BTC" initial_state) = Raise e.
Proof.
  split; [reflexivity|].
  refine (analyze_asset_needs_figures nameless_world "BTC" initial_state
            {| coin_list_cache := Some sample_coins; sent := [CoinsList] |}
            {| coin_list_cache := Some sample_coins;
               sent := [CoinsList; CoinOverview "bitcoin"] |}
            (JStr "bitcoin")
            (Overview.mk JNull "BTC" (JInt 50000) (JInt 1000000000000)
               (JInt 20000000000) JNull JNull (JStr ""))
            eq_refl eq_refl eq_refl _).
  right. right. right. reflexivity.
Defined.

(** ** Utility helpers, continued *)

Module SignFacts.

Lemma Qopp_opp_eq (q : Q) : - - q = q.
Proof. destruct q as [n d]. unfold Qopp. simpl. rewrite Z.opp_involutive. reflexivity. Qed.

Lemma Qabs_opp_eq (q : Q) : Qabs (- q) = Qabs q.
Proof. destruct q as [n d]. unfold Qabs, Qopp. simpl. rewrite Z.abs_opp. reflexivity. Qed.

(** Rounding commutes with the change of sign. *)
Lemma RN_opp q : RN (- q) = - RN q.
Proof.
  destruct (Q_dec q 0) as [[Hlt|Hgt]|He].
  - assert (Hp : 0 < - q) by lra. unfold RN.
    rewrite (proj1 (Qgt_alt (- q) 0) Hp), (proj1 (Qlt_alt q 0) Hlt).
    rewrite Qred_opp, Qopp_opp_eq. reflexivity.
  - assert (Hn : - q < 0) by lra. unfold RN.
    rewrite (proj1 (Qlt_alt (- q) 0) Hn), (proj1 (Qgt_alt q 0) Hgt).
    rewrite Qopp_opp_eq. apply Qred_opp.
  - assert (Hz : - q == 0) by lra.
    rewrite (RN_zero _ Hz), (RN_zero _ He). reflexivity.
Qed.

(** The loop treats a number and its opposite alike. *)
Lemma human_format_loop_opp fuel : forall x magnitude,
  human_format_loop fuel (- x) magnitude
  = option_map (fun r => (- fst r, snd r)) (human_format_loop fuel x magnitude).
Proof.
  induction fuel as [|fuel IH]; intros x magnitude; cbn [human_format_loop];
    rewrite Qabs_opp_eq; destruct (Qle_bool 1000 (Qabs x)); try reflexivity.
  rewrite (RN_eq (- x / 1000) (- (x / 1000))) by (field; discriminate).
  rewrite RN_opp. apply IH.
Qed.

Lemma human_format_scale_opp x :
  human_format_scale (- x)
  = option_map (fun r => (- fst r, snd r)) (human_format_scale x).
Proof.
  unfold human_format_scale, human_format_fuel. rewrite Qabs_opp_eq.
  apply human_format_loop_opp.
Qed.

(** The loop keeps a positive number positive. *)
Lemma human_format_loop_pos fuel : forall x magnitude v k,
  0 < x -> human_format_loop fuel x magnitude = Some (v, k) -> 0 < v.
Proof.
  induction fuel as [|fuel IH]; intros x magnitude v k Hx E;
    cbn [human_format_loop] in E;
    destruct (Qle_bool 1000 (Qabs x)); try discriminate E;
    try (injection E as <- _; exact Hx).
  apply IH in E; [exact E|].
  assert (Hq : 0 < x / 1000) by (apply Qlt_shift_div_l; [reflexivity | lra]).
  rewrite (RN_gt _ Hq). apply RNpos_pos, Hq.
Qed.

Lemma format_2f_opp v : 0 < v -> Str.format_2f (- v) = "-" ++ Str.format_2f v.
Proof.
  intros Hv. assert (Hn : - v < 0) by lra. unfold Str.format_2f.
  rewrite Qabs_opp_eq, (proj1 (Qlt_alt (- v) 0) Hn), (proj1 (Qgt_alt v 0) Hv).
  reflexivity.
Qed.

End SignFacts.

Import SignFacts.





(** X22: [human_format] is odd in its argument: for a positive float, the
    text of the opposite number is the text of the number with a minus
    sign in front, suffix and digits unchanged, and the one raises exactly
    when the other does. *)
Theorem human_format_negative `{Runtime} (x : Q) :
  0 < x ->
  human_format (JFloat (- x)) = (s <- human_format (JFloat x) ;; OK ("-" ++ s)).
Proof.
  intros Hx. unfold human_format. cbn [Py.float rbind].
  rewrite human_format_scale_opp.
  destruct (human_format_scale x) as [[v k]|] eqn:E; [|reflexivity].
  cbn [option_map fst snd].
  destruct (nth_error suffixes k) as [suffix|]; [|reflexivity].
  cbn [rbind]. rewrite (format_2f_opp v); [reflexivity|].
  exact (human_format_loop_pos _ _ _ _ _ Hx E).
Qed.

Lemma human_format_negative_witness :
  0 < 1234567
  /\ human_format (JFloat (Qopp 1234567)) = OK "-1.23M".
Proof.
  split; [reflexivity|].
  rewrite (human_format_negative 1234567 eq_refl). reflexivity.
Defined.

(** ** Trend rendering, continued *)

(** X23: for a positive width the chart is always produced, and the number
    of its glyphs is at least the smaller of the length of the series and
    the width, at most the length of the series, and less than twice the
    width: the stride [len // width] is rounded down, so up to
    [2 * width - 1] points are kept, not [width]. *)
Theorem build_ascii_chart_length (series : list Q) (width : Z) :
  (0 < width)%Z ->
  exists line,
    build_ascii_chart series width = OK line
    /\ (Z.min (Z.of_nat (List.length series)) width <= Z.of_nat (List.length line))%Z
    /\ (List.length line <= List.length series)%nat
    /\ (Z.of_nat (List.length line) < 2 * width)%Z.
Proof.
  intros Hw.
  destruct (Z.lt_ge_cases (Z.of_nat (List.length series)) width) as [Hshort|Hlong].
  - exists (Sparklines.scale_values series).
    split; [apply build_ascii_chart_short, Hshort|].
    rewrite scale_values_length. lia.
  - exists (Sparklines.scale_values
              (stride 0 (Z.to_nat (Z.of_nat (List.length series) / width)) series)).
    split; [apply build_ascii_chart_long; assumption|].
    rewrite scale_values_length.
    set (L := List.length series) in *.
    set (W := Z.to_nat width).
    assert (EW : width = Z.of_nat W) by (unfold W; lia).
    assert (HW : (1 <= W)%nat) by lia.
    assert (HL : (W <= L)%nat) by lia.
    assert (Es : Z.to_nat (Z.of_nat L / width) = (L / W)%nat).
    { rewrite EW, <- Nat2Z.inj_div. apply Nat2Z.id. }
    rewrite Es. set (step := (L / W)%nat).
    assert (Hstep : (1 <= step)%nat).
    { unfold step. apply Nat.div_le_lower_bound; lia. }
    pose proof (Nat.div_mod L W ltac:(lia)) as Hdm.
    pose proof (Nat.mod_upper_bound L W ltac:(lia)) as Hmod.
    fold step in Hdm.
    rewrite (stride_length step series Hstep 0). fold L.
    replace (L + (step - 1) - 0)%nat with (L + (step - 1))%nat by lia.
    assert (H1 : (W <= (L + (step - 1)) / step)%nat).
    { apply Nat.div_le_lower_bound; [lia|]. nia. }
    assert (H2 : ((L + (step - 1)) / step <= L)%nat).
    { apply Nat.Div0.div_le_upper_bound. nia. }
    assert (H3 : ((L + (step - 1)) / step < 2 * W)%nat).
    { apply Nat.Div0.div_lt_upper_bound. nia. }
    lia.
Qed.

Lemma build_ascii_chart_length_witness :
  (0 < 60)%Z
  /\ exists line,
       build_ascii_chart (repeat 1 119) 60 = OK line
       /\ List.length line = 119%nat.
Proof.
  split; [reflexivity|].
  destruct (build_ascii_chart_length (repeat 1 119) 60 eq_refl) as (line & E & _).
  exists line. split; [exact E|].
  vm_compute in E. injection E as <-. reflexivity.
Defined.

(** X24: a width that is not positive.  At width zero the floor division
    of the stride raises [ZeroDivisionError], whatever the series.  At a
    negative width the stride [len // width] is zero for an empty series,
    and the slice raises [ValueError]; for a series that is not empty it is
    negative, the series is sampled backwards from its last point, and the
    chart is produced. *)
Theorem build_ascii_chart_nonpositive_width (series : list Q) (width : Z) :
  (width <= 0)%Z ->
  (width = 0%Z -> build_ascii_chart series width = Raise ZeroDivisionError)
  /\ ((width < 0)%Z -> series = [] -> build_ascii_chart series width = Raise ValueError)
  /\ ((width < 0)%Z -> series <> [] ->
      exists p,
        (Z.of_nat (List.length series) / width = Z.neg p)%Z
        /\ build_ascii_chart series width
           = OK (Sparklines.scale_values (stride 0 (Pos.to_nat p) (rev series)))
        /\ nth_error (stride 0 (Pos.to_nat p) (rev series)) 0
           = Some (last series 0)).
Proof.
  intros Hw. unfold build_ascii_chart.
  assert (Hlt : (Z.of_nat (List.length series) <? width)%Z = false)
    by (apply Z.ltb_ge; lia).
  rewrite Hlt. split; [|split].
  - intros ->. reflexivity.
  - intros Hneg ->. destruct (Z.eqb_spec width 0) as [E|_]; [lia|]. reflexivity.
  - intros Hneg Hne. destruct (Z.eqb_spec width 0) as [E|_]; [lia|].
    assert (Hlen : (0 < Z.of_nat (List.length series))%Z).
    { destruct series; [contradiction | simpl List.length; lia]. }
    pose proof (Z.mod_neg_bound (Z.of_nat (List.length series)) width Hneg) as Hmod.
    pose proof (Z.div_mod (Z.of_nat (List.length series)) width ltac:(lia)) as Hdm.
    assert (Hstep : (Z.of_nat (List.length series) / width < 0)%Z) by nia.
    destruct (Z.of_nat (List.length series) / width)%Z as [|p|p] eqn:Ediv; try lia.
    exists p. split; [reflexivity|]. split.
    + cbn [slice_step rbind]. rewrite first_line_sparklines. reflexivity.
    + destruct (exists_last Hne) as (front & x & ->).
      rewrite rev_app_distr, last_last. reflexivity.
Qed.

Lemma build_ascii_chart_nonpositive_width_witness :
  (-2 <= 0)%Z
  /\ build_ascii_chart [] (-2) = Raise ValueError
  /\ build_ascii_chart (map inject_Z [1; 2; 3; 4; 5]%Z) (-2)
     = OK (Sparklines.scale_values (map inject_Z [5; 2]%Z)).
Proof.
  assert (Hw : (-2 <= 0)%Z) by discriminate.
  split; [exact Hw|].
  destruct (build_ascii_chart_nonpositive_width [] (-2) Hw) as (_ & Hempty & _).
  destruct (build_ascii_chart_nonpositive_width (map inject_Z [1; 2; 3; 4; 5]%Z) (-2) Hw)
    as (_ & _ & Hback).
  split; [exact (Hempty eq_refl eq_refl)|].
  destruct (Hback eq_refl ltac:(discriminate)) as (p & Ep & E & _).
  vm_compute in Ep. injection Ep as <-. exact E.
Defined.
